(** * A shallow embedding of [kind_crawling.py] (KRX KIND disclosure scraper)

    The development follows the Python module function by function:

    - Python [str] values are sequences of Unicode code points ([pystr]);
    - Python exceptions are an explicit result type ([Res]);
    - [datetime] values at midnight are calendar dates ([date]);
    - Selenium calls are oracles over an abstract browser world, threaded
      through a state-and-exception monad in which the state survives a
      raised exception, as it does in Python.

    Names of definitions are those of the source wherever Rocq allows. *)

From Stdlib Require Import ZArith List String Ascii Lia Bool Arith.
From Stdlib Require Import DecimalString.
From ExtLib Require Import Structures.Monad Structures.MonadExc.
Import ListNotations MonadNotation.
Open Scope Z_scope.
Open Scope monad_scope.

(* ===================================================================== *)
(** * Python strings *)
(* ===================================================================== *)

(** A Python [str] is a sequence of code points. *)
Definition pystr := list Z.

(** Source literals are written as UTF-8 byte strings and decoded. *)
Definition byte_of (c : ascii) : Z := Z.of_nat (nat_of_ascii c).

Fixpoint utf8_decode (s : string) : pystr :=
  match s with
  | EmptyString => []
  | String c0 r0 =>
      let b0 := byte_of c0 in
      if b0 <? 128 then b0 :: utf8_decode r0
      else if b0 <? 224 then
        match r0 with
        | String c1 r1 =>
            ((b0 - 192) * 64 + (byte_of c1 - 128)) :: utf8_decode r1
        | EmptyString => []
        end
      else if b0 <? 240 then
        match r0 with
        | String c1 (String c2 r2) =>
            ((b0 - 224) * 4096 + (byte_of c1 - 128) * 64 + (byte_of c2 - 128))
              :: utf8_decode r2
        | _ => []
        end
      else
        match r0 with
        | String c1 (String c2 (String c3 r3)) =>
            ((b0 - 240) * 262144 + (byte_of c1 - 128) * 4096
             + (byte_of c2 - 128) * 64 + (byte_of c3 - 128))
              :: utf8_decode r3
        | _ => []
        end
  end.

Definition py (s : string) : pystr := utf8_decode s.

Definition pystr_eqb (a b : pystr) : bool :=
  if list_eq_dec Z.eq_dec a b then true else false.

(** [s.startswith(p)] *)
Fixpoint startswith (p s : pystr) : bool :=
  match p, s with
  | [], _ => true
  | _ :: _, [] => false
  | a :: p', b :: s' => (a =? b) && startswith p' s'
  end.

(** [needle in hay] on strings: occurs_in test. *)
Fixpoint contains (needle hay : pystr) : bool :=
  startswith needle hay ||
  match hay with
  | [] => false
  | _ :: t => contains needle t
  end.

(** The propositional reading of [needle in hay]. *)
Definition occurs_in (needle hay : pystr) : Prop :=
  exists pre post, hay = pre ++ needle ++ post.

(** [any(k in s for k in keywords)] *)
Definition any_in (keywords : list pystr) (s : pystr) : bool :=
  existsb (fun k => contains k s) keywords.

(** [s in [a, b, ...]] on a list of strings. *)
Definition str_in_list (s : pystr) (l : list pystr) : bool :=
  existsb (pystr_eqb s) l.

(** [str.isspace] on one code point (also the class [\s] of [re] on [str]
    patterns). *)
Definition isspace (c : Z) : bool :=
  ((9 <=? c) && (c <=? 13)) || ((28 <=? c) && (c <=? 32))
  || (c =? 133) || (c =? 160) || (c =? 5760)
  || ((8192 <=? c) && (c <=? 8202))
  || (c =? 8232) || (c =? 8233) || (c =? 8239) || (c =? 8287)
  || (c =? 12288).

Fixpoint lstrip (s : pystr) : pystr :=
  match s with
  | c :: t => if isspace c then lstrip t else s
  | [] => []
  end.

Definition rstrip (s : pystr) : pystr := rev (lstrip (rev s)).

(** [s.strip()] *)
Definition strip (s : pystr) : pystr := rstrip (lstrip s).

(** [len(s)] *)
Definition len {A} (l : list A) : Z := Z.of_nat (List.length l).

(** Truthiness of a string: [if s] / [not s]. *)
Definition truthy (s : pystr) : bool :=
  match s with [] => false | _ => true end.

Definition ascii_codes (s : string) : pystr :=
  List.map byte_of (list_ascii_of_string s).

(** [str(n)] for an integer. *)
Definition str_of_int (n : Z) : pystr :=
  ascii_codes (NilZero.string_of_int (Z.to_int n)).

(* ===================================================================== *)
(** * Exceptions *)
(* ===================================================================== *)

(** The exception classes the module mentions or can meet.  All of them
    derive from [Exception]; [NoSuchElementException] and
    [TimeoutException] are the two the source singles out. *)
Inductive exn : Type :=
| ValueError
| OverflowError
| TypeError
| NoSuchElementException
| TimeoutException
| WebDriverException
| OtherException.

Inductive Res (A : Type) : Type :=
| Ok (a : A)
| Raise (e : exn).
Arguments Ok {A} a.
Arguments Raise {A} e.

Definition is_no_such_element (e : exn) : bool :=
  match e with NoSuchElementException => true | _ => false end.


(* ===================================================================== *)
(** * The Python runtime tables the module relies on *)
(* ===================================================================== *)

(** Behaviour of built-ins that is fixed by CPython's Unicode database and
    not by this module: [str.lower], the decimal value of a digit character
    (the class [\d] of [re] and the digits [int] accepts), [str.isdigit],
    and [int(s)], which raises [ValueError] on a string it cannot convert.
    [strftime_pads_year] is fixed by the platform: [strftime] hands [%Y] to
    the C library, which pads a year below 1000 with zeros on some
    platforms and not on others (glibc writes [999]). *)
Class PyRuntime : Type := {
  str_lower : pystr -> pystr;
  unicode_decimal : Z -> option Z;
  str_isdigit : pystr -> bool;
  int_of_str : pystr -> Res Z;
  strftime_pads_year : bool
}.

(* ===================================================================== *)
(** * Calendar dates ([datetime] at midnight) *)
(* ===================================================================== *)

Record date : Type := mkdate { year : Z; month : Z; day : Z }.

Definition MINYEAR : Z := 1.
Definition MAXYEAR : Z := 9999.

Definition is_leap (y : Z) : bool :=
  (y mod 4 =? 0) && (negb (y mod 100 =? 0) || (y mod 400 =? 0)).

Definition days_in_month (y m : Z) : Z :=
  if m =? 2 then (if is_leap y then 29 else 28)
  else if (m =? 4) || (m =? 6) || (m =? 9) || (m =? 11) then 30
  else 31.

Definition valid_ymd (y m d : Z) : bool :=
  (MINYEAR <=? y) && (y <=? MAXYEAR) && (1 <=? m) && (m <=? 12)
  && (1 <=? d) && (d <=? days_in_month y m).

Definition valid_date (dt : date) : bool :=
  valid_ymd (year dt) (month dt) (day dt).

(** [datetime(y, m, d)]: [ValueError] when a field is out of range. *)
Definition datetime_new (y m d : Z) : Res date :=
  if valid_ymd y m d then Ok (mkdate y m d) else Raise ValueError.

(** [dt.replace(year=..., month=...)]; an absent keyword keeps the field. *)
Definition replace (dt : date) (y m : option Z) : Res date :=
  datetime_new (match y with Some v => v | None => year dt end)
               (match m with Some v => v | None => month dt end)
               (day dt).

(** Days before January 1st of year [y] (proleptic Gregorian). *)
Definition days_before_year (y : Z) : Z :=
  let p := y - 1 in p * 365 + p / 4 - p / 100 + p / 400.

(** Days of year [y] before the first day of month [m]. *)
Definition days_before_month (y m : Z) : Z :=
  fold_right Z.add 0
    (List.map (days_in_month y)
       (List.map Z.of_nat (seq 1 (Z.to_nat (m - 1))))).

(** [dt.toordinal()] *)
Definition toordinal (dt : date) : Z :=
  days_before_year (year dt) + days_before_month (year dt) (month dt) + day dt.

(** [a < b] and [a > b] on datetimes: field-wise, most significant first. *)
Definition date_ltb (a b : date) : bool :=
  (year a <? year b)
  || ((year a =? year b)
      && ((month a <? month b)
          || ((month a =? month b) && (day a <? day b)))).

Definition date_gtb (a b : date) : bool := date_ltb b a.

(** [dt + timedelta(days=1)]: [OverflowError] past 9999-12-31. *)
Definition add_one_day (dt : date) : Res date :=
  if day dt <? days_in_month (year dt) (month dt)
  then Ok (mkdate (year dt) (month dt) (day dt + 1))
  else if month dt <? 12
  then Ok (mkdate (year dt) (month dt + 1) 1)
  else if year dt <? MAXYEAR
  then Ok (mkdate (year dt + 1) 1 1)
  else Raise OverflowError.

(** [(b - a).days] *)
Definition days_between (a b : date) : Z := toordinal b - toordinal a.

Section DateText.
Context {rt : PyRuntime}.

Definition in_range (lo hi c : Z) : bool := (lo <=? c) && (c <=? hi).

(** [%Y]: the regular expression [\d\d\d\d]. *)
Definition parse_Y (s : pystr) : option (Z * pystr) :=
  match s with
  | c1 :: c2 :: c3 :: c4 :: r =>
      match unicode_decimal c1, unicode_decimal c2,
            unicode_decimal c3, unicode_decimal c4 with
      | Some d1, Some d2, Some d3, Some d4 =>
          Some (d1 * 1000 + d2 * 100 + d3 * 10 + d4, r)
      | _, _, _, _ => None
      end
  | _ => None
  end.

(** [%m]: the alternatives [1[0-2]|0[1-9]|[1-9]], tried in this order. *)
Definition parse_m (s : pystr) : option (Z * pystr) :=
  match s with
  | 49 :: c :: r =>
      if in_range 48 50 c then Some (10 + (c - 48), r)
      else Some (1, c :: r)
  | 48 :: c :: r =>
      if in_range 49 57 c then Some (c - 48, r) else None
  | c :: r =>
      if in_range 49 57 c then Some (c - 48, r) else None
  | [] => None
  end.

(** [%d]: the alternatives [3[01]|[12]\d|0[1-9]|[1-9]| [1-9]]. *)
Definition parse_d (s : pystr) : option (Z * pystr) :=
  let one :=
    match s with
    | c :: r => if in_range 49 57 c then Some (c - 48, r) else None
    | [] => None
    end in
  match s with
  | 51 :: c :: r =>
      if in_range 48 49 c then Some (30 + (c - 48), r) else one
  | 49 :: c :: r =>
      match unicode_decimal c with
      | Some v => Some (10 + v, r)
      | None => one
      end
  | 50 :: c :: r =>
      match unicode_decimal c with
      | Some v => Some (20 + v, r)
      | None => one
      end
  | 48 :: c :: r =>
      if in_range 49 57 c then Some (c - 48, r) else None
  | 32 :: c :: r =>
      if in_range 49 57 c then Some (c - 48, r) else None
  | _ => one
  end.

Definition expect_char (ch : Z) (s : pystr) : option pystr :=
  match s with
  | c :: r => if c =? ch then Some r else None
  | [] => None
  end.

(** [datetime.strptime(s, '%Y-%m-%d')]: the format's regular expression
    must match a prefix, nothing may remain, and the fields must form a
    date; otherwise [ValueError]. *)
Definition strptime (s : pystr) : Res date :=
  match parse_Y s with
  | None => Raise ValueError
  | Some (y, s1) =>
      match expect_char 45 s1 with
      | None => Raise ValueError
      | Some s2 =>
          match parse_m s2 with
          | None => Raise ValueError
          | Some (m, s3) =>
              match expect_char 45 s3 with
              | None => Raise ValueError
              | Some s4 =>
                  match parse_d s4 with
                  | None => Raise ValueError
                  | Some (d, []) => datetime_new y m d
                  | Some (_, _ :: _) => Raise ValueError
                  end
              end
          end
      end
  end.
End DateText.

(** Zero-padded decimal of a non-negative number, [w] digits wide at least. *)
Definition zero_pad (w : nat) (n : Z) : pystr :=
  let s := str_of_int n in
  repeat 48 (w - List.length s) ++ s.

Section DateFormat.
Context {rt : PyRuntime}.

(** [%Y]: four digits from the year 1000 on; below, with or without
    leading zeros as the platform has it. *)
Definition format_Y (y : Z) : pystr :=
  if strftime_pads_year then zero_pad 4 y else str_of_int y.

(** [dt.strftime('%Y-%m-%d')] *)
Definition strftime (dt : date) : pystr :=
  format_Y (year dt) ++ [45] ++ zero_pad 2 (month dt) ++ [45]
  ++ zero_pad 2 (day dt).
End DateFormat.

(* ===================================================================== *)
(** * [split_date_range] *)
(* ===================================================================== *)

Section Split.
Context {rt : PyRuntime}.

(** The date [max_months] months after [current_start] as the loop body
    computes it (lines 1001-1005): [replace] raises [ValueError] when the
    month, the year or the day of the result does not exist. *)
Definition shift_months (current_start : date) (max_months : Z) : Res date :=
  if month current_start + max_months <=? 12 then
    replace current_start None (Some (month current_start + max_months))
  else
    let months_over := (month current_start + max_months) - 12 in
    replace current_start (Some (year current_start + 1)) (Some months_over).

(** The [while current_start < end_dt] loop.  [None] is reserved for the
    bound on iterations running out; [Some (Raise e)] is an exception
    escaping the loop body. *)
Fixpoint split_loop (fuel : nat) (max_months : Z) (end_dt : date)
    (current_start : date) (date_ranges : list (pystr * pystr))
  : option (Res (list (pystr * pystr))) :=
  if date_ltb current_start end_dt then
    match fuel with
    | O => None
    | S fuel' =>
        match shift_months current_start max_months with
        | Raise e => Some (Raise e)
        | Ok current_end0 =>
            let current_end :=
              if date_gtb current_end0 end_dt then end_dt
              else current_end0 in
            let date_ranges' :=
              date_ranges
              ++ [(strftime current_start, strftime current_end)] in
            match add_one_day current_end with
            | Raise e => Some (Raise e)
            | Ok current_start' =>
                split_loop fuel' max_months end_dt current_start'
                           date_ranges'
            end
        end
    end
  else Some (Ok date_ranges).

(** Iterations the loop can need: one per day of the range when the
    ranges move forward, and a constant when [max_months] is negative. *)
Definition split_fuel (start_dt end_dt : date) : nat :=
  (Z.to_nat (days_between start_dt end_dt) + 25)%nat.

(** The body of the [try] block. *)
Definition split_date_range_try (start_date end_date : pystr)
    (max_months : Z) : option (Res (list (pystr * pystr))) :=
  match strptime start_date with
  | Raise e => Some (Raise e)
  | Ok start_dt =>
      match strptime end_date with
      | Raise e => Some (Raise e)
      | Ok end_dt =>
          split_loop (split_fuel start_dt end_dt) max_months end_dt
                     start_dt []
      end
  end.

(** [split_date_range(start_date, end_date, max_months)]:
    [except Exception] returns the unsplit range. *)
Definition split_date_range (start_date end_date : pystr)
    (max_months : Z) : option (list (pystr * pystr)) :=
  match split_date_range_try start_date end_date max_months with
  | None => None
  | Some (Ok date_ranges) => Some date_ranges
  | Some (Raise _) => Some [(start_date, end_date)]
  end.
End Split.

(** ASCII-only instance of the runtime tables on a platform that does not
    pad the year, for concrete runs. *)
Definition ascii_lower_char (c : Z) : Z :=
  if (65 <=? c) && (c <=? 90) then c + 32 else c.

Definition ascii_decimal (c : Z) : option Z :=
  if (48 <=? c) && (c <=? 57) then Some (c - 48) else None.

Definition ascii_isdigit (s : pystr) : bool :=
  truthy s && forallb (fun c => (48 <=? c) && (c <=? 57)) s.

Definition ascii_int (s : pystr) : Res Z :=
  if ascii_isdigit s
  then Ok (fold_left (fun acc c => acc * 10 + (c - 48)) s 0)
  else Raise ValueError.

Definition ascii_runtime : PyRuntime :=
  {| str_lower := List.map ascii_lower_char;
     unicode_decimal := ascii_decimal;
     str_isdigit := ascii_isdigit;
     int_of_str := ascii_int;
     strftime_pads_year := false |}.


(* ===================================================================== *)
(** * Regular expressions used by the module *)
(* ===================================================================== *)

(** A literal piece of a pattern: the rest of the subject after it. *)
Fixpoint strip_prefix (lit s : pystr) : option pystr :=
  match lit, s with
  | [], _ => Some s
  | _ :: _, [] => None
  | a :: lit', b :: s' => if a =? b then strip_prefix lit' s' else None
  end.

(** A greedy character class [[...]*]: the longest run and what follows. *)
Fixpoint span (f : Z -> bool) (s : pystr) : pystr * pystr :=
  match s with
  | c :: t =>
      if f c then let (a, b) := span f t in (c :: a, b) else ([], s)
  | [] => ([], [])
  end.

(** [re.search]: the leftmost position at which the anchored match
    succeeds; the empty suffix is tried last. *)
Fixpoint re_search {A} (re_match : pystr -> option A) (s : pystr)
  : option A :=
  match re_match s with
  | Some r => Some r
  | None =>
      match s with
      | [] => None
      | _ :: t => re_search re_match t
      end
  end.

Definition not_quote (c : Z) : bool := negb (c =? 39).
Definition not_amp (c : Z) : bool := negb (c =? 38).

(** The pattern of [_extract_disclosure_link] for the click handler,
    anchored at the start of [s]: the literal [openDisclsViewer(], then
    three groups, each a quote, a greedy run of non-quote characters and a
    quote, separated by a comma and a greedy run of white space.  Every
    run is followed by a character outside its class, so the greedy run is
    the only way to match. *)
Definition match_openDisclsViewer (s : pystr)
  : option (pystr * pystr * pystr) :=
  match strip_prefix (py "openDisclsViewer('") s with
  | None => None
  | Some s1 =>
      let (acptno, s2) := span not_quote s1 in
      match strip_prefix (py "',") s2 with
      | None => None
      | Some s3 =>
          let (_, s4) := span isspace s3 in
          match strip_prefix (py "'") s4 with
          | None => None
          | Some s5 =>
              let (docno, s6) := span not_quote s5 in
              match strip_prefix (py "',") s6 with
              | None => None
              | Some s7 =>
                  let (_, s8) := span isspace s7 in
                  match strip_prefix (py "'") s8 with
                  | None => None
                  | Some s9 =>
                      let (viewerhost, s10) := span not_quote s9 in
                      match strip_prefix (py "'") s10 with
                      | None => None
                      | Some _ => Some (acptno, docno, viewerhost)
                      end
                  end
              end
          end
      end
  end.

(** The pattern of [_extract_disclosure_link] for the [href] attribute,
    anchored at the start of [s]: the literal
    [disclsviewer.do?method=search&acptno=], a non-empty greedy run of
    characters other than [&], the literal [&docno=], a second such run,
    the literal [&viewerhost=] and a third run. *)
Definition match_disclsviewer_href (s : pystr)
  : option (pystr * pystr * pystr) :=
  match strip_prefix (py "disclsviewer.do?method=search&acptno=") s with
  | None => None
  | Some s1 =>
      let (acptno, s2) := span not_amp s1 in
      if negb (truthy acptno) then None else
      match strip_prefix (py "&docno=") s2 with
      | None => None
      | Some s3 =>
          let (docno, s4) := span not_amp s3 in
          if negb (truthy docno) then None else
          match strip_prefix (py "&viewerhost=") s4 with
          | None => None
          | Some s5 =>
              let (viewerhost, _) := span not_amp s5 in
              if negb (truthy viewerhost) then None
              else Some (acptno, docno, viewerhost)
          end
      end
  end.

Section PageRegex.
Context {rt : PyRuntime}.

(** The class [\d]. *)
Definition is_decimal (c : Z) : bool :=
  match unicode_decimal c with Some _ => true | None => false end.

(** [page[Nn]o?=(\d+)] anchored at the start of [s]; the group. *)
Definition match_pageNo (s : pystr) : option pystr :=
  match strip_prefix (py "page") s with
  | Some (c :: s1) =>
      if (c =? 78) || (c =? 110) then
        let s2 := match s1 with
                  | 111 :: r => r
                  | _ => s1
                  end in
        match strip_prefix (py "=") s2 with
        | None => None
        | Some s3 =>
            let (digits, _) := span is_decimal s3 in
            if truthy digits then Some digits else None
        end
      else None
  | _ => None
  end.

(** [goPage\((\d+)\)] anchored at the start of [s]; the group. *)
Definition match_goPage (s : pystr) : option pystr :=
  match strip_prefix (py "goPage(") s with
  | None => None
  | Some s1 =>
      let (digits, s2) := span is_decimal s1 in
      if truthy digits then
        match strip_prefix (py ")") s2 with
        | Some _ => Some digits
        | None => None
        end
      else None
  end.
End PageRegex.

(* ===================================================================== *)
(** * Records and the pure helpers of the scraper *)
(* ===================================================================== *)

Inductive designation_kind : Type :=
| designation
| cancellation
| other
| unknown.

(** The dictionary returned by [_analyze_title]. *)
Record title_analysis : Type := mkAnalysis {
  a_is_redesignation : bool;
  a_is_preferred_stock : bool;
  a_designation_type : designation_kind
}.

(** One [data_item] dictionary of [extract_page_data]. *)
Record data_item : Type := mkItem {
  row_num : pystr;
  datetime : pystr;
  company_name : pystr;
  title : pystr;
  submitter : pystr;
  disclosure_link : option pystr;
  is_redesignation : bool;
  is_preferred_stock : bool;
  designation_type : designation_kind
}.

Definition base_url : pystr := py "https://kind.krx.co.kr".

(** The f-string assembling the viewer link. *)
Definition disclosure_url (acptno docno viewerhost : pystr) : pystr :=
  base_url ++ py "/common/disclsviewer.do?method=search&acptno=" ++ acptno
  ++ py "&docno=" ++ docno ++ py "&viewerhost=" ++ viewerhost
  ++ py "&viewerport=".

(** [_extract_disclosure_link(onclick_text, href_text)]; an attribute that
    is absent is [None]. *)
Definition _extract_disclosure_link (onclick_text href_text : option pystr)
  : option pystr :=
  let onclick_hit :=
    match onclick_text with
    | Some t => truthy t && contains (py "openDisclsViewer") t
    | None => false
    end in
  if onclick_hit then
    match onclick_text with
    | Some t =>
        match re_search match_openDisclsViewer t with
        | Some (acptno, docno, viewerhost) =>
            Some (disclosure_url acptno docno viewerhost)
        | None => None
        end
    | None => None
    end
  else
    match href_text with
    | Some h =>
        if truthy h && contains (py "disclsviewer.do") h then
          match re_search match_disclsviewer_href h with
          | Some (acptno, docno, viewerhost) =>
              Some (disclosure_url acptno docno viewerhost)
          | None => None
          end
        else None
    | None => None
    end.

Section Titles.
Context {rt : PyRuntime}.

Definition redesignation_keywords : list pystr :=
  [py "재지정"; py "재선정"; py "재대상"].

Definition preferred_keywords : list pystr :=
  [py "우선주"; py "우선株"; py "preferred"].

(** [_analyze_title(title)] *)
Definition _analyze_title (title : pystr) : title_analysis :=
  let is_redesignation := any_in redesignation_keywords title in
  let is_preferred_stock := any_in preferred_keywords (str_lower title) in
  let designation_type :=
    if contains (py "투자경고") title then
      if contains (py "지정") title && negb (contains (py "해제") title)
      then designation
      else if contains (py "해제") title then cancellation
      else other
    else unknown in
  mkAnalysis is_redesignation is_preferred_stock designation_type.
End Titles.

(** [df.drop_duplicates(subset=['datetime', 'company_name', 'title'])]:
    the first row of every key is kept, in order. *)
Definition dedup_key (r : data_item) : pystr * pystr * pystr :=
  (datetime r, company_name r, title r).

Definition key_eqb (a b : pystr * pystr * pystr) : bool :=
  let '(a1, a2, a3) := a in
  let '(b1, b2, b3) := b in
  pystr_eqb a1 b1 && pystr_eqb a2 b2 && pystr_eqb a3 b3.

Fixpoint drop_duplicates_from (seen : list (pystr * pystr * pystr))
    (rows : list data_item) : list data_item :=
  match rows with
  | [] => []
  | r :: rest =>
      if existsb (key_eqb (dedup_key r)) seen
      then drop_duplicates_from seen rest
      else r :: drop_duplicates_from (dedup_key r :: seen) rest
  end.

Definition drop_duplicates (rows : list data_item) : list data_item :=
  drop_duplicates_from [] rows.

(* ===================================================================== *)
(** * State and exceptions *)
(* ===================================================================== *)

(** A computation over a state [S] that returns or raises; the state
    reached when an exception is raised is kept, as in Python. *)
Definition ST (S A : Type) : Type := S -> Res A * S.

#[global] Instance Monad_ST {S} : Monad (ST S) :=
  {| ret := fun A (a : A) s => (Ok a, s);
     bind := fun A B (m : ST S A) (k : A -> ST S B) s =>
       match m s with
       | (Ok a, s') => k a s'
       | (Raise e, s') => (Raise e, s')
       end |}.

(** [raise e] and [try: m except Exception as e: h e]. *)
#[global] Instance Exc_ST {S} : MonadExc exn (ST S) :=
  {| raise := fun A e s => (Raise e, s);
     catch := fun A (m : ST S A) (h : exn -> ST S A) s =>
       match m s with
       | (Ok a, s') => (Ok a, s')
       | (Raise e, s') => h e s'
       end |}.

(** A pure step that may raise. *)
Definition of_res {S A} (r : Res A) : ST S A := fun s => (r, s).

(** A state change that cannot fail. *)
Definition effect {S} (f : S -> S) : ST S unit := fun s => (Ok tt, f s).

(** A step that cannot raise and returns a value. *)
Definition total_step {S A} (f : S -> A * S) : ST S A :=
  fun s => let (a, s') := f s in (Ok a, s').

(** What the body of a [for] loop asks for: go on with the next element,
    [break], or [return r] from the enclosing function.  [A] carries the
    variables the loop updates. *)
Inductive flow (A R : Type) : Type :=
| Continue (a : A)
| Break (a : A)
| Return (r : R).
Arguments Continue {A R} a.
Arguments Break {A R} a.
Arguments Return {A R} r.

(** [for x in xs: body]: [inl a] when the loop is left by exhaustion or
    [break], [inr r] when the body returned [r]. *)
Fixpoint for_in {S X A R} (xs : list X) (a : A)
    (body : X -> A -> ST S (flow A R)) : ST S (A + R) :=
  match xs with
  | [] => ret (inl a)
  | x :: xs' =>
      f <- body x a ;;
      match f with
      | Continue a' => for_in xs' a' body
      | Break a' => ret (inl a')
      | Return r => ret (inr r)
      end
  end.

(** [enumerate(xs)] *)
Definition enumerate {X} (xs : list X) : list (nat * X) :=
  combine (seq 0 (List.length xs)) xs.

(** [xs[i]]: [IndexError] is an [Exception] like any other here. *)
Definition getitem {S X} (xs : list X) (i : nat) : ST S X :=
  match nth_error xs i with
  | Some x => ret x
  | None => raise OtherException
  end.

(** Computations whose loop bound is part of the model: [None] means the
    bound ran out before the computation finished. *)
Definition PT (S A : Type) : Type := S -> option (Res A * S).

#[global] Instance Monad_PT {S} : Monad (PT S) :=
  {| ret := fun A (a : A) s => Some (Ok a, s);
     bind := fun A B (m : PT S A) (k : A -> PT S B) s =>
       match m s with
       | Some (Ok a, s') => k a s'
       | Some (Raise e, s') => Some (Raise e, s')
       | None => None
       end |}.

#[global] Instance Exc_PT {S} : MonadExc exn (PT S) :=
  {| raise := fun A e s => Some (Raise e, s);
     catch := fun A (m : PT S A) (h : exn -> PT S A) s =>
       match m s with
       | Some (Ok a, s') => Some (Ok a, s')
       | Some (Raise e, s') => h e s'
       | None => None
       end |}.

(** [try: m finally: f] *)
Definition try_finally {S A} (m : PT S A) (f : PT S unit) : PT S A :=
  fun s =>
    match m s with
    | Some (r, s') =>
        match f s' with
        | Some (Ok _, s'') => Some (r, s'')
        | Some (Raise e, s'') => Some (Raise e, s'')
        | None => None
        end
    | None => None
    end.

(** A computation that always finishes, used where the bound matters. *)
Definition call {S A} (m : ST S A) : PT S A := fun s => Some (m s).

(** A pure step that may raise. *)
Definition step_res {S A} (r : Res A) : PT S A := fun s => Some (r, s).

Fixpoint pfor_in {S X A R} (xs : list X) (a : A)
    (body : X -> A -> PT S (flow A R)) : PT S (A + R) :=
  match xs with
  | [] => ret (inl a)
  | x :: xs' =>
      f <- body x a ;;
      match f with
      | Continue a' => pfor_in xs' a' body
      | Break a' => ret (inl a')
      | Return r => ret (inr r)
      end
  end.

(* ===================================================================== *)
(** * The browser and the other collaborators *)
(* ===================================================================== *)

Inductive By : Type :=
| By_ID
| By_NAME
| By_XPATH
| By_CSS_SELECTOR
| By_CLASS_NAME
| By_TAG_NAME.

(** The argument of [EC.element_to_be_clickable]: the source passes a
    [(By, value)] tuple at some call sites and a bare XPath string at
    others. *)
Inductive mark : Type :=
| Locator (by_ : By) (value : pystr)
| BareString (value : pystr).

(** Everything outside the module.  [World] is the state of the browser,
    the page it shows and the file system; every call may change it and
    may raise.

    The last group are methods of the scraper itself whose bodies play no
    part in the properties studied here.  Each of them is a single
    [try ... except Exception] that ends in [return True] or
    [return False] (lines 76-162, 250-573) or swallows every exception
    (lines 1177-1244, 1297-1306), which is what their types record. *)
Class Env : Type := {
  World : Type;
  WebElement : Type;
  WebDriver : Type;
  (* selenium *)
  find_elements : By -> pystr -> ST World (list WebElement);
  element_find_elements : WebElement -> By -> pystr
                          -> ST World (list WebElement);
  element_text : WebElement -> ST World pystr;
  get_attribute : WebElement -> pystr -> ST World (option pystr);
  is_enabled : WebElement -> ST World bool;
  is_displayed : WebElement -> ST World bool;
  is_selected : WebElement -> ST World bool;
  wait_until_clickable : Z -> mark -> ST World WebElement;
  execute_script : pystr -> WebElement -> ST World unit;
  current_url : ST World pystr;
  webdriver_Chrome : ST World WebDriver;
  execute_init_script : WebDriver -> ST World unit;
  driver_quit : WebDriver -> ST World unit;
  (* time.sleep, in milliseconds *)
  time_sleep : Z -> World -> World;
  (* pandas and the clock *)
  sort_values_datetime_desc : list data_item -> Res (list data_item);
  sort_values_datetime : list data_item -> Res (list data_item);
  to_csv : list data_item -> pystr -> ST World unit;
  now_timestamp : World -> pystr;
  (* methods of the scraper kept abstract *)
  navigate_to_search_page : World -> bool * World;
  set_date_range : pystr -> pystr -> World -> bool * World;
  select_disclosure_types : option (list pystr) -> World -> bool * World;
  set_page_size : Z -> World -> bool * World;
  click_search_button : World -> bool * World;
  _save_debug_screenshot : pystr -> World -> World;
  save_to_csv : list data_item -> pystr -> World -> World
}.

(* ===================================================================== *)
(** * Page-level methods of [KRXKindSeleniumScraper] *)
(* ===================================================================== *)

Section Page.
Context {rt : PyRuntime} {env : Env}.

Definition sleep (ms : Z) : ST World unit := effect (time_sleep ms).

Definition save_debug_screenshot (prefix : pystr) : ST World unit :=
  effect (_save_debug_screenshot prefix).

Definition js_scroll : pystr := py "arguments[0].scrollIntoView(true);".
Definition js_click : pystr := py "arguments[0].click();".

(** ** [get_current_page_number] (lines 759-796) *)

Definition current_page_selectors : list pystr :=
  [ py "//a[contains(@class, 'current') or contains(@class, 'on') or contains(@class, 'active')]";
    py "//span[contains(@class, 'current') or contains(@class, 'on') or contains(@class, 'active')]";
    py "//strong[contains(@class, 'current') or contains(@class, 'on')]";
    py "//li[contains(@class, 'on') or contains(@class, 'current')]//a";
    py "//div[@class='paging']//strong";
    py "//div[contains(@class, 'page')]//strong" ].

(** The inner [for element in current_elements] loop. *)
Definition scan_current_elements (current_elements : list WebElement)
  : ST World (unit + Z) :=
  for_in current_elements tt (fun element _ =>
    t <- element_text element ;;
    let page_text := strip t in
    if str_isdigit page_text then
      n <- of_res (int_of_str page_text) ;;
      if n >? 0 then ret (Return n) else ret (Continue tt)
    else ret (Continue tt)).

(** The [try] around the URL: a bare [except] that passes. *)
Definition page_number_from_url : ST World (option Z) :=
  catch
    (url <- current_url ;;
     match re_search match_pageNo url with
     | Some group1 => n <- of_res (int_of_str group1) ;; ret (Some n)
     | None => ret None
     end)
    (fun _ => ret None).

Definition get_current_page_number : ST World Z :=
  catch
    (found <- for_in current_page_selectors tt (fun selector _ =>
                catch
                  (current_elements <- find_elements By_XPATH selector ;;
                   r <- scan_current_elements current_elements ;;
                   match r with
                   | inr n => ret (Return n)
                   | inl _ => ret (Continue tt)
                   end)
                  (fun e =>
                     if is_no_such_element e then ret (Continue tt)
                     else raise e)) ;;
     match found with
     | inr n => ret n
     | inl _ =>
         from_url <- page_number_from_url ;;
         match from_url with
         | Some n => ret n
         | None => ret 1
         end
     end)
    (fun _ => ret 1).

(** ** [navigate_to_next_page] (lines 798-904) *)

Definition next_page_selectors (current_page : Z) : list pystr :=
  [ py "//a[text()='" ++ str_of_int (current_page + 1)
      ++ py "' and not(contains(@class, 'disabled'))]";
    py "//a[contains(@onclick, 'goPage') and contains(text(), '다음')]";
    py "//a[contains(@class, 'next') and not(contains(@class, 'disabled'))]";
    py "//a[contains(@onclick, 'goPage(" ++ str_of_int (current_page + 1)
      ++ py ")')]";
    py "//a[contains(@title, '다음')]";
    py "//button[contains(text(), '다음')]";
    py "//a[@href and contains(@href, 'page=" ++ str_of_int (current_page + 1)
      ++ py "')]" ].

(** The first loop: the candidate selectors, each in its own [try]. *)
Definition try_next_selectors (current_page : Z) : ST World (unit + bool) :=
  for_in (enumerate (next_page_selectors current_page)) tt
    (fun '(i, selector) _ =>
       catch
         (next_button <- wait_until_clickable 5 (BareString selector) ;;
          enabled <- is_enabled next_button ;;
          usable <- (if enabled then is_displayed next_button
                     else ret false) ;;
          if usable then
            execute_script js_scroll next_button ;;
            sleep 1000 ;;
            execute_script js_click next_button ;;
            sleep 4000 ;;
            new_page <- get_current_page_number ;;
            if new_page >? current_page then ret (Return true)
            else ret (Continue tt)
          else ret (Continue tt))
         (fun _ => ret (Continue tt))).

(** The three statements repeated in the second loop: click the link,
    wait, derive the page number again and compare. *)
Definition click_and_compare (link : WebElement) (current_page : Z)
  : ST World bool :=
  execute_script js_click link ;;
  sleep 4000 ;;
  new_page <- get_current_page_number ;;
  ret (new_page >? current_page).

(** [if onclick: ...] of the second loop; [true] is [return True]. *)
Definition try_link_onclick (link : WebElement) (onclick : option pystr)
    (current_page : Z) : ST World bool :=
  match onclick with
  | Some oc =>
      if truthy oc then
        match re_search match_goPage oc with
        | Some group1 =>
            page_num <- of_res (int_of_str group1) ;;
            if page_num =? current_page + 1
            then click_and_compare link current_page
            else ret false
        | None => ret false
        end
      else ret false
  | None => ret false
  end.

(** [if href and 'page' in href: ...] *)
Definition try_link_href (link : WebElement) (href : option pystr)
    (current_page : Z) : ST World bool :=
  match href with
  | Some h =>
      if truthy h && contains (py "page") h then
        match re_search match_pageNo h with
        | Some group1 =>
            page_num <- of_res (int_of_str group1) ;;
            if page_num =? current_page + 1
            then click_and_compare link current_page
            else ret false
        | None => ret false
        end
      else ret false
  | None => ret false
  end.

(** [if link_text.isdigit() and int(link_text) == current_page + 1: ...] *)
Definition try_link_text (link : WebElement) (link_text : pystr)
    (current_page : Z) : ST World bool :=
  if str_isdigit link_text then
    n <- of_res (int_of_str link_text) ;;
    if n =? current_page + 1
    then click_and_compare link current_page
    else ret false
  else ret false.

(** The second loop, over every link that looks like a page link. *)
Definition try_page_links (current_page : Z) : ST World (unit + bool) :=
  catch
    (page_links <- find_elements By_XPATH
                     (py "//a[contains(@onclick, 'goPage') or @href]") ;;
     for_in page_links tt (fun link _ =>
       catch
         (onclick <- get_attribute link (py "onclick") ;;
          href <- get_attribute link (py "href") ;;
          t <- element_text link ;;
          let link_text := strip t in
          r1 <- try_link_onclick link onclick current_page ;;
          if r1 then ret (Return true) else
          r2 <- try_link_href link href current_page ;;
          if r2 then ret (Return true) else
          r3 <- try_link_text link link_text current_page ;;
          if r3 then ret (Return true) else ret (Continue tt))
         (fun _ => ret (Continue tt))))
    (fun _ => ret (inl tt)).

Definition navigate_to_next_page : ST World bool :=
  catch
    (current_page <- get_current_page_number ;;
     r <- try_next_selectors current_page ;;
     match r with
     | inr b => ret b
     | inl _ =>
         r2 <- try_page_links current_page ;;
         match r2 with
         | inr b => ret b
         | inl _ => ret false
         end
     end)
    (fun _ => save_debug_screenshot (py "pagination_error") ;; ret false).

(** ** [select_market_type] (lines 164-248) *)

(** The dictionary [market_selectors]; [None] is [market_type not in]. *)
Definition market_selectors (market_type : pystr)
  : option (list (By * pystr)) :=
  if pystr_eqb market_type (py "유가증권") then
    Some [ (By_CSS_SELECTOR, py "#rWertpapier");
           (By_XPATH, py "//*[@id='rWertpapier']");
           (By_ID, py "rWertpapier");
           (By_XPATH, py "//input[@id='rWertpapier']") ]
  else if pystr_eqb market_type (py "코스닥") then
    Some [ (By_CSS_SELECTOR, py "#rKosdaq");
           (By_XPATH, py "//*[@id='rKosdaq']");
           (By_ID, py "rKosdaq");
           (By_XPATH, py "//input[@id='rKosdaq']") ]
  else None.

(** The loop over the candidate selectors; the loop variable is
    [success]. *)
Definition try_market_selectors (selectors : list (By * pystr))
  : ST World (bool + Empty_set) :=
  for_in (enumerate selectors) false (fun '(i, (by_, value)) success =>
    catch
      (radio_button <- wait_until_clickable 10 (Locator by_ value) ;;
       execute_script js_scroll radio_button ;;
       sleep 1000 ;;
       selected <- is_selected radio_button ;;
       if negb selected then
         execute_script js_click radio_button ;;
         sleep 500 ;;
         selected' <- is_selected radio_button ;;
         if selected' then ret (Break true)
         else ret (Continue success)
       else ret (Break true))
      (fun _ => ret (Continue success))).

Definition select_market_type (market_type : pystr) : ST World bool :=
  catch
    (if pystr_eqb market_type (py "전체") then ret true
     else
       match market_selectors market_type with
       | None => ret true
       | Some selectors =>
           r <- try_market_selectors selectors ;;
           let success := match r with
                          | inl b => b
                          | inr impossible => match impossible with end
                          end in
           (if negb success
            then save_debug_screenshot
                   (py "market_selection_error_" ++ market_type)
            else ret tt) ;;
           sleep 2000 ;;
           ret success
       end)
    (fun _ =>
       save_debug_screenshot (py "market_selection_error") ;; ret false).
End Page.

Section Rows.
Context {rt : PyRuntime} {env : Env}.

(** ** [extract_page_data] (lines 575-757) *)

Definition row_selectors : list pystr :=
  [ py "//tbody//tr[td]";
    py "//table//tr[td]";
    py "//div[@class='list_content']//tr[td]";
    py "//tr[td and count(td)>=3]";
    py "//table[@class='list']//tr[td]";
    py "//div[contains(@class, 'result')]//tr[td]" ].

Definition header_keywords : list pystr :=
  [ py "번호"; py "no"; py "순번"; py "시간"; py "time"; py "접수번호";
    py "공시제목"; py "회사명"; py "제출인" ].

Definition no_result_indicators : list pystr :=
  [ py "//div[contains(text(), '검색결과가 없습니다')]";
    py "//div[contains(text(), '조회된 데이터가 없습니다')]";
    py "//td[contains(text(), '검색된 결과가 없습니다')]";
    py "//span[contains(text(), '데이터가 없습니다')]" ].

(** [cell.text.strip()] *)
Definition stripped_text (cell : WebElement) : ST World pystr :=
  t <- element_text cell ;; ret (strip t).

(** The filter that keeps the rows that are not header rows; the loop
    variable is [actual_rows]. *)
Definition filter_data_rows (rows : list WebElement)
  : ST World (list WebElement + Empty_set) :=
  for_in (enumerate rows) [] (fun '(i, row) actual_rows =>
    catch
      (cells <- element_find_elements row By_TAG_NAME (py "td") ;;
       if len cells <? 3 then ret (Continue actual_rows) else
       first_cell <- getitem cells 0 ;;
       t <- element_text first_cell ;;
       let cell_text := str_lower (strip t) in
       let is_header := any_in header_keywords cell_text in
       if negb (truthy cell_text) || (len (strip cell_text) =? 0)
       then ret (Continue actual_rows)
       else if negb is_header then ret (Continue (actual_rows ++ [row]))
       else ret (Continue actual_rows))
      (fun _ => ret (Continue actual_rows))).

(** The texts read only to be logged. *)
Fixpoint read_texts (cells : list WebElement) : ST World unit :=
  match cells with
  | [] => ret tt
  | c :: cs => _ <- stripped_text c ;; read_texts cs
  end.

Definition log_first_and_last (actual_rows : list WebElement)
  : ST World unit :=
  if 0 <? len actual_rows then
    catch
      (first_row <- getitem actual_rows 0 ;;
       first_row_cells <- element_find_elements first_row By_TAG_NAME
                            (py "td") ;;
       read_texts (firstn 3 first_row_cells) ;;
       if 1 <? len actual_rows then
         last_row <- getitem actual_rows (List.length actual_rows - 1) ;;
         last_row_cells <- element_find_elements last_row By_TAG_NAME
                             (py "td") ;;
         read_texts (firstn 3 last_row_cells)
       else ret tt)
      (fun _ => ret tt)
  else ret tt.

(** The loop over the table selectors; the loop variable is
    [table_rows]. *)
Definition find_table_rows : ST World (list WebElement + Empty_set) :=
  for_in row_selectors [] (fun selector table_rows =>
    catch
      (rows <- find_elements By_XPATH selector ;;
       if 0 <? len rows then
         r <- filter_data_rows rows ;;
         let actual_rows := match r with
                            | inl l => l
                            | inr impossible => match impossible with end
                            end in
         if 0 <? len actual_rows then
           log_first_and_last actual_rows ;;
           ret (Break actual_rows)
         else ret (Continue table_rows)
       else ret (Continue table_rows))
      (fun _ => ret (Continue table_rows))).

(** The loop over [no_result_indicators]; [inr tt] is [return []]. *)
Definition check_no_result : ST World (unit + unit) :=
  for_in no_result_indicators tt (fun indicator _ =>
    catch
      (found <- find_elements By_XPATH indicator ;;
       if 0 <? len found then ret (Return tt) else ret (Continue tt))
      (fun _ => ret (Continue tt))).

(** The column layout chosen from the number of cells of a data row:
    [(row_num, time_text, company_name, title_col, submitter)], or
    [None] for the final [else: continue]. *)
Definition row_layout (i : nat) (cols : list WebElement)
  : ST World (option (pystr * pystr * pystr * WebElement * pystr)) :=
  if 5 <=? len cols then
    c0 <- getitem cols 0 ;; row_num <- stripped_text c0 ;;
    c1 <- getitem cols 1 ;; time_text <- stripped_text c1 ;;
    c2 <- getitem cols 2 ;; company_name <- stripped_text c2 ;;
    title_col <- getitem cols 3 ;;
    submitter <- (if 4 <? len cols
                  then c4 <- getitem cols 4 ;; stripped_text c4
                  else ret []) ;;
    ret (Some (row_num, time_text, company_name, title_col, submitter))
  else if len cols =? 4 then
    let row_num := str_of_int (Z.of_nat i + 1) in
    c0 <- getitem cols 0 ;; time_text <- stripped_text c0 ;;
    c1 <- getitem cols 1 ;; company_name <- stripped_text c1 ;;
    title_col <- getitem cols 2 ;;
    c3 <- getitem cols 3 ;; submitter <- stripped_text c3 ;;
    ret (Some (row_num, time_text, company_name, title_col, submitter))
  else if len cols =? 3 then
    let row_num := str_of_int (Z.of_nat i + 1) in
    c0 <- getitem cols 0 ;; time_text <- stripped_text c0 ;;
    c1 <- getitem cols 1 ;; company_name <- stripped_text c1 ;;
    title_col <- getitem cols 2 ;;
    ret (Some (row_num, time_text, company_name, title_col, []))
  else ret None.

(** Title and link of the title cell. *)
Definition title_and_link (title_col : WebElement)
  : ST World (pystr * option pystr) :=
  title_links <- element_find_elements title_col By_TAG_NAME (py "a") ;;
  match title_links with
  | title_element :: _ =>
      title <- stripped_text title_element ;;
      onclick_attr <- get_attribute title_element (py "onclick") ;;
      href_attr <- get_attribute title_element (py "href") ;;
      ret (title, _extract_disclosure_link onclick_attr href_attr)
  | [] =>
      title <- stripped_text title_col ;;
      ret (title, None)
  end.

Definition title_header_labels : list pystr :=
  [ py "공시제목"; py "제목"; py "title" ].

(** The body of the loop over [table_rows], without its [try]:
    [None] is [continue], [Some item] is [data.append(item)]. *)
Definition extract_row (i : nat) (row : WebElement)
  : ST World (option data_item) :=
  cols <- element_find_elements row By_TAG_NAME (py "td") ;;
  if len cols <? 3 then ret None else
  layout <- row_layout i cols ;;
  match layout with
  | None => ret None
  | Some (row_num, time_text, company_name, title_col, submitter) =>
      tl <- title_and_link title_col ;;
      let (title, disclosure_link) := tl in
      if negb (truthy title) || negb (truthy company_name)
         || str_in_list (str_lower title) title_header_labels
      then ret None
      else if negb (truthy time_text) || (len time_text <? 8)
      then ret None
      else
        let title_analysis := _analyze_title title in
        ret (Some (mkItem row_num time_text company_name title submitter
                     disclosure_link
                     (a_is_redesignation title_analysis)
                     (a_is_preferred_stock title_analysis)
                     (a_designation_type title_analysis)))
  end.

(** The loop over [table_rows]; the loop variable is [data]. *)
Definition extract_rows (table_rows : list WebElement)
  : ST World (list data_item + Empty_set) :=
  for_in (enumerate table_rows) [] (fun '(i, row) data =>
    catch
      (item <- extract_row i row ;;
       match item with
       | Some data_item => ret (Continue (data ++ [data_item]))
       | None => ret (Continue data)
       end)
      (fun _ => ret (Continue data))).

Definition extract_page_data : ST World (list data_item) :=
  catch
    (r <- find_table_rows ;;
     let table_rows := match r with
                       | inl l => l
                       | inr impossible => match impossible with end
                       end in
     if negb (0 <? len table_rows) then
       none <- check_no_result ;;
       match none with
       | inr _ => ret []
       | inl _ => save_debug_screenshot (py "no_table_rows") ;; ret []
       end
     else
       d <- extract_rows table_rows ;;
       match d with
       | inl data => ret data
       | inr impossible => match impossible with end
       end)
    (fun _ => save_debug_screenshot (py "extract_data_error") ;; ret []).
End Rows.

Section Period.
Context {rt : PyRuntime} {env : Env}.

(** ** [scrape_period_data] (lines 906-987) *)

(** Why the [while True] loop was left. *)
Inductive stop_reason : Type :=
| StopMaxPages          (* [max_pages and page_num > max_pages] *)
| StopEmptyPages        (* [consecutive_empty_pages >= max_consecutive_empty] *)
| StopNoNextPage        (* [not self.navigate_to_next_page()] *)
| StopSafetyCeiling     (* [page_num > 100] *)
| StopException.        (* an exception reached the enclosing [except] *)

(** The variables of the loop when it is left.  [pages_extracted] is a
    ghost counter of the calls of [extract_page_data]. *)
Record loop_exit : Type := mkExit {
  exit_reason : stop_reason;
  exit_data : list data_item;
  exit_page_num : Z;
  exit_consecutive_empty : Z;
  pages_extracted : nat
}.

Definition max_consecutive_empty : Z := 3.

(** [max_pages and page_num > max_pages]; [None] and [0] are falsy. *)
Definition max_pages_reached (max_pages : option Z) (page_num : Z) : bool :=
  match max_pages with
  | Some m => negb (m =? 0) && (page_num >? m)
  | None => false
  end.

(** A call inside the [try]: an exception leaves the loop for the
    handler, which returns [all_data] as it is at that point. *)
Definition guarded {A} (m : ST World A) : ST World (Res A) :=
  catch (a <- m ;; ret (Ok a)) (fun e => ret (Raise e)).

(** The [while True] loop.  [fuel] bounds the iterations of the model. *)
Fixpoint period_loop (fuel : nat) (max_pages : option Z) (page_num : Z)
    (consecutive_empty_pages : Z) (all_data : list data_item)
    (extracted : nat) : PT World loop_exit :=
  if max_pages_reached max_pages page_num then
    ret (mkExit StopMaxPages all_data page_num consecutive_empty_pages
                extracted)
  else
    got <- call (guarded extract_page_data) ;;
    let extracted' := S extracted in
    match got with
    | Raise _ =>
        ret (mkExit StopException all_data page_num
                    consecutive_empty_pages extracted')
    | Ok page_data =>
        let empty := negb (0 <? len page_data) in
        let consecutive' :=
          if empty then consecutive_empty_pages + 1 else 0 in
        let all_data' := if empty then all_data else all_data ++ page_data in
        if empty && (consecutive' >=? max_consecutive_empty) then
          ret (mkExit StopEmptyPages all_data' page_num consecutive'
                      extracted')
        else
          moved <- call (guarded navigate_to_next_page) ;;
          match moved with
          | Raise _ =>
              ret (mkExit StopException all_data' page_num consecutive'
                          extracted')
          | Ok false =>
              ret (mkExit StopNoNextPage all_data' page_num consecutive'
                          extracted')
          | Ok true =>
              let page_num' := page_num + 1 in
              call (sleep 2000) ;;
              if page_num' >? 100 then
                ret (mkExit StopSafetyCeiling all_data' page_num'
                            consecutive' extracted')
              else
                match fuel with
                | O => fun _ => None
                | S fuel' =>
                    period_loop fuel' max_pages page_num' consecutive'
                                all_data' extracted'
                end
          end
    end.

(** The statements of the [try] block before and after the loop.  While
    they run [all_data] is still empty, so the handler of the block
    returns [[]] for an exception raised there; an exception inside the
    loop is the exit [StopException]. *)
Definition scrape_period_data (start_date end_date : pystr)
    (disclosure_types : option (list pystr)) (max_pages : option Z)
    (market_type : pystr) : PT World (list data_item) :=
  catch
    (ok <- call (total_step navigate_to_search_page) ;;
     if negb ok then ret [] else
     ok <- call (total_step (set_date_range start_date end_date)) ;;
     if negb ok then ret [] else
     ok <- call (select_market_type market_type) ;;
     if negb ok then ret [] else
     ok <- call (total_step (select_disclosure_types disclosure_types)) ;;
     if negb ok then ret [] else
     _ <- call (total_step (set_page_size 100)) ;;
     ok <- call (total_step click_search_button) ;;
     if negb ok then ret [] else
     out <- period_loop 100 max_pages 1 0 [] 0 ;;
     match exit_reason out with
     | StopException =>
         call (save_debug_screenshot (py "period_scraping_error")) ;;
         ret (exit_data out)
     | _ => ret (exit_data out)
     end)
    (fun _ =>
       call (save_debug_screenshot (py "period_scraping_error")) ;;
       ret []).

(** (a) the page count exceeds the cap the caller supplied, for a cap
    other than [0]: the test of line 947 is [max_pages and ...], so a cap
    of [0] is, like [None], no cap. *)
Definition cap_exceeded (max_pages : option Z) (page_num : Z) : Prop :=
  exists m, max_pages = Some m /\ m <> 0 /\ page_num > m.

(** Condition (a) read without that exception: the page count exceeds
    whatever cap was supplied. *)
Definition page_count_exceeds_cap (max_pages : option Z) (page_num : Z)
  : Prop :=
  exists m, max_pages = Some m /\ page_num > m.

(** The count of consecutive empty pages after one more extraction. *)
Definition empties_after (empties : Z) (page_data : list data_item) : Z :=
  match page_data with
  | [] => empties + 1
  | _ :: _ => 0
  end.

(** (c) this extraction is the third empty one in a row. *)
Definition third_empty (empties : Z) (page_data : list data_item) : Prop :=
  page_data = [] /\ empties + 1 >= 3.

(** The stop conditions as the specification words them, one iteration
    at a time: [loop_stops max_pages page_num empties w reason w'] says
    that the loop entered at page [page_num] with [empties] consecutive
    empty pages in world [w] is left for [reason] in world [w']. *)
Inductive loop_stops (max_pages : option Z)
  : Z -> Z -> World -> stop_reason -> World -> Prop :=
| stops_max_pages page_num empties w :
    cap_exceeded max_pages page_num ->
    loop_stops max_pages page_num empties w StopMaxPages w
| stops_empty_pages page_num empties w page_data w1 :
    ~ cap_exceeded max_pages page_num ->
    extract_page_data w = (Ok page_data, w1) ->
    third_empty empties page_data ->
    loop_stops max_pages page_num empties w StopEmptyPages w1
| stops_no_next_page page_num empties w page_data w1 w2 :
    ~ cap_exceeded max_pages page_num ->
    extract_page_data w = (Ok page_data, w1) ->
    ~ third_empty empties page_data ->
    navigate_to_next_page w1 = (Ok false, w2) ->
    loop_stops max_pages page_num empties w StopNoNextPage w2
| stops_safety_ceiling page_num empties w page_data w1 w2 :
    ~ cap_exceeded max_pages page_num ->
    extract_page_data w = (Ok page_data, w1) ->
    ~ third_empty empties page_data ->
    navigate_to_next_page w1 = (Ok true, w2) ->
    page_num + 1 > 100 ->
    loop_stops max_pages page_num empties w StopSafetyCeiling
               (time_sleep 2000 w2)
| stops_later page_num empties w page_data w1 w2 reason w' :
    ~ cap_exceeded max_pages page_num ->
    extract_page_data w = (Ok page_data, w1) ->
    ~ third_empty empties page_data ->
    navigate_to_next_page w1 = (Ok true, w2) ->
    page_num + 1 <= 100 ->
    loop_stops max_pages (page_num + 1) (empties_after empties page_data)
               (time_sleep 2000 w2) reason w' ->
    loop_stops max_pages page_num empties w reason w'.
End Period.

(* ===================================================================== *)
(** * The scraper object and the top-level entry points *)
(* ===================================================================== *)

Section Scraper.
Context {rt : PyRuntime} {env : Env}.

(** The world together with the attribute [self.driver] of the scraper
    object in use and the history of the calls of [driver.quit()]. *)
Record machine : Type := mkMachine {
  world : World;
  self_driver : option WebDriver;
  quit_calls : list WebDriver
}.

(** A computation on the world, run by the scraper. *)
Definition lift {A} (m : PT World A) : PT machine A :=
  fun s =>
    match m (world s) with
    | Some (r, w') => Some (r, mkMachine w' (self_driver s) (quit_calls s))
    | None => None
    end.

Definition get_self_driver : PT machine (option WebDriver) :=
  fun s => Some (Ok (self_driver s), s).

Definition set_self_driver (d : option WebDriver) : PT machine unit :=
  fun s => Some (Ok tt, mkMachine (world s) d (quit_calls s)).

(** [drv.quit()]: the call is recorded, then made. *)
Definition quit (drv : WebDriver) : PT machine unit :=
  fun s =>
    lift (call (driver_quit drv))
         (mkMachine (world s) (self_driver s) (quit_calls s ++ [drv])).

(** [KRXKindSeleniumScraper(...)]: a new object, [self.driver = None]. *)
Definition new_scraper : PT machine unit := set_self_driver None.

(** [setup_driver] (lines 38-74): the handler logs and re-raises. *)
Definition setup_driver : PT machine unit :=
  catch
    (drv <- lift (call webdriver_Chrome) ;;
     set_self_driver (Some drv) ;;
     lift (call (execute_init_script drv)))
    (fun e => raise e).

(** [close_driver] (lines 1288-1295) *)
Definition close_driver : PT machine unit :=
  d <- get_self_driver ;;
  match d with
  | Some drv => catch (quit drv) (fun _ => ret tt)
  | None => ret tt
  end.

Definition of_bounded {S A} (o : option A) : PT S A :=
  fun s => match o with
           | Some a => Some (Ok a, s)
           | None => None
           end.

(** The loop over [date_ranges]; the loop variable is [all_data].  The
    only statement of its [try] that can raise is the call. *)
Definition scrape_ranges (date_ranges : list (pystr * pystr))
    (disclosure_types : option (list pystr))
    (max_pages_per_period : option Z) (market_type : pystr)
  : PT machine (list data_item + Empty_set) :=
  pfor_in (enumerate date_ranges) []
    (fun '(i, (range_start, range_end)) all_data =>
       got <- catch
                (period_data <- lift (scrape_period_data range_start
                                        range_end disclosure_types
                                        max_pages_per_period market_type) ;;
                 ret (Some period_data))
                (fun _ => ret None) ;;
       match got with
       | Some period_data =>
           (if Z.of_nat i <? len date_ranges - 1
            then lift (call (sleep 10000))
            else ret tt) ;;
           ret (Continue (all_data ++ period_data))
       | None => ret (Continue all_data)
       end).

(** The part of the [try] block that fills [all_data] (lines
    1054-1084). *)
Definition collect_all_data (start_date end_date : pystr)
    (disclosure_types : option (list pystr)) (split_long_periods : bool)
    (max_pages_per_period : option Z) (market_type : pystr)
  : PT machine (list data_item) :=
  if split_long_periods then
    start_dt <- step_res (strptime start_date) ;;
    end_dt <- step_res (strptime end_date) ;;
    let days_diff := days_between start_dt end_dt in
    if days_diff >? 365 then
      date_ranges <- of_bounded (split_date_range start_date end_date 6) ;;
      r <- scrape_ranges date_ranges disclosure_types
             max_pages_per_period market_type ;;
      match r with
      | inl all_data => ret all_data
      | inr impossible => match impossible with end
      end
    else
      lift (scrape_period_data start_date end_date disclosure_types
              max_pages_per_period market_type)
  else
    lift (scrape_period_data start_date end_date disclosure_types
            max_pages_per_period market_type).

(** The [try] block of [scrape_investment_warning_stocks]. *)
Definition scrape_body (start_date end_date : pystr)
    (disclosure_types : option (list pystr))
    (output_filename : option pystr) (split_long_periods : bool)
    (max_pages_per_period : option Z) (market_type : pystr)
  : PT machine (list data_item) :=
  d <- get_self_driver ;;
  (match d with
   | None => setup_driver
   | Some _ => ret tt
   end) ;;
  all_data <- collect_all_data start_date end_date disclosure_types
                split_long_periods max_pages_per_period market_type ;;
  if negb (0 <? len all_data) then ret [] else
  let df := drop_duplicates all_data in
  let df := match sort_values_datetime_desc df with
            | Ok sorted => sorted
            | Raise _ => df
            end in
  filename <-
    match output_filename with
    | Some f => ret f
    | None =>
        timestamp <- lift (call (total_step (fun w => (now_timestamp w, w)))) ;;
        ret (py "investment_warning_stocks_" ++ start_date ++ py "_"
             ++ end_date ++ py "_" ++ timestamp ++ py ".csv")
    end ;;
  lift (call (effect (save_to_csv df filename))) ;;
  ret df.

(** [scrape_investment_warning_stocks] (lines 1024-1125) *)
Definition scrape_investment_warning_stocks (start_date end_date : pystr)
    (disclosure_types : option (list pystr))
    (output_filename : option pystr) (split_long_periods : bool)
    (max_pages_per_period : option Z) (market_type : pystr)
  : PT machine (list data_item) :=
  try_finally
    (catch
       (scrape_body start_date end_date disclosure_types output_filename
          split_long_periods max_pages_per_period market_type)
       (fun _ =>
          lift (call (save_debug_screenshot (py "main_scraping_error"))) ;;
          ret []))
    close_driver.

(** [range(a, b)] *)
Definition range (a b : Z) : list Z :=
  List.map (fun k => a + Z.of_nat k) (seq 0 (Z.to_nat (b - a))).

(** One iteration of the loop of [scrape_multi_year_data]: a new
    scraper, then [try / except / finally]; the loop variable is
    [all_dataframes]. *)
Definition scrape_year (disclosure_types : option (list pystr))
    (year_ : Z) (all_dataframes : list (list data_item))
  : PT machine (list (list data_item)) :=
  new_scraper ;;
  try_finally
    (catch
       (let start_date := str_of_int year_ ++ py "-01-01" in
        let end_date := str_of_int year_ ++ py "-12-31" in
        df <- scrape_investment_warning_stocks start_date end_date
                disclosure_types
                (Some (py "investment_warning_" ++ str_of_int year_
                       ++ py ".csv"))
                true None (py "전체") ;;
        let all_dataframes' :=
          if 0 <? len df then all_dataframes ++ [df] else all_dataframes in
        lift (call (sleep 10000)) ;;
        ret all_dataframes')
       (fun _ => ret all_dataframes))
    close_driver.

(** [scrape_multi_year_data] (lines 1310-1373) *)
Definition scrape_multi_year_data (start_year end_year : Z)
    (disclosure_types : option (list pystr)) : PT machine (list data_item) :=
  r <- pfor_in (range start_year (end_year + 1)) []
         (fun year_ all_dataframes =>
            dfs <- scrape_year disclosure_types year_ all_dataframes ;;
            ret (Continue (R := Empty_set) dfs)) ;;
  let all_dataframes := match r with
                        | inl l => l
                        | inr impossible => match impossible with end
                        end in
  if 0 <? len all_dataframes then
    let combined_df := drop_duplicates (List.concat all_dataframes) in
    combined_df <- step_res (sort_values_datetime combined_df) ;;
    let filename := py "investment_warning_stocks_" ++ str_of_int start_year
                    ++ py "_" ++ str_of_int end_year ++ py "_combined.csv" in
    lift (call (to_csv combined_df filename)) ;;
    ret combined_df
  else ret [].
End Scraper.

(* ===================================================================== *)
(** * A small concrete browser, for running the model *)
(* ===================================================================== *)

(** A result list of [toy_pages] pages with two five-cell rows each, a
    [strong] element showing the current page and one link to the next
    page.  No radio button of the market filter exists, and every explicit
    wait times out. *)
Module Toy.

Record toy_world : Type := mkToy {
  toy_page : Z;
  toy_pages : Z;
  toy_next_driver : nat
}.

Inductive toy_element : Type :=
| TStrong
| TLink (target : Z)
| TRow (r : Z)
| TCell (r : Z) (c : nat)
| TAnchor (r : Z).

Definition toy_find_elements (_ : By) (value : pystr)
  : ST toy_world (list toy_element) :=
  fun w =>
    if pystr_eqb value (py "//div[@class='paging']//strong")
    then (Ok [TStrong], w)
    else if pystr_eqb value (py "//a[contains(@onclick, 'goPage') or @href]")
    then (Ok (if toy_page w <? toy_pages w
              then [TLink (toy_page w + 1)] else []), w)
    else if pystr_eqb value (py "//tbody//tr[td]")
    then (Ok [TRow (2 * toy_page w - 1); TRow (2 * toy_page w)], w)
    else (Ok [], w).

Definition toy_element_find_elements (e : toy_element) (_ : By)
    (value : pystr) : ST toy_world (list toy_element) :=
  fun w =>
    match e with
    | TRow r =>
        if pystr_eqb value (py "td")
        then (Ok [TCell r 0; TCell r 1; TCell r 2; TCell r 3; TCell r 4], w)
        else (Ok [], w)
    | TCell r 3 =>
        if pystr_eqb value (py "a") then (Ok [TAnchor r], w)
        else (Ok [], w)
    | _ => (Ok [], w)
    end.

Definition toy_text (e : toy_element) : ST toy_world pystr :=
  fun w =>
    match e with
    | TStrong => (Ok (str_of_int (toy_page w)), w)
    | TLink n => (Ok (str_of_int n), w)
    | TCell r 0 => (Ok (str_of_int r), w)
    | TCell r 1 => (Ok (py "2024-01-0" ++ str_of_int r ++ py " 09:00"), w)
    | TCell r 2 => (Ok (py " A Corp "), w)
    | TCell r 4 => (Ok (py "X"), w)
    | TAnchor r => (Ok (py "투자경고종목 지정"), w)
    | _ => (Ok [], w)
    end.

Definition toy_get_attribute (e : toy_element) (name : pystr)
  : ST toy_world (option pystr) :=
  fun w =>
    if pystr_eqb name (py "onclick") then
      match e with
      | TLink n => (Ok (Some (py "goPage(" ++ str_of_int n ++ py ")")), w)
      | TAnchor r =>
          (Ok (Some (py "openDisclsViewer('2024" ++ str_of_int r
                     ++ py "','1','host1','')")), w)
      | _ => (Ok None, w)
      end
    else (Ok None, w).

Definition toy_execute_script (script : pystr) (e : toy_element)
  : ST toy_world unit :=
  fun w =>
    match e with
    | TLink n =>
        if pystr_eqb script (py "arguments[0].click();")
        then (Ok tt, mkToy n (toy_pages w) (toy_next_driver w))
        else (Ok tt, w)
    | _ => (Ok tt, w)
    end.

Definition toy_env : Env :=
  {| World := toy_world;
     WebElement := toy_element;
     WebDriver := nat;
     find_elements := toy_find_elements;
     element_find_elements := toy_element_find_elements;
     element_text := toy_text;
     get_attribute := toy_get_attribute;
     is_enabled := fun _ w => (Ok true, w);
     is_displayed := fun _ w => (Ok true, w);
     is_selected := fun _ w => (Ok false, w);
     wait_until_clickable := fun _ _ w => (Raise TimeoutException, w);
     execute_script := toy_execute_script;
     current_url := fun w => (Ok (py "https://kind.krx.co.kr/"), w);
     webdriver_Chrome := fun w =>
       (Ok (toy_next_driver w),
        mkToy (toy_page w) (toy_pages w) (S (toy_next_driver w)));
     execute_init_script := fun _ w => (Ok tt, w);
     driver_quit := fun _ w => (Ok tt, w);
     time_sleep := fun _ w => w;
     sort_values_datetime_desc := fun df => Ok df;
     sort_values_datetime := fun df => Ok df;
     to_csv := fun _ _ w => (Ok tt, w);
     now_timestamp := fun _ => py "20240101_000000";
     navigate_to_search_page := fun w =>
       (true, mkToy 1 (toy_pages w) (toy_next_driver w));
     set_date_range := fun _ _ w => (true, w);
     select_disclosure_types := fun _ w => (true, w);
     set_page_size := fun _ w => (true, w);
     click_search_button := fun w => (true, w);
     _save_debug_screenshot := fun _ w => w;
     save_to_csv := fun _ _ w => w |}.

Definition toy_start (pages : Z) : toy_world := mkToy 1 pages 0.

Definition toy_machine (pages : Z) : @machine toy_env :=
  @mkMachine toy_env (toy_start pages) None [].

End Toy.

(** A static table for concrete runs of the row extractor: a row is the
    list of the texts of its cells, and no cell holds a link. *)
Module Sheet.
Inductive sheet_element : Type :=
| SRow (cells : list pystr)
| SCell (text : pystr).

Definition sheet_env : Env :=
  {| World := unit;
     WebElement := sheet_element;
     WebDriver := unit;
     find_elements := fun _ _ w => (Ok [], w);
     element_find_elements := fun e _ value w =>
       match e with
       | SRow cells =>
           if pystr_eqb value (py "td")
           then (Ok (List.map SCell cells), w) else (Ok [], w)
       | SCell _ => (Ok [], w)
       end;
     element_text := fun e w =>
       match e with
       | SCell text => (Ok text, w)
       | SRow cells => (Ok (List.concat cells), w)
       end;
     get_attribute := fun _ _ w => (Ok None, w);
     is_enabled := fun _ w => (Ok true, w);
     is_displayed := fun _ w => (Ok true, w);
     is_selected := fun _ w => (Ok false, w);
     wait_until_clickable := fun _ _ w => (Raise TimeoutException, w);
     execute_script := fun _ _ w => (Ok tt, w);
     current_url := fun w => (Ok (py "https://kind.krx.co.kr/"), w);
     webdriver_Chrome := fun w => (Ok tt, w);
     execute_init_script := fun _ w => (Ok tt, w);
     driver_quit := fun _ w => (Ok tt, w);
     time_sleep := fun _ w => w;
     sort_values_datetime_desc := fun df => Ok df;
     sort_values_datetime := fun df => Ok df;
     to_csv := fun _ _ w => (Ok tt, w);
     now_timestamp := fun _ => py "20240101_000000";
     navigate_to_search_page := fun w => (true, w);
     set_date_range := fun _ _ w => (true, w);
     select_disclosure_types := fun _ w => (true, w);
     set_page_size := fun _ w => (true, w);
     click_search_button := fun w => (true, w);
     _save_debug_screenshot := fun _ w => w;
     save_to_csv := fun _ _ w => w |}.
End Sheet.

(* ===================================================================== *)
(** * Vocabulary of the statements *)
(* ===================================================================== *)

(** ** Date ranges *)

Definition year_length (y : Z) : Z := if is_leap y then 366 else 365.

(** The pair of strings [split_date_range] appends for a range. *)
Definition fmt_range {rt : PyRuntime} (r : date * date) : pystr * pystr :=
  (strftime (fst r), strftime (snd r)).

(** Day number [k] lies in the range, both ends included. *)
Definition day_in_range (k : Z) (r : date * date) : Prop :=
  toordinal (fst r) <= k <= toordinal (snd r).

(** Each range starts the day after the previous one ends. *)
Fixpoint contiguous (l : list (date * date)) : Prop :=
  match l with
  | r1 :: (r2 :: _) as rest =>
      toordinal (fst r2) = toordinal (snd r1) + 1 /\ contiguous rest
  | _ => True
  end.

Definition month_index (d : date) : Z := year d * 12 + month d.

(** The range ends no later than [m] calendar months after it starts. *)
Definition spans_at_most (m : Z) (r : date * date) : Prop :=
  toordinal (fst r) <= toordinal (snd r)
  /\ (month_index (snd r) - month_index (fst r) < m
      \/ (month_index (snd r) - month_index (fst r) = m
          /\ day (snd r) <= day (fst r))).

(** Day number [k] lies in exactly one range of [l]. *)
Definition covered_once (l : list (date * date)) (k : Z) : Prop :=
  exists pre r post,
    l = pre ++ r :: post
    /\ day_in_range k r
    /\ Forall (fun r' => ~ day_in_range k r') (pre ++ post).

(** The ranges the loop produces from [current_start] on, when no
    exception is raised. *)
Inductive split_chain (max_months : Z) (end_dt : date)
  : date -> list (date * date) -> Prop :=
| chain_done current_start :
    date_ltb current_start end_dt = false ->
    split_chain max_months end_dt current_start []
| chain_step current_start current_end0 current_start' rest :
    date_ltb current_start end_dt = true ->
    shift_months current_start max_months = Ok current_end0 ->
    add_one_day (if date_gtb current_end0 end_dt then end_dt
                 else current_end0) = Ok current_start' ->
    split_chain max_months end_dt current_start' rest ->
    split_chain max_months end_dt current_start
      ((current_start,
        if date_gtb current_end0 end_dt then end_dt else current_end0)
         :: rest).

(** What bounds the iterations when [max_months] is negative. *)
Definition backward_measure (d : date) : Z :=
  2 * month d + (if day d =? 1 then 0 else 1).

(** ** Click handlers *)

(** How a call of the viewer opens in a click handler. *)
Definition lit_open_call : pystr := py "openDisclsViewer('".

Definition no_quote (s : pystr) : Prop := Forall (fun c => c <> 39) s.

Definition all_space (s : pystr) : Prop :=
  Forall (fun c => isspace c = true) s.

(** ** Records of the deduplication scenario *)

Section Scenario.
Context {rt : PyRuntime}.

(** The record [extract_row] builds for a row without a link. *)
Definition item_of_row (row_num datetime company_name title submitter
                        : pystr) : data_item :=
  let title_analysis := _analyze_title title in
  mkItem row_num datetime company_name title submitter None
    (a_is_redesignation title_analysis)
    (a_is_preferred_stock title_analysis)
    (a_designation_type title_analysis).

Definition scenario_row_0800 : data_item :=
  item_of_row (py "1") (py "08:00:00") (py "A Corp")
    (py "투자경고종목 지정") (py "X").

Definition scenario_row_0900 : data_item :=
  item_of_row (py "2") (py "09:00:00") (py "A Corp")
    (py "투자경고종목 지정") (py "X").

(** A second row with the key of the first. *)
Definition scenario_row_0800_again : data_item :=
  item_of_row (py "2") (py "08:00:00") (py "A Corp")
    (py "투자경고종목 지정") (py "X").
End Scenario.

(** ** Rows, pagination, market filter, teardown *)

Section Vocabulary.
Context {rt : PyRuntime} {env : Env}.

(** The tests a row passes to become a record (lines 723 and 727):
    a title, a company, a title that is no header label, and a time of
    eight characters at least. *)
Definition kept_row (time_text company_name title : pystr) : Prop :=
  title <> [] /\ company_name <> []
  /\ str_in_list (str_lower title) title_header_labels = false
  /\ 8 <= len time_text.

(** The record of lines 731-743. *)
Definition record_of (row_num time_text company_name title submitter
                      : pystr) (disclosure_link : option pystr)
  : data_item :=
  let title_analysis := _analyze_title title in
  mkItem row_num time_text company_name title submitter disclosure_link
    (a_is_redesignation title_analysis)
    (a_is_preferred_stock title_analysis)
    (a_designation_type title_analysis).

(** A click on some link was followed, after the four-second pause, by
    a derivation of the page number that gave more than [current_page]
    and left the world [w']. *)
Definition advanced (current_page : Z) (w' : World) : Prop :=
  exists link w0 w1 new_page,
    execute_script js_click link w0 = (Ok tt, w1)
    /\ get_current_page_number (time_sleep 4000 w1) = (Ok new_page, w')
    /\ new_page > current_page.

(** No candidate selector of the radio button resolves. *)
Definition no_radio_control (selectors : list (By * pystr)) : Prop :=
  forall by_ value w, In (by_, value) selectors ->
    exists e w',
      wait_until_clickable 10 (Locator by_ value) w = (Raise e, w').

(** Where the collection stops when the market filter reports failure:
    the world after the last step that ran. *)
Definition world_after_market_step (start_date end_date market_type : pystr)
    (w : World) : World :=
  let (ok1, w1) := navigate_to_search_page w in
  if negb ok1 then w1 else
  let (ok2, w2) := set_date_range start_date end_date w1 in
  if negb ok2 then w2 else
  snd (select_market_type market_type w2).

(** [m] runs to an end and leaves [self.driver] and the history of
    [quit] calls as they were. *)
Definition keeps_session {A} (m : PT machine A) : Prop :=
  forall s, exists r s',
    m s = Some (r, s')
    /\ self_driver s' = self_driver s
    /\ quit_calls s' = quit_calls s.

(** [m] runs to an end and makes no [quit] call. *)
Definition keeps_quits {A} (m : PT machine A) : Prop :=
  forall s, exists r s',
    m s = Some (r, s') /\ quit_calls s' = quit_calls s.

(** The [quit] calls one teardown of the session [d] makes. *)
Definition teardowns (d : option WebDriver) : list WebDriver :=
  match d with
  | Some drv => [drv]
  | None => []
  end.
End Vocabulary.

(** ** Tactics *)

(** A conjunction of comparisons one of which is [false]. *)
Ltac chain_false H :=
  repeat match type of H with
         | (_ && _) = true =>
             let H' := fresh in
             apply andb_prop in H; destruct H as [H' H]; clear H'
         end;
  discriminate H.

(* ===================================================================== *)
(** * Further vocabulary *)
(* ===================================================================== *)

(** No [&] in the text. *)
Definition no_amp (s : pystr) : Prop := Forall (fun c => c <> 38) s.

(** [r] is the first row of [rows] with its key. *)
Definition first_of_key (r : data_item) (rows : list data_item) : Prop :=
  exists pre post,
    rows = pre ++ r :: post
    /\ Forall (fun x => dedup_key x <> dedup_key r) pre.

(* ===================================================================== *)
(** * Facts about strings *)
(* ===================================================================== *)

Lemma pystr_eqb_eq a b : pystr_eqb a b = true <-> a = b.
Proof.
  unfold pystr_eqb. destruct (list_eq_dec Z.eq_dec a b); split; congruence.
Qed.

Lemma startswith_app p s : startswith p (p ++ s) = true.
Proof.
  induction p as [|a p IH]; simpl; [reflexivity|].
  rewrite Z.eqb_refl. exact IH.
Qed.

Lemma startswith_inv p s :
  startswith p s = true -> exists r, s = p ++ r.
Proof.
  revert s. induction p as [|a p IH]; intros s H.
  - exists s. reflexivity.
  - destruct s as [|b s]; simpl in H; [discriminate|].
    apply andb_prop in H. destruct H as [Hab Hp].
    apply Z.eqb_eq in Hab. subst b.
    destruct (IH _ Hp) as [r ->]. exists r. reflexivity.
Qed.

Lemma contains_here needle hay :
  startswith needle hay = true -> contains needle hay = true.
Proof. intros H. destruct hay; simpl; rewrite H; reflexivity. Qed.

Lemma contains_occurs_in needle hay :
  contains needle hay = true <-> occurs_in needle hay.
Proof.
  split.
  - induction hay as [|c hay IH]; simpl; intros H.
    + rewrite orb_false_r in H. apply startswith_inv in H.
      destruct H as [r Hr]. exists [], r. exact Hr.
    + apply orb_prop in H. destruct H as [H|H].
      * apply startswith_inv in H. destruct H as [r Hr].
        exists [], r. exact Hr.
      * destruct (IH H) as (pre & post & E).
        exists (c :: pre), post. rewrite E. reflexivity.
  - intros (pre & post & E). subst hay.
    induction pre as [|c pre IH].
    + change ([] ++ needle ++ post) with (needle ++ post).
      apply contains_here, startswith_app.
    + simpl. rewrite IH. apply orb_true_r.
Qed.

Lemma not_contains_occurs_in needle hay :
  contains needle hay = false <-> ~ occurs_in needle hay.
Proof.
  rewrite <- contains_occurs_in.
  destruct (contains needle hay); split; intros; congruence.
Qed.

Lemma strip_prefix_app lit s : strip_prefix lit (lit ++ s) = Some s.
Proof.
  induction lit as [|a lit IH]; simpl; [reflexivity|].
  rewrite Z.eqb_refl. exact IH.
Qed.

Lemma strip_prefix_startswith lit s :
  startswith lit s = false -> strip_prefix lit s = None.
Proof.
  revert s. induction lit as [|a lit IH]; intros s H; simpl in *.
  - discriminate.
  - destruct s as [|b s]; [reflexivity|].
    destruct (a =? b); [|reflexivity]. apply IH. exact H.
Qed.

Lemma span_stop f a c r :
  Forall (fun x => f x = true) a -> f c = false ->
  span f (a ++ c :: r) = (a, c :: r).
Proof.
  intros Ha Hc. induction Ha as [|x a Hx Ha IH]; simpl.
  - rewrite Hc. reflexivity.
  - rewrite Hx, IH. reflexivity.
Qed.

Lemma re_search_here {A} (m : pystr -> option A) s r :
  m s = Some r -> re_search m s = Some r.
Proof. intros H. destruct s; simpl; rewrite H; reflexivity. Qed.

Lemma re_search_skip {A} (m : pystr -> option A) pre s :
  (forall p1 c p2, pre = p1 ++ c :: p2 -> m (c :: p2 ++ s) = None) ->
  re_search m (pre ++ s) = re_search m s.
Proof.
  induction pre as [|c pre IH]; intros H; [reflexivity|].
  simpl. rewrite (H [] c pre eq_refl).
  apply IH. intros p1 c' p2 E. apply (H (c :: p1) c' p2).
  rewrite E. reflexivity.
Qed.

Lemma span_stop_app f a l r :
  Forall (fun x => f x = true) a ->
  match l with c :: _ => f c = false | [] => False end ->
  span f (a ++ l ++ r) = (a, l ++ r).
Proof.
  intros Ha Hl. destruct l as [|c l]; [contradiction|].
  apply (span_stop f a c (l ++ r) Ha Hl).
Qed.

Lemma occurs_in_suffix needle p q :
  occurs_in needle q -> occurs_in needle (p ++ q).
Proof.
  intros (pre & post & ->). exists (p ++ pre), post.
  rewrite app_assoc. reflexivity.
Qed.

Lemma startswith_occurs_in needle s :
  startswith needle s = true -> occurs_in needle s.
Proof.
  intros H. apply startswith_inv in H. destruct H as [r ->].
  exists [], r. reflexivity.
Qed.

(* ===================================================================== *)
(** * [_analyze_title] *)
(* ===================================================================== *)

Section TitleFacts.
Context {rt : PyRuntime}.

Lemma designation_type_by_keywords (title : pystr) :
  a_designation_type (_analyze_title title) =
  if contains (py "투자경고") title then
    if contains (py "해제") title then cancellation
    else if contains (py "지정") title then designation
    else other
  else unknown.
Proof.
  unfold _analyze_title, a_designation_type.
  destruct (contains (py "투자경고") title); [|reflexivity].
  destruct (contains (py "지정") title), (contains (py "해제") title);
    reflexivity.
Qed.

Lemma any_in_occurs keywords k title :
  In k keywords -> occurs_in k title -> any_in keywords title = true.
Proof.
  intros Hin Hocc. unfold any_in. apply existsb_exists.
  exists k. split; [exact Hin|]. apply contains_occurs_in. exact Hocc.
Qed.

(** C6.  A title that contains "투자경고" and "지정" but not "해제" is a
    designation; one that contains "투자경고" and "해제" is a
    cancellation, in particular "투자경고종목 지정 해제"; and a title that
    contains "재지정" is a re-designation. *)
Theorem analyze_title_classifies (title : pystr) :
  (occurs_in (py "투자경고") title -> occurs_in (py "지정") title ->
   ~ occurs_in (py "해제") title ->
   a_designation_type (_analyze_title title) = designation)
  /\ (occurs_in (py "투자경고") title -> occurs_in (py "해제") title ->
      a_designation_type (_analyze_title title) = cancellation)
  /\ a_designation_type (_analyze_title (py "투자경고종목 지정 해제"))
     = cancellation
  /\ (occurs_in (py "재지정") title ->
      a_is_redesignation (_analyze_title title) = true).
Proof.
  repeat split.
  - intros Hw Hd Hn. rewrite designation_type_by_keywords.
    apply contains_occurs_in in Hw, Hd.
    apply not_contains_occurs_in in Hn.
    rewrite Hw, Hd, Hn. reflexivity.
  - intros Hw Hr. rewrite designation_type_by_keywords.
    apply contains_occurs_in in Hw, Hr.
    rewrite Hw, Hr. reflexivity.
  - intros Hre. unfold _analyze_title, a_is_redesignation.
    apply (any_in_occurs _ (py "재지정")); [left; reflexivity|exact Hre].
Qed.
End TitleFacts.

(** The theorem at the titles "투자경고종목 지정", "투자경고종목 지정 해제"
    and "투자경고종목 재지정". *)
Lemma analyze_title_classifies_witness :
  a_designation_type (@_analyze_title ascii_runtime (py "투자경고종목 지정"))
  = designation
  /\ a_designation_type
       (@_analyze_title ascii_runtime (py "투자경고종목 지정 해제"))
     = cancellation
  /\ a_is_redesignation
       (@_analyze_title ascii_runtime (py "투자경고종목 재지정")) = true.
Proof.
  split; [|split].
  - apply (proj1 (@analyze_title_classifies ascii_runtime
                    (py "투자경고종목 지정"))).
    + apply contains_occurs_in. vm_compute. reflexivity.
    + apply contains_occurs_in. vm_compute. reflexivity.
    + apply not_contains_occurs_in. vm_compute. reflexivity.
  - apply (proj1 (proj2 (@analyze_title_classifies ascii_runtime
                           (py "투자경고종목 지정 해제")))).
    + apply contains_occurs_in. vm_compute. reflexivity.
    + apply contains_occurs_in. vm_compute. reflexivity.
  - apply (proj2 (proj2 (proj2 (@analyze_title_classifies ascii_runtime
                                  (py "투자경고종목 재지정"))))).
    apply contains_occurs_in. vm_compute. reflexivity.
Defined.

(* ===================================================================== *)
(** * [_extract_disclosure_link] *)
(* ===================================================================== *)

Lemma lit_open_call_word :
  lit_open_call = py "openDisclsViewer" ++ [40; 39].
Proof. reflexivity. Qed.

(** The opening of a call does not overlap itself: where it starts inside
    [p ++ openDisclsViewer(' ...], it starts inside [p]. *)
Lemma open_call_border p rest :
  startswith lit_open_call (p ++ lit_open_call ++ rest) = true ->
  p = [] \/ startswith lit_open_call p = true.
Proof.
  intros H.
  change lit_open_call with
    [111; 112; 101; 110; 68; 105; 115; 99; 108; 115; 86; 105; 101; 119;
     101; 114; 40; 39] in *.
  destruct p as [|c1 p]; [left; reflexivity|right].
  do 17 (destruct p as [|? p]; [exfalso; simpl in H; chain_false H|]).
  simpl in *. exact H.
Qed.

Lemma no_earlier_open_call pre rest p1 c p2 :
  ~ occurs_in lit_open_call pre ->
  pre = p1 ++ c :: p2 ->
  match_openDisclsViewer (c :: p2 ++ lit_open_call ++ rest) = None.
Proof.
  intros Hno E. unfold match_openDisclsViewer.
  fold lit_open_call.
  rewrite strip_prefix_startswith; [reflexivity|].
  destruct (startswith lit_open_call (c :: p2 ++ lit_open_call ++ rest))
    eqn:Hs; [|reflexivity].
  exfalso. apply Hno.
  change (c :: p2 ++ lit_open_call ++ rest)
    with ((c :: p2) ++ lit_open_call ++ rest) in Hs.
  apply open_call_border in Hs. destruct Hs as [Hs|Hs]; [discriminate|].
  rewrite E. apply occurs_in_suffix. apply startswith_occurs_in. exact Hs.
Qed.

Lemma no_quote_span s :
  no_quote s -> Forall (fun c => not_quote c = true) s.
Proof.
  intros H. eapply Forall_impl; [|exact H].
  intros c Hc. unfold not_quote. destruct (Z.eqb_spec c 39); [contradiction|].
  reflexivity.
Qed.

Lemma match_open_call A B C ws1 ws2 post :
  no_quote A -> no_quote B -> no_quote C -> all_space ws1 -> all_space ws2 ->
  match_openDisclsViewer
    (py "openDisclsViewer('" ++ A ++ py "'," ++ ws1 ++ py "'" ++ B
     ++ py "'," ++ ws2 ++ py "'" ++ C ++ py "'" ++ post)
  = Some (A, B, C).
Proof.
  intros HA HB HC H1 H2. unfold match_openDisclsViewer.
  rewrite strip_prefix_app.
  rewrite (span_stop_app not_quote A); [|apply no_quote_span, HA|reflexivity].
  rewrite strip_prefix_app.
  rewrite (span_stop_app isspace ws1); [|exact H1|reflexivity].
  rewrite strip_prefix_app.
  rewrite (span_stop_app not_quote B); [|apply no_quote_span, HB|reflexivity].
  rewrite strip_prefix_app.
  rewrite (span_stop_app isspace ws2); [|exact H2|reflexivity].
  rewrite strip_prefix_app.
  rewrite (span_stop_app not_quote C); [|apply no_quote_span, HC|reflexivity].
  rewrite strip_prefix_app. reflexivity.
Qed.

Lemma truthy_app_r a b : truthy b = true -> truthy (a ++ b) = true.
Proof. destruct a; simpl; [auto|reflexivity]. Qed.

(** C8.  A click handler in which the first call opening
    [openDisclsViewer('] is that of [openDisclsViewer('A','B','C'...]
    yields the viewer URL built from A, B and C (white space may follow
    the commas); an input for which neither pattern matches yields no
    link. *)
Theorem extract_disclosure_link_spec :
  (forall pre A B C ws1 ws2 post href,
      ~ occurs_in (py "openDisclsViewer('") pre ->
      no_quote A -> no_quote B -> no_quote C ->
      all_space ws1 -> all_space ws2 ->
      _extract_disclosure_link
        (Some (pre ++ py "openDisclsViewer('" ++ A ++ py "'," ++ ws1
               ++ py "'" ++ B ++ py "'," ++ ws2 ++ py "'" ++ C ++ py "'"
               ++ post))
        href
      = Some (base_url ++ py "/common/disclsviewer.do?method=search&acptno="
              ++ A ++ py "&docno=" ++ B ++ py "&viewerhost=" ++ C
              ++ py "&viewerport="))
  /\ (forall onclick href,
         (forall t, onclick = Some t ->
                    re_search match_openDisclsViewer t = None) ->
         (forall h, href = Some h ->
                    re_search match_disclsviewer_href h = None) ->
         _extract_disclosure_link onclick href = None).
Proof.
  split.
  - intros pre A B C ws1 ws2 post href Hpre HA HB HC H1 H2.
    unfold _extract_disclosure_link.
    set (rest := A ++ py "'," ++ ws1 ++ py "'" ++ B ++ py "'," ++ ws2
                 ++ py "'" ++ C ++ py "'" ++ post).
    assert (Ht : truthy (pre ++ py "openDisclsViewer('" ++ rest) = true).
    { apply truthy_app_r. reflexivity. }
    assert (Hc : contains (py "openDisclsViewer")
                   (pre ++ py "openDisclsViewer('" ++ rest) = true).
    { apply contains_occurs_in. exists pre, ([40; 39] ++ rest).
      fold lit_open_call. rewrite lit_open_call_word, <- app_assoc.
      reflexivity. }
    rewrite Ht, Hc. simpl andb. cbv iota.
    rewrite re_search_skip.
    + rewrite (re_search_here _ _ (A, B, C)); [reflexivity|].
      apply match_open_call; assumption.
    + intros p1 c p2 E. apply (no_earlier_open_call pre rest p1 c p2 Hpre E).
  - intros onclick href Ho Hh. unfold _extract_disclosure_link.
    destruct onclick as [t|].
    + rewrite (Ho t eq_refl).
      destruct (truthy t && contains (py "openDisclsViewer") t);
        [reflexivity|].
      destruct href as [h|]; [|reflexivity].
      rewrite (Hh h eq_refl).
      destruct (truthy h && contains (py "disclsviewer.do") h); reflexivity.
    + destruct href as [h|]; [|reflexivity].
      rewrite (Hh h eq_refl).
      destruct (truthy h && contains (py "disclsviewer.do") h); reflexivity.
Qed.

(** The theorem at the handler
    [openDisclsViewer('12345','67890','host1', '')] and at a handler and a
    link that match nothing. *)
Lemma extract_disclosure_link_spec_witness :
  _extract_disclosure_link
    (Some (py "openDisclsViewer('12345','67890','host1', '')")) None
  = Some (py "https://kind.krx.co.kr/common/disclsviewer.do?method=search&acptno=12345&docno=67890&viewerhost=host1&viewerport=")
  /\ _extract_disclosure_link (Some (py "fnView('1')"))
       (Some (py "https://kind.krx.co.kr/main.do")) = None.
Proof.
  split.
  - apply (proj1 extract_disclosure_link_spec
             [] (py "12345") (py "67890") (py "host1") [] [] (py ", '')") None).
    + apply not_contains_occurs_in. vm_compute. reflexivity.
    + unfold no_quote. repeat constructor; discriminate.
    + unfold no_quote. repeat constructor; discriminate.
    + unfold no_quote. repeat constructor; discriminate.
    + constructor.
    + constructor.
  - apply (proj2 extract_disclosure_link_spec).
    + intros t E. injection E as <-. vm_compute. reflexivity.
    + intros h E. injection E as <-. vm_compute. reflexivity.
Defined.

(* ===================================================================== *)
(** * Running computations *)
(* ===================================================================== *)

Lemma run_ret {S A} (a : A) (s : S) : (ret a : ST S A) s = (Ok a, s).
Proof. reflexivity. Qed.

Lemma run_bind {S A B} (m : ST S A) (k : A -> ST S B) s :
  (x <- m ;; k x) s =
  match m s with
  | (Ok a, s') => k a s'
  | (Raise e, s') => (Raise e, s')
  end.
Proof. reflexivity. Qed.

Lemma run_catch {S A} (m : ST S A) (h : exn -> ST S A) s :
  catch m h s =
  match m s with
  | (Ok a, s') => (Ok a, s')
  | (Raise e, s') => h e s'
  end.
Proof. reflexivity. Qed.

Lemma prun_ret {S A} (a : A) (s : S) : (ret a : PT S A) s = Some (Ok a, s).
Proof. reflexivity. Qed.

Lemma prun_bind {S A B} (m : PT S A) (k : A -> PT S B) s :
  (x <- m ;; k x) s =
  match m s with
  | Some (Ok a, s') => k a s'
  | Some (Raise e, s') => Some (Raise e, s')
  | None => None
  end.
Proof. reflexivity. Qed.

Lemma prun_catch {S A} (m : PT S A) (h : exn -> PT S A) s :
  catch m h s =
  match m s with
  | Some (Ok a, s') => Some (Ok a, s')
  | Some (Raise e, s') => h e s'
  | None => None
  end.
Proof. reflexivity. Qed.

Lemma run_call {S A} (m : ST S A) s : call m s = Some (m s).
Proof. reflexivity. Qed.

(** A [try] whose handler returns always returns. *)
Lemma catch_returns {S A} (m : ST S A) (h : exn -> ST S A) :
  (forall e s, exists a s', h e s = (Ok a, s')) ->
  forall s, exists a s', catch m h s = (Ok a, s').
Proof.
  intros Hh s. rewrite run_catch.
  destruct (m s) as [[a|e] s1]; [exists a, s1; reflexivity|apply Hh].
Qed.

(** A [return r] inside a [for] loop can only come from its body. *)
Lemma for_in_return {S X A R} (Q : R -> S -> Prop) (xs : list X)
    (body : X -> A -> ST S (flow A R)) :
  (forall x a s r s', body x a s = (Ok (Return r), s') -> Q r s') ->
  forall a s r s', for_in xs a body s = (Ok (inr r), s') -> Q r s'.
Proof.
  intros Hbody. induction xs as [|x xs IH]; intros a s r s' H.
  - discriminate H.
  - cbn [for_in] in H. rewrite run_bind in H.
    destruct (body x a s) as [[f|e] s1] eqn:Hb; [|discriminate].
    destruct f as [a'|a'|r'].
    + eapply IH. exact H.
    + discriminate H.
    + rewrite run_ret in H. injection H as <- <-.
      eapply Hbody. exact Hb.
Qed.

Lemma len_cons {A} (x : A) l : len (x :: l) = len l + 1.
Proof. unfold len. cbn [List.length]. lia. Qed.

Lemma len_nonneg {A} (l : list A) : 0 <= len l.
Proof. unfold len. lia. Qed.

(* ===================================================================== *)
(** * [extract_page_data]: the column layout *)
(* ===================================================================== *)

Section RowLayout.
Context {rt : PyRuntime} {env : Env}.

Lemma row_layout_five i c0 c1 c2 c3 c4 rest w :
  row_layout i (c0 :: c1 :: c2 :: c3 :: c4 :: rest) w =
  (row_num <- stripped_text c0 ;;
   time_text <- stripped_text c1 ;;
   company_name <- stripped_text c2 ;;
   submitter <- stripped_text c4 ;;
   ret (Some (row_num, time_text, company_name, c3, submitter))) w.
Proof.
  unfold row_layout.
  assert (H5 : (5 <=? len (c0 :: c1 :: c2 :: c3 :: c4 :: rest)) = true).
  { apply Z.leb_le. rewrite !len_cons. pose proof (len_nonneg rest). lia. }
  assert (H4 : (4 <? len (c0 :: c1 :: c2 :: c3 :: c4 :: rest)) = true).
  { apply Z.ltb_lt. rewrite !len_cons. pose proof (len_nonneg rest). lia. }
  rewrite H5, H4. reflexivity.
Qed.

Lemma row_layout_four i c0 c1 c2 c3 w :
  row_layout i [c0; c1; c2; c3] w =
  (time_text <- stripped_text c0 ;;
   company_name <- stripped_text c1 ;;
   submitter <- stripped_text c3 ;;
   ret (Some (str_of_int (Z.of_nat i + 1), time_text, company_name, c2,
              submitter))) w.
Proof. reflexivity. Qed.

Lemma row_layout_three i c0 c1 c2 w :
  row_layout i [c0; c1; c2] w =
  (time_text <- stripped_text c0 ;;
   company_name <- stripped_text c1 ;;
   ret (Some (str_of_int (Z.of_nat i + 1), time_text, company_name, c2,
              []))) w.
Proof. reflexivity. Qed.

Lemma extract_row_short i row cols w w1 :
  element_find_elements row By_TAG_NAME (py "td") w = (Ok cols, w1) ->
  (List.length cols < 3)%nat ->
  extract_row i row w = (Ok None, w1).
Proof.
  intros Hcols Hlen. unfold extract_row. rewrite run_bind, Hcols.
  assert (Hlt : (len cols <? 3) = true).
  { apply Z.ltb_lt. unfold len. lia. }
  rewrite Hlt. reflexivity.
Qed.

Lemma extract_row_fields i row w item w' :
  extract_row i row w = (Ok (Some item), w') ->
  exists cols w1 title_col w2,
    element_find_elements row By_TAG_NAME (py "td") w = (Ok cols, w1)
    /\ (3 <= List.length cols)%nat
    /\ row_layout i cols w1 =
       (Ok (Some (row_num item, datetime item, company_name item,
                  title_col, submitter item)), w2).
Proof.
  unfold extract_row. rewrite run_bind.
  destruct (element_find_elements row By_TAG_NAME (py "td") w)
    as [[cols|e] w1] eqn:Hcols; [|discriminate].
  destruct (len cols <? 3) eqn:Hlen; [discriminate|].
  rewrite run_bind.
  destruct (row_layout i cols w1) as [[[layout|]|e] w2] eqn:Hl;
    try discriminate.
  destruct layout as [[[[rn tt_] cn] tc] sb].
  rewrite run_bind.
  destruct (title_and_link tc w2) as [[[ti li]|e] w3]; [|discriminate].
  destruct (negb (truthy ti) || negb (truthy cn)
            || str_in_list (str_lower ti) title_header_labels);
    [discriminate|].
  destruct (negb (truthy tt_) || (len tt_ <? 8)); [discriminate|].
  intros H. injection H as <- <-.
  exists cols, w1, tc, w2. split; [reflexivity|]. split.
  - apply Z.ltb_ge in Hlen. unfold len in Hlen. lia.
  - exact Hl.
Qed.

(** What [extract_row] does with a layout once the title cell is read. *)
Lemma extract_row_of_layout i row cols w w1 w2 w3 row_num time_text
    company_name title_col submitter title link :
  element_find_elements row By_TAG_NAME (py "td") w = (Ok cols, w1) ->
  (3 <= List.length cols)%nat ->
  row_layout i cols w1
  = (Ok (Some (row_num, time_text, company_name, title_col, submitter)),
     w2) ->
  title_and_link title_col w2 = (Ok (title, link), w3) ->
  kept_row time_text company_name title ->
  extract_row i row w
  = (Ok (Some (record_of row_num time_text company_name title submitter
                 link)), w3).
Proof.
  intros Hcols Hlen Hlayout Htitle (Ht & Hc & Hh & Hl).
  unfold extract_row. rewrite run_bind, Hcols.
  assert (Hge : (len cols <? 3) = false).
  { apply Z.ltb_ge. unfold len. lia. }
  rewrite Hge, run_bind, Hlayout, run_bind, Htitle.
  destruct title as [|t0 title]; [contradiction Ht; reflexivity|].
  destruct company_name as [|n0 company_name];
    [contradiction Hc; reflexivity|].
  rewrite Hh. cbn [truthy negb orb].
  assert (Hlen8 : (len time_text <? 8) = false) by (apply Z.ltb_ge; lia).
  rewrite Hlen8.
  destruct time_text as [|c0 time_text]; [discriminate Hlen8|].
  reflexivity.
Qed.

(** A row that fails one of the tests gives no record. *)
Lemma extract_row_rejected i row cols w w1 w2 w3 row_num time_text
    company_name title_col submitter title link :
  element_find_elements row By_TAG_NAME (py "td") w = (Ok cols, w1) ->
  row_layout i cols w1
  = (Ok (Some (row_num, time_text, company_name, title_col, submitter)),
     w2) ->
  title_and_link title_col w2 = (Ok (title, link), w3) ->
  ~ kept_row time_text company_name title ->
  extract_row i row w = (Ok None, w3).
Proof.
  intros Hcols Hlayout Htitle Hnot.
  unfold extract_row. rewrite run_bind, Hcols.
  destruct (len cols <? 3) eqn:Hlen.
  { exfalso. unfold row_layout in Hlayout.
    apply Z.ltb_lt in Hlen.
    destruct (Z.leb_spec 5 (len cols)); [lia|].
    destruct (Z.eqb_spec (len cols) 4); [lia|].
    destruct (Z.eqb_spec (len cols) 3); [lia|].
    discriminate Hlayout. }
  rewrite run_bind, Hlayout, run_bind, Htitle.
  destruct (negb (truthy title) || negb (truthy company_name)
            || str_in_list (str_lower title) title_header_labels)
    eqn:Hskip; [reflexivity|].
  destruct (negb (truthy time_text) || (len time_text <? 8)) eqn:Htime;
    [reflexivity|].
  exfalso. apply Hnot.
  apply orb_false_iff in Hskip. destruct Hskip as [Hskip Hh].
  apply orb_false_iff in Hskip. destruct Hskip as [Ht Hc].
  apply orb_false_iff in Htime. destruct Htime as [_ Hl].
  apply Z.ltb_ge in Hl.
  repeat split; try assumption.
  - intros ->. discriminate Ht.
  - intros ->. discriminate Hc.
Qed.

Lemma extract_row_five i row c0 c1 c2 c3 c4 rest w w1 w2 w3 w4 w5 w6
    row_num time_text company_name submitter title link :
  element_find_elements row By_TAG_NAME (py "td") w
  = (Ok (c0 :: c1 :: c2 :: c3 :: c4 :: rest), w1) ->
  stripped_text c0 w1 = (Ok row_num, w2) ->
  stripped_text c1 w2 = (Ok time_text, w3) ->
  stripped_text c2 w3 = (Ok company_name, w4) ->
  stripped_text c4 w4 = (Ok submitter, w5) ->
  title_and_link c3 w5 = (Ok (title, link), w6) ->
  kept_row time_text company_name title ->
  extract_row i row w
  = (Ok (Some (record_of row_num time_text company_name title submitter
                 link)), w6).
Proof.
  intros Hcols H0 H1 H2 H4 Htitle Hkept.
  eapply extract_row_of_layout; try eassumption.
  - cbn [List.length]. lia.
  - rewrite row_layout_five.
    rewrite run_bind, H0, run_bind, H1, run_bind, H2, run_bind, H4.
    reflexivity.
Qed.

Lemma extract_row_four i row c0 c1 c2 c3 w w1 w2 w3 w4 w5
    time_text company_name submitter title link :
  element_find_elements row By_TAG_NAME (py "td") w
  = (Ok [c0; c1; c2; c3], w1) ->
  stripped_text c0 w1 = (Ok time_text, w2) ->
  stripped_text c1 w2 = (Ok company_name, w3) ->
  stripped_text c3 w3 = (Ok submitter, w4) ->
  title_and_link c2 w4 = (Ok (title, link), w5) ->
  kept_row time_text company_name title ->
  extract_row i row w
  = (Ok (Some (record_of (str_of_int (Z.of_nat i + 1)) time_text
                 company_name title submitter link)), w5).
Proof.
  intros Hcols H0 H1 H3 Htitle Hkept.
  eapply extract_row_of_layout; try eassumption.
  - cbn [List.length]. lia.
  - rewrite row_layout_four.
    rewrite run_bind, H0, run_bind, H1, run_bind, H3.
    reflexivity.
Qed.

Lemma extract_row_three i row c0 c1 c2 w w1 w2 w3 w4
    time_text company_name title link :
  element_find_elements row By_TAG_NAME (py "td") w
  = (Ok [c0; c1; c2], w1) ->
  stripped_text c0 w1 = (Ok time_text, w2) ->
  stripped_text c1 w2 = (Ok company_name, w3) ->
  title_and_link c2 w3 = (Ok (title, link), w4) ->
  kept_row time_text company_name title ->
  extract_row i row w
  = (Ok (Some (record_of (str_of_int (Z.of_nat i + 1)) time_text
                 company_name title [] link)), w4).
Proof.
  intros Hcols H0 H1 Htitle Hkept.
  eapply extract_row_of_layout; try eassumption.
  - cbn [List.length]. lia.
  - rewrite row_layout_three.
    rewrite run_bind, H0, run_bind, H1.
    reflexivity.
Qed.

End RowLayout.


(* ===================================================================== *)
(** * [navigate_to_next_page] *)
(* ===================================================================== *)

Section Pagination.
Context {rt : PyRuntime} {env : Env}.

Lemma run_sleep ms (w : World) : sleep ms w = (Ok tt, time_sleep ms w).
Proof. reflexivity. Qed.

Lemma click_and_compare_true link current_page w w' :
  click_and_compare link current_page w = (Ok true, w') ->
  advanced current_page w'.
Proof.
  unfold click_and_compare. intros H.
  rewrite run_bind in H.
  destruct (execute_script js_click link w) as [[[]|e] w1] eqn:Hc;
    [|discriminate].
  rewrite run_bind, run_sleep, run_bind in H.
  destruct (get_current_page_number (time_sleep 4000 w1))
    as [[new_page|e] w2] eqn:Hn; [|discriminate].
  rewrite run_ret in H. injection H as Hgt <-.
  exists link, w, w1, new_page. repeat split; try assumption.
  apply Z.gtb_lt in Hgt. lia.
Qed.

Lemma try_link_onclick_true link onclick current_page w w' :
  try_link_onclick link onclick current_page w = (Ok true, w') ->
  advanced current_page w'.
Proof.
  unfold try_link_onclick. intros H.
  destruct onclick as [oc|]; [|discriminate].
  destruct (truthy oc); [|discriminate].
  destruct (re_search match_goPage oc) as [g|]; [|discriminate].
  rewrite run_bind in H. unfold of_res in H.
  destruct (int_of_str g) as [n|e]; [|discriminate].
  destruct (n =? current_page + 1); [|discriminate].
  eapply click_and_compare_true. exact H.
Qed.

Lemma try_link_href_true link href current_page w w' :
  try_link_href link href current_page w = (Ok true, w') ->
  advanced current_page w'.
Proof.
  unfold try_link_href. intros H.
  destruct href as [h|]; [|discriminate].
  destruct (truthy h && contains (py "page") h); [|discriminate].
  destruct (re_search match_pageNo h) as [g|]; [|discriminate].
  rewrite run_bind in H. unfold of_res in H.
  destruct (int_of_str g) as [n|e]; [|discriminate].
  destruct (n =? current_page + 1); [|discriminate].
  eapply click_and_compare_true. exact H.
Qed.

Lemma try_link_text_true link link_text current_page w w' :
  try_link_text link link_text current_page w = (Ok true, w') ->
  advanced current_page w'.
Proof.
  unfold try_link_text. intros H.
  destruct (str_isdigit link_text); [|discriminate].
  rewrite run_bind in H. unfold of_res in H.
  destruct (int_of_str link_text) as [n|e]; [|discriminate].
  destruct (n =? current_page + 1); [|discriminate].
  eapply click_and_compare_true. exact H.
Qed.

Lemma try_next_selectors_return current_page w b w' :
  try_next_selectors current_page w = (Ok (inr b), w') ->
  b = true /\ advanced current_page w'.
Proof.
  unfold try_next_selectors.
  apply (for_in_return (fun b w' => b = true /\ advanced current_page w')).
  intros [i selector] [] s r s' H.
  rewrite run_catch, run_bind in H.
  destruct (wait_until_clickable 5 (BareString selector) s)
    as [[next_button|e] s1]; [|discriminate].
  rewrite run_bind in H.
  destruct (is_enabled next_button s1) as [[enabled|e] s2]; [|discriminate].
  rewrite run_bind in H.
  destruct ((if enabled then is_displayed next_button else ret false) s2)
    as [[usable|e] s3]; [|discriminate].
  destruct usable; [|discriminate].
  rewrite run_bind in H.
  destruct (execute_script js_scroll next_button s3) as [[[]|e] s4];
    [|discriminate].
  rewrite run_bind, run_sleep, run_bind in H.
  destruct (execute_script js_click next_button (time_sleep 1000 s4))
    as [[[]|e] s5] eqn:Hc; [|discriminate].
  rewrite run_bind, run_sleep, run_bind in H.
  destruct (get_current_page_number (time_sleep 4000 s5))
    as [[new_page|e] s6] eqn:Hn; [|discriminate].
  destruct (new_page >? current_page) eqn:Hgt; [|discriminate].
  rewrite run_ret in H. injection H as <- <-.
  split; [reflexivity|].
  exists next_button, (time_sleep 1000 s4), s5, new_page.
  repeat split; try assumption. apply Z.gtb_lt in Hgt. lia.
Qed.

Lemma try_page_links_return current_page w b w' :
  try_page_links current_page w = (Ok (inr b), w') ->
  b = true /\ advanced current_page w'.
Proof.
  unfold try_page_links. intros H.
  rewrite run_catch, run_bind in H.
  destruct (find_elements By_XPATH
              (py "//a[contains(@onclick, 'goPage') or @href]") w)
    as [[page_links|e] s0]; [|discriminate].
  match type of H with
  | match ?loop s0 with _ => _ end = _ =>
      destruct (loop s0) as [[[u|b']|e] s1] eqn:Hloop; try discriminate
  end.
  injection H as <- <-.
  revert Hloop.
  apply (for_in_return (fun b w' => b = true /\ advanced current_page w')).
  intros link [] s r s' H.
  rewrite run_catch, run_bind in H.
  destruct (get_attribute link (py "onclick") s) as [[onclick|e] s2];
    [|discriminate].
  rewrite run_bind in H.
  destruct (get_attribute link (py "href") s2) as [[href|e] s3];
    [|discriminate].
  rewrite run_bind in H.
  destruct (element_text link s3) as [[t|e] s4]; [|discriminate].
  rewrite run_bind in H.
  destruct (try_link_onclick link onclick current_page s4)
    as [[r1|e] s5] eqn:H1; [|discriminate].
  destruct r1.
  { rewrite run_ret in H. injection H as <- <-.
    split; [reflexivity|]. eapply try_link_onclick_true. exact H1. }
  rewrite run_bind in H.
  destruct (try_link_href link href current_page s5)
    as [[r2|e] s6] eqn:H2; [|discriminate].
  destruct r2.
  { rewrite run_ret in H. injection H as <- <-.
    split; [reflexivity|]. eapply try_link_href_true. exact H2. }
  rewrite run_bind in H.
  destruct (try_link_text link (strip t) current_page s6)
    as [[r3|e] s7] eqn:H3; [|discriminate].
  destruct r3; [|discriminate].
  rewrite run_ret in H. injection H as <- <-.
  split; [reflexivity|]. eapply try_link_text_true. exact H3.
Qed.

(** C2.  [navigate_to_next_page] always returns a boolean, and it
    returns [True] only when a page number derived after a click is
    strictly greater than the one derived at the start of the call. *)
Theorem navigate_to_next_page_strict (w : World) :
  exists b w',
    navigate_to_next_page w = (Ok b, w')
    /\ (b = true ->
        exists current_page w0,
          get_current_page_number w = (Ok current_page, w0)
          /\ advanced current_page w').
Proof.
  unfold navigate_to_next_page. rewrite run_catch, run_bind.
  destruct (get_current_page_number w) as [[current_page|e] w0] eqn:Hcur.
  2:{ eexists _, _. split; [reflexivity|]. discriminate. }
  rewrite run_bind.
  destruct (try_next_selectors current_page w0) as [[[u|b]|e] w1] eqn:H1.
  - rewrite run_bind.
    destruct (try_page_links current_page w1) as [[[u2|b]|e] w2] eqn:H2.
    + eexists _, _. split; [reflexivity|]. discriminate.
    + eexists _, _. split; [reflexivity|]. intros ->.
      exists current_page, w0. split; [reflexivity|].
      apply try_page_links_return in H2. apply H2.
    + eexists _, _. split; [reflexivity|]. discriminate.
  - eexists _, _. split; [reflexivity|]. intros ->.
    exists current_page, w0. split; [reflexivity|].
    apply try_next_selectors_return in H1. apply H1.
  - eexists _, _. split; [reflexivity|]. discriminate.
Qed.
End Pagination.

(** C2 on the toy browser at page 1 of 3: the call returns [True] and
    leaves the browser on page 2. *)
Lemma navigate_to_next_page_strict_witness :
  @navigate_to_next_page ascii_runtime Toy.toy_env (Toy.toy_start 3)
  = (Ok true, Toy.mkToy 2 3 0)
  /\ exists b w',
      @navigate_to_next_page ascii_runtime Toy.toy_env (Toy.toy_start 3)
      = (Ok b, w')
      /\ (b = true ->
          exists current_page w0,
            @get_current_page_number ascii_runtime Toy.toy_env
              (Toy.toy_start 3) = (Ok current_page, w0)
            /\ @advanced ascii_runtime Toy.toy_env current_page w').
Proof.
  split; [vm_compute; reflexivity|].
  apply (@navigate_to_next_page_strict ascii_runtime Toy.toy_env
           (Toy.toy_start 3)).
Defined.

(* ===================================================================== *)
(** * [select_market_type] inside [scrape_period_data] *)
(* ===================================================================== *)

Section Market.
Context {rt : PyRuntime} {env : Env}.

Lemma in_enumerate {X} (xs : list X) i x :
  In (i, x) (enumerate xs) -> In x xs.
Proof. unfold enumerate. apply in_combine_r. Qed.

Lemma try_market_selectors_unresolved selectors :
  no_radio_control selectors ->
  forall w, exists w', try_market_selectors selectors w = (Ok (inl false), w').
Proof.
  intros Hno. unfold try_market_selectors.
  assert (Hin : forall p, In p (enumerate selectors) -> In (snd p) selectors).
  { intros [i x] H. eapply in_enumerate. exact H. }
  revert Hin. generalize (enumerate selectors) as l.
  induction l as [|[i [by_ value]] l IH]; intros Hin w.
  - exists w. reflexivity.
  - cbn [for_in]. rewrite run_bind, run_catch, run_bind.
    destruct (Hno by_ value w (Hin (i, (by_, value)) (or_introl eq_refl)))
      as (e & w1 & ->).
    rewrite run_ret. apply IH. intros p Hp. apply Hin. right. exact Hp.
Qed.

Lemma market_selectors_not_default market_type selectors :
  market_selectors market_type = Some selectors ->
  pystr_eqb market_type (py "전체") = false.
Proof.
  unfold market_selectors. intros H.
  destruct (pystr_eqb market_type (py "유가증권")) eqn:E1.
  { apply pystr_eqb_eq in E1. subst. reflexivity. }
  destruct (pystr_eqb market_type (py "코스닥")) eqn:E2; [|discriminate].
  apply pystr_eqb_eq in E2. subst. reflexivity.
Qed.

Lemma select_market_type_unresolved market_type selectors w :
  market_selectors market_type = Some selectors ->
  no_radio_control selectors ->
  exists w', select_market_type market_type w = (Ok false, w').
Proof.
  intros Hsel Hno. unfold select_market_type.
  rewrite run_catch, (market_selectors_not_default _ _ Hsel), Hsel, run_bind.
  destruct (try_market_selectors_unresolved selectors Hno w) as (w1 & ->).
  eexists. reflexivity.
Qed.

(** C3 (evaluation of the code).  When no candidate selector of a
    non-default market resolves, [select_market_type] returns [False]
    and [scrape_period_data] returns the empty list at once: the world
    is left as it was after the market step, so neither the search nor
    any extraction takes place. *)
Theorem scrape_period_data_aborts_on_market_failure
    (start_date end_date market_type : pystr)
    (disclosure_types : option (list pystr)) (max_pages : option Z)
    (selectors : list (By * pystr)) (w : World) :
  market_selectors market_type = Some selectors ->
  no_radio_control selectors ->
  scrape_period_data start_date end_date disclosure_types max_pages
    market_type w
  = Some (Ok [], world_after_market_step start_date end_date market_type w).
Proof.
  intros Hsel Hno. unfold scrape_period_data, world_after_market_step.
  rewrite prun_catch, prun_bind, run_call. unfold total_step at 1.
  destruct (navigate_to_search_page w) as [ok1 w1].
  destruct ok1; [|reflexivity]. cbn [negb].
  rewrite prun_bind, run_call. unfold total_step at 1.
  destruct (set_date_range start_date end_date w1) as [ok2 w2].
  destruct ok2; [|reflexivity]. cbn [negb].
  rewrite prun_bind, run_call.
  destruct (select_market_type_unresolved market_type selectors w2 Hsel Hno)
    as (w3 & ->).
  reflexivity.
Qed.
End Market.

(** The theorem on the toy browser, whose pages carry no radio button:
    the collection for "유가증권" is empty, while the same pages collected
    with the default market give six records. *)
Lemma scrape_period_data_aborts_on_market_failure_witness :
  @scrape_period_data ascii_runtime Toy.toy_env (py "2024-01-01")
    (py "2024-01-31") None None (py "유가증권") (Toy.toy_start 3)
  = Some (Ok [], Toy.toy_start 3)
  /\ option_map (fun out => match fst out with
                            | Ok data => List.length data
                            | Raise _ => 0%nat
                            end)
       (@scrape_period_data ascii_runtime Toy.toy_env (py "2024-01-01")
          (py "2024-01-31") None None (py "전체") (Toy.toy_start 3))
     = Some 6%nat.
Proof.
  split.
  - apply (@scrape_period_data_aborts_on_market_failure ascii_runtime
             Toy.toy_env (py "2024-01-01") (py "2024-01-31") (py "유가증권")
             None None
             [ (By_CSS_SELECTOR, py "#rWertpapier");
               (By_XPATH, py "//*[@id='rWertpapier']");
               (By_ID, py "rWertpapier");
               (By_XPATH, py "//input[@id='rWertpapier']") ]
             (Toy.toy_start 3)).
    + reflexivity.
    + intros by_ value w _. exists TimeoutException, w. reflexivity.
  - vm_compute. reflexivity.
Defined.

(* ===================================================================== *)
(** * The extraction loop of [scrape_period_data] *)
(* ===================================================================== *)

Section PeriodLoop.
Context {rt : PyRuntime} {env : Env}.

Lemma extract_page_data_returns w :
  exists page_data w', extract_page_data w = (Ok page_data, w').
Proof.
  unfold extract_page_data. apply catch_returns.
  intros e s. eexists _, _. reflexivity.
Qed.

Lemma navigate_to_next_page_returns w :
  exists b w', navigate_to_next_page w = (Ok b, w').
Proof.
  unfold navigate_to_next_page. apply catch_returns.
  intros e s. eexists _, _. reflexivity.
Qed.

Lemma select_market_type_returns market_type w :
  exists b w', select_market_type market_type w = (Ok b, w').
Proof.
  unfold select_market_type. apply catch_returns.
  intros e s. eexists _, _. reflexivity.
Qed.

Lemma guarded_ok {A} (m : ST World A) w a w' :
  m w = (Ok a, w') -> guarded m w = (Ok (Ok a), w').
Proof.
  intros H. unfold guarded. rewrite run_catch, run_bind, H. reflexivity.
Qed.

Lemma max_pages_reached_spec max_pages page_num :
  max_pages_reached max_pages page_num = true
  <-> cap_exceeded max_pages page_num.
Proof.
  unfold max_pages_reached, cap_exceeded. split.
  - destruct max_pages as [m|]; [|discriminate]. intros H.
    apply andb_prop in H. destruct H as [H1 H2].
    exists m. repeat split.
    + destruct (Z.eqb_spec m 0); [discriminate|assumption].
    + apply Z.gtb_lt in H2. lia.
  - intros (m & -> & Hm & Hgt).
    destruct (Z.eqb_spec m 0); [contradiction|].
    simpl. apply Z.gtb_lt. lia.
Qed.

Lemma empty_page_spec (page_data : list data_item) :
  negb (0 <? len page_data) = true <-> page_data = [].
Proof.
  destruct page_data as [|x l].
  - split; reflexivity.
  - rewrite len_cons. pose proof (len_nonneg l).
    destruct (Z.ltb_spec 0 (len l + 1)); [|lia].
    split; discriminate.
Qed.

Lemma third_empty_spec empties (page_data : list data_item) :
  let empty := negb (0 <? len page_data) in
  empty && ((if empty then empties + 1 else 0) >=? max_consecutive_empty)
  = true <-> third_empty empties page_data.
Proof.
  unfold third_empty, max_consecutive_empty. cbv zeta.
  destruct page_data as [|x l].
  - change (negb (0 <? len (@nil data_item))) with true. cbv iota.
    rewrite andb_true_l, Z.geb_leb, Z.leb_le.
    split; [intros Hge; split; [reflexivity|lia]|intros [_ Hge]; lia].
  - pose proof (proj1 (empty_page_spec (x :: l))) as H.
    destruct (negb (0 <? len (x :: l))).
    + discriminate (H eq_refl).
    + split; [discriminate|]. intros [H' _]. discriminate H'.
Qed.

Lemma empties_after_spec empties (page_data : list data_item) :
  (if negb (0 <? len page_data) then empties + 1 else 0)
  = empties_after empties page_data.
Proof.
  destruct page_data as [|x l]; [reflexivity|].
  pose proof (proj1 (empty_page_spec (x :: l))) as H.
  destruct (negb (0 <? len (x :: l))); [discriminate (H eq_refl)|].
  reflexivity.
Qed.

(** The loop entered at a page [page_num <= 100] with enough iterations
    left to reach page 100. *)
Lemma period_loop_stops fuel :
  forall max_pages page_num empties all_data extracted w,
    page_num <= 100 ->
    100 <= page_num + Z.of_nat fuel ->
    exists out w',
      period_loop fuel max_pages page_num empties all_data extracted w
      = Some (Ok out, w')
      /\ loop_stops max_pages page_num empties w (exit_reason out) w'
      /\ Z.of_nat (pages_extracted out)
         <= Z.of_nat extracted + (101 - page_num).
Proof.
  induction fuel as [|fuel IH];
    intros max_pages page_num empties all_data extracted w Hle Hfuel.
  - (* no iteration left: the page is the hundredth *)
    cbn [period_loop].
    destruct (max_pages_reached max_pages page_num) eqn:Hcap.
    { eexists _, _. split; [reflexivity|]. cbn [exit_reason pages_extracted]. split; [|lia].
      apply stops_max_pages, max_pages_reached_spec, Hcap. }
    assert (Hncap : ~ cap_exceeded max_pages page_num).
    { intros Hc. apply max_pages_reached_spec in Hc. congruence. }
    destruct (extract_page_data_returns w) as (page_data & w1 & Hex).
    rewrite prun_bind, run_call, (guarded_ok _ _ _ _ Hex).
    pose proof (third_empty_spec empties page_data) as H3. cbv zeta in H3.
    destruct (negb (0 <? len page_data)
              && ((if negb (0 <? len page_data) then empties + 1 else 0)
                  >=? max_consecutive_empty)) eqn:Hthird.
    { eexists _, _. split; [reflexivity|]. cbn [exit_reason pages_extracted]. split; [|lia].
      eapply stops_empty_pages; eauto. apply H3. reflexivity. }
    assert (Hn3 : ~ third_empty empties page_data).
    { intros Hc. apply H3 in Hc. discriminate. }
    destruct (navigate_to_next_page_returns w1) as (b & w2 & Hnav).
    rewrite prun_bind, run_call, (guarded_ok _ _ _ _ Hnav).
    destruct b.
    + rewrite prun_bind, run_call.
      assert (Hgt : (page_num + 1 >? 100) = true) by (apply Z.gtb_lt; lia).
      rewrite Hgt.
      eexists _, _. split; [reflexivity|]. cbn [exit_reason pages_extracted]. split; [|lia].
      eapply stops_safety_ceiling; eauto. lia.
    + eexists _, _. split; [reflexivity|]. cbn [exit_reason pages_extracted]. split; [|lia].
      eapply stops_no_next_page; eauto.
  - cbn [period_loop].
    destruct (max_pages_reached max_pages page_num) eqn:Hcap.
    { eexists _, _. split; [reflexivity|]. cbn [exit_reason pages_extracted]. split; [|lia].
      apply stops_max_pages, max_pages_reached_spec, Hcap. }
    assert (Hncap : ~ cap_exceeded max_pages page_num).
    { intros Hc. apply max_pages_reached_spec in Hc. congruence. }
    destruct (extract_page_data_returns w) as (page_data & w1 & Hex).
    rewrite prun_bind, run_call, (guarded_ok _ _ _ _ Hex).
    pose proof (third_empty_spec empties page_data) as H3. cbv zeta in H3.
    destruct (negb (0 <? len page_data)
              && ((if negb (0 <? len page_data) then empties + 1 else 0)
                  >=? max_consecutive_empty)) eqn:Hthird.
    { eexists _, _. split; [reflexivity|]. cbn [exit_reason pages_extracted]. split; [|lia].
      eapply stops_empty_pages; eauto. apply H3. reflexivity. }
    assert (Hn3 : ~ third_empty empties page_data).
    { intros Hc. apply H3 in Hc. discriminate. }
    destruct (navigate_to_next_page_returns w1) as (b & w2 & Hnav).
    rewrite prun_bind, run_call, (guarded_ok _ _ _ _ Hnav).
    destruct b.
    + rewrite prun_bind, run_call.
      destruct (page_num + 1 >? 100) eqn:Hgt.
      * eexists _, _. split; [reflexivity|]. cbn [exit_reason pages_extracted]. split; [|lia].
        eapply stops_safety_ceiling; eauto. apply Z.gtb_lt in Hgt. lia.
      * assert (Hle' : page_num + 1 <= 100).
        { destruct (Z.gtb_spec (page_num + 1) 100); [discriminate|lia]. }
        rewrite empties_after_spec.
        destruct (IH max_pages (page_num + 1)
                     (empties_after empties page_data)
                     (if negb (0 <? len page_data) then all_data
                      else all_data ++ page_data)
                     (S extracted) (time_sleep 2000 w2) Hle')
          as (out & w' & Hrun & Hstop & Hcount); [lia|].
        exists out, w'. split; [exact Hrun|]. split; [|lia].
        eapply stops_later; eauto.
    + eexists _, _. split; [reflexivity|]. cbn [exit_reason pages_extracted]. split; [|lia].
      eapply stops_no_next_page; eauto.
Qed.

Lemma scrape_period_data_returns start_date end_date disclosure_types
    max_pages market_type w :
  exists data w',
    scrape_period_data start_date end_date disclosure_types max_pages
      market_type w = Some (Ok data, w').
Proof.
  unfold scrape_period_data.
  rewrite prun_catch, prun_bind, run_call. unfold total_step at 1.
  destruct (navigate_to_search_page w) as [ok1 w1].
  destruct ok1; [|eexists _, _; reflexivity]. cbn [negb].
  rewrite prun_bind, run_call. unfold total_step at 1.
  destruct (set_date_range start_date end_date w1) as [ok2 w2].
  destruct ok2; [|eexists _, _; reflexivity]. cbn [negb].
  rewrite prun_bind, run_call.
  destruct (select_market_type_returns market_type w2) as (ok3 & w3 & ->).
  destruct ok3; [|eexists _, _; reflexivity]. cbn [negb].
  rewrite prun_bind, run_call. unfold total_step at 1.
  destruct (select_disclosure_types disclosure_types w3) as [ok4 w4].
  destruct ok4; [|eexists _, _; reflexivity]. cbn [negb].
  rewrite prun_bind, run_call. unfold total_step at 1.
  destruct (set_page_size 100 w4) as [ok5 w5].
  rewrite prun_bind, run_call. unfold total_step at 1.
  destruct (click_search_button w5) as [ok6 w6].
  destruct ok6; [|eexists _, _; reflexivity]. cbn [negb].
  rewrite prun_bind.
  destruct (period_loop_stops 100 max_pages 1 0 [] 0 w6)
    as (out & w7 & -> & _ & _); [lia|lia|].
  destruct (exit_reason out); eexists _, _; reflexivity.
Qed.

(** A cap of [0] is no cap. *)
Lemma period_loop_zero_cap fuel :
  forall page_num empties all_data extracted w,
    period_loop fuel (Some 0) page_num empties all_data extracted w
    = period_loop fuel None page_num empties all_data extracted w.
Proof.
  induction fuel as [|fuel IH]; intros page_num empties all_data extracted w.
  - reflexivity.
  - cbn [period_loop max_pages_reached].
    change (negb (0 =? 0) && (page_num >? 0)) with false. cbv iota.
    rewrite !prun_bind.
    destruct (call (guarded extract_page_data) w) as [[[got|e] w1]|];
      [|reflexivity|reflexivity].
    destruct got as [page_data|e']; [|reflexivity].
    destruct (negb (0 <? len page_data)
              && ((if negb (0 <? len page_data) then empties + 1 else 0)
                  >=? max_consecutive_empty)); [reflexivity|].
    rewrite !prun_bind.
    destruct (call (guarded navigate_to_next_page) w1) as [[[mv|e] w2]|];
      [|reflexivity|reflexivity].
    destruct mv as [[|]|e']; [|reflexivity|reflexivity].
    rewrite !prun_bind.
    destruct (call (sleep 2000) w2) as [[[u|e] w3]|];
      [|reflexivity|reflexivity].
    destruct (page_num + 1 >? 100); [reflexivity|].
    apply IH.
Qed.

(** C5, as the code has it.  The extraction loop of [scrape_period_data]
    terminates within the hundred iterations the model allows (and with
    any larger allowance), it is left exactly as the stop conditions
    prescribe, iteration by iteration, where condition (a) is that the
    page count exceeds a cap other than 0; it extracts at most a hundred
    pages; the function returns; and a cap of 0 is no cap: the loop
    runs as it does without one. *)
Theorem period_loop_terminates (fuel : nat) (max_pages : option Z)
    (w : World) :
  (99 <= fuel)%nat ->
  (exists out w',
      period_loop fuel max_pages 1 0 [] 0 w = Some (Ok out, w')
      /\ loop_stops max_pages 1 0 w (exit_reason out) w'
      /\ (pages_extracted out <= 100)%nat)
  /\ (forall start_date end_date disclosure_types market_type,
         exists data w',
           scrape_period_data start_date end_date disclosure_types
             max_pages market_type w = Some (Ok data, w'))
  /\ period_loop fuel (Some 0) 1 0 [] 0 w
     = period_loop fuel None 1 0 [] 0 w.
Proof.
  intros Hfuel. split; [|split].
  - destruct (period_loop_stops fuel max_pages 1 0 [] 0 w)
      as (out & w' & Hrun & Hstop & Hcount); [lia|lia|].
    exists out, w'. repeat split; try assumption. lia.
  - intros. apply scrape_period_data_returns.
  - apply period_loop_zero_cap.
Qed.
End PeriodLoop.

(** The theorem on the toy browser with 150 result pages. *)
Lemma period_loop_terminates_witness :
  (exists out w',
      @period_loop ascii_runtime Toy.toy_env 100 None 1 0 [] 0
        (Toy.toy_start 150) = Some (Ok out, w')
      /\ @loop_stops ascii_runtime Toy.toy_env None 1 0 (Toy.toy_start 150)
           (exit_reason out) w'
      /\ (pages_extracted out <= 100)%nat)
  /\ (forall start_date end_date disclosure_types market_type,
         exists data w',
           @scrape_period_data ascii_runtime Toy.toy_env start_date end_date
             disclosure_types None market_type (Toy.toy_start 150)
           = Some (Ok data, w'))
  /\ @period_loop ascii_runtime Toy.toy_env 100 (Some 0) 1 0 [] 0
       (Toy.toy_start 150)
     = @period_loop ascii_runtime Toy.toy_env 100 None 1 0 [] 0
         (Toy.toy_start 150).
Proof.
  apply (@period_loop_terminates ascii_runtime Toy.toy_env 100 None
           (Toy.toy_start 150)).
  lia.
Defined.

(** C5, as stated, fails for a cap of 0.  On the toy browser with 150
    result pages the page count exceeds the cap at the first check, and
    with a cap of 2 the loop is left there after two pages; with the cap
    of 0 it extracts a hundred pages and is left by the safety ceiling. *)
Lemma period_loop_ignores_zero_cap :
  @page_count_exceeds_cap (Some 0) 1
  /\ (exists out w',
        @period_loop ascii_runtime Toy.toy_env 100 (Some 2) 1 0 [] 0
          (Toy.toy_start 150) = Some (Ok out, w')
        /\ exit_reason out = StopMaxPages
        /\ pages_extracted out = 2%nat)
  /\ (exists out w',
        @period_loop ascii_runtime Toy.toy_env 100 (Some 0) 1 0 [] 0
          (Toy.toy_start 150) = Some (Ok out, w')
        /\ exit_reason out = StopSafetyCeiling
        /\ exit_page_num out = 101
        /\ pages_extracted out = 100%nat
        /\ len (exit_data out) = 200).
Proof.
  split; [exists 0; split; [reflexivity|lia]|].
  split.
  - eexists _, _. split; [vm_compute; reflexivity|].
    split; reflexivity.
  - eexists _, _. split; [vm_compute; reflexivity|].
    repeat split; vm_compute; reflexivity.
Qed.

(* ===================================================================== *)
(** * The calendar *)
(* ===================================================================== *)

Lemma days_in_month_bounds y m : 28 <= days_in_month y m <= 31.
Proof.
  unfold days_in_month.
  destruct (m =? 2); [destruct (is_leap y); lia|].
  destruct ((m =? 4) || (m =? 6) || (m =? 9) || (m =? 11)); lia.
Qed.

Lemma valid_ymd_spec y m d :
  valid_ymd y m d = true <->
  1 <= y <= 9999 /\ 1 <= m <= 12 /\ 1 <= d <= days_in_month y m.
Proof.
  unfold valid_ymd, MINYEAR, MAXYEAR.
  rewrite !andb_true_iff, !Z.leb_le. lia.
Qed.

Lemma valid_date_spec dt :
  valid_date dt = true <->
  1 <= year dt <= 9999 /\ 1 <= month dt <= 12
  /\ 1 <= day dt <= days_in_month (year dt) (month dt).
Proof. apply valid_ymd_spec. Qed.

Lemma datetime_new_ok y m d dt :
  datetime_new y m d = Ok dt -> dt = mkdate y m d /\ valid_date dt = true.
Proof.
  unfold datetime_new. destruct (valid_ymd y m d) eqn:E; [|discriminate].
  intros H. injection H as <-. split; [reflexivity|exact E].
Qed.

Lemma days_before_month_step y m :
  1 <= m ->
  days_before_month y (m + 1) = days_before_month y m + days_in_month y m.
Proof.
  intros Hm. unfold days_before_month.
  replace (Z.to_nat (m + 1 - 1)) with (S (Z.to_nat (m - 1))) by lia.
  rewrite seq_S, !map_app, fold_right_app. cbn [List.map fold_right].
  replace (Z.of_nat (1 + Z.to_nat (m - 1))) with m by lia.
  generalize (List.map (days_in_month y)
                (List.map Z.of_nat (seq 1 (Z.to_nat (m - 1))))).
  intros l. induction l as [|x l IH]; cbn [fold_right]; lia.
Qed.

Lemma days_before_month_one y : days_before_month y 1 = 0.
Proof. reflexivity. Qed.

Lemma days_before_month_mono y m k :
  1 <= m ->
  days_before_month y m + days_in_month y m
  <= days_before_month y (m + 1 + Z.of_nat k).
Proof.
  intros Hm. induction k as [|k IH].
  - rewrite Z.add_0_r, days_before_month_step by lia. lia.
  - replace (m + 1 + Z.of_nat (S k)) with ((m + 1 + Z.of_nat k) + 1) by lia.
    rewrite days_before_month_step by lia.
    pose proof (days_in_month_bounds y (m + 1 + Z.of_nat k)). lia.
Qed.

Lemma days_before_month_lt y m m' :
  1 <= m < m' ->
  days_before_month y m + days_in_month y m <= days_before_month y m'.
Proof.
  intros H. replace m' with (m + 1 + Z.of_nat (Z.to_nat (m' - m - 1))) by lia.
  apply days_before_month_mono. lia.
Qed.

Lemma days_before_month_nonneg y m : 1 <= m -> 0 <= days_before_month y m.
Proof.
  intros H. destruct (Z.eq_dec m 1) as [->|Hne]; [reflexivity|].
  pose proof (days_before_month_lt y 1 m ltac:(lia)).
  pose proof (days_in_month_bounds y 1).
  rewrite days_before_month_one in *. lia.
Qed.

Lemma days_before_month_13 y : days_before_month y 13 = year_length y.
Proof.
  unfold year_length, days_before_month. cbn.
  unfold days_in_month. cbn. destruct (is_leap y); reflexivity.
Qed.

Lemma days_before_month_12 y : days_before_month y 12 + 31 = year_length y.
Proof.
  unfold year_length, days_before_month. cbn.
  unfold days_in_month. cbn. destruct (is_leap y); reflexivity.
Qed.

Lemma days_in_month_12 y : days_in_month y 12 = 31.
Proof. reflexivity. Qed.

Lemma days_before_year_succ y :
  days_before_year (y + 1) = days_before_year y + year_length y.
Proof.
  unfold days_before_year, year_length, is_leap. cbv zeta.
  replace (y + 1 - 1) with y by lia.
  destruct (Z.eqb_spec (y mod 4) 0), (Z.eqb_spec (y mod 100) 0),
    (Z.eqb_spec (y mod 400) 0); cbn [andb orb negb];
    Z.to_euclidean_division_equations; lia.
Qed.

Lemma days_before_year_mono y y' :
  y < y' -> days_before_year (y + 1) <= days_before_year y'.
Proof.
  intros H. unfold days_before_year. cbv zeta.
  Z.to_euclidean_division_equations. lia.
Qed.

Lemma day_of_year_bounds dt :
  valid_date dt = true ->
  1 <= days_before_month (year dt) (month dt) + day dt
  <= year_length (year dt).
Proof.
  intros Hv. apply valid_date_spec in Hv. destruct Hv as (Hy & Hm & Hd).
  pose proof (days_before_month_nonneg (year dt) (month dt) ltac:(lia)).
  split; [lia|].
  destruct (Z.eq_dec (month dt) 12) as [E|E].
  - rewrite E in *. rewrite <- days_before_month_12.
    rewrite days_in_month_12 in Hd. lia.
  - rewrite <- days_before_month_13.
    pose proof (days_before_month_lt (year dt) (month dt) 13 ltac:(lia)). lia.
Qed.

Lemma date_ltb_toordinal a b :
  valid_date a = true -> valid_date b = true ->
  date_ltb a b = true -> toordinal a < toordinal b.
Proof.
  intros Ha Hb H. unfold date_ltb in H. unfold toordinal.
  pose proof (day_of_year_bounds a Ha) as Ba.
  pose proof (day_of_year_bounds b Hb) as Bb.
  apply valid_date_spec in Ha, Hb.
  apply orb_prop in H. destruct H as [H|H].
  - apply Z.ltb_lt in H.
    pose proof (days_before_year_mono _ _ H).
    rewrite days_before_year_succ in *. lia.
  - apply andb_prop in H. destruct H as [Hy H]. apply Z.eqb_eq in Hy.
    rewrite Hy in *. apply orb_prop in H. destruct H as [H|H].
    + apply Z.ltb_lt in H.
      pose proof (days_before_month_lt (year b) (month a) (month b)
                    ltac:(lia)). lia.
    + apply andb_prop in H. destruct H as [Hm H].
      apply Z.eqb_eq in Hm. apply Z.ltb_lt in H. rewrite Hm. lia.
Qed.

Lemma date_eta a : a = mkdate (year a) (month a) (day a).
Proof. destruct a. reflexivity. Qed.

Lemma date_trichotomy a b :
  date_ltb a b = true \/ a = b \/ date_ltb b a = true.
Proof.
  unfold date_ltb.
  destruct (Z.lt_total (year a) (year b)) as [H|[H|H]].
  - left. apply orb_true_iff. left. apply Z.ltb_lt. exact H.
  - destruct (Z.lt_total (month a) (month b)) as [Hm|[Hm|Hm]].
    + left. rewrite H, Z.eqb_refl. apply orb_true_iff. right.
      apply orb_true_iff. left. apply Z.ltb_lt. exact Hm.
    + destruct (Z.lt_total (day a) (day b)) as [Hd|[Hd|Hd]].
      * left. rewrite H, Hm, !Z.eqb_refl. apply orb_true_iff. right.
        apply orb_true_iff. right. apply Z.ltb_lt. exact Hd.
      * right. left. rewrite (date_eta a), (date_eta b). congruence.
      * right. right. rewrite H, Hm, !Z.eqb_refl. apply orb_true_iff. right.
        apply orb_true_iff. right. apply Z.ltb_lt. exact Hd.
    + right. right. rewrite H, Z.eqb_refl. apply orb_true_iff. right.
      apply orb_true_iff. left. apply Z.ltb_lt. exact Hm.
  - right. right. apply orb_true_iff. left. apply Z.ltb_lt. exact H.
Qed.

Lemma date_ltb_iff a b :
  valid_date a = true -> valid_date b = true ->
  (date_ltb a b = true <-> toordinal a < toordinal b).
Proof.
  intros Ha Hb. split; [apply date_ltb_toordinal; assumption|].
  intros H. destruct (date_trichotomy a b) as [L|[E|G]].
  - exact L.
  - subst. lia.
  - apply date_ltb_toordinal in G; try assumption. lia.
Qed.

Lemma date_ltb_false_iff a b :
  valid_date a = true -> valid_date b = true ->
  (date_ltb a b = false <-> toordinal b <= toordinal a).
Proof.
  intros Ha Hb. split.
  - intros Hf.
    destruct (Z.lt_ge_cases (toordinal a) (toordinal b)) as [L|L]; [|lia].
    apply (date_ltb_iff a b Ha Hb) in L. congruence.
  - intros Hle. destruct (date_ltb a b) eqn:E; [|reflexivity].
    apply (date_ltb_iff a b Ha Hb) in E. lia.
Qed.

Lemma add_one_day_spec dt dt' :
  valid_date dt = true -> add_one_day dt = Ok dt' ->
  valid_date dt' = true /\ toordinal dt' = toordinal dt + 1.
Proof.
  intros Hv H. apply valid_date_spec in Hv. destruct Hv as (Hy & Hm & Hd).
  unfold add_one_day, MAXYEAR in H.
  destruct (Z.ltb_spec (day dt) (days_in_month (year dt) (month dt))).
  { injection H as <-. split.
    - apply valid_date_spec. cbn. lia.
    - unfold toordinal. cbn. lia. }
  destruct (Z.ltb_spec (month dt) 12).
  { injection H as <-. split.
    - apply valid_date_spec. cbn.
      pose proof (days_in_month_bounds (year dt) (month dt + 1)). lia.
    - unfold toordinal. cbn.
      rewrite days_before_month_step by lia. lia. }
  destruct (Z.ltb_spec (year dt) 9999); [|discriminate].
  injection H as <-. split.
  - apply valid_date_spec. cbn.
    pose proof (days_in_month_bounds (year dt + 1) 1). lia.
  - unfold toordinal. cbn [year month day].
    rewrite days_before_year_succ, <- days_before_month_12.
    replace (month dt) with 12 in * by lia.
    rewrite days_in_month_12 in *.
    rewrite days_before_month_one. lia.
Qed.

(* ===================================================================== *)
(** * [split_date_range] *)
(* ===================================================================== *)

Lemma date_ltb_fields a b :
  date_ltb a b = true <->
  year a < year b
  \/ (year a = year b
      /\ (month a < month b \/ (month a = month b /\ day a < day b))).
Proof.
  unfold date_ltb.
  rewrite !orb_true_iff, !andb_true_iff, !orb_true_iff, !andb_true_iff,
    !Z.ltb_lt, !Z.eqb_eq.
  tauto.
Qed.

Lemma replace_ok dt y m dt' :
  replace dt y m = Ok dt' ->
  valid_date dt' = true
  /\ year dt' = match y with Some v => v | None => year dt end
  /\ month dt' = match m with Some v => v | None => month dt end
  /\ day dt' = day dt.
Proof.
  unfold replace. intros H. apply datetime_new_ok in H.
  destruct H as [-> Hv]. split; [exact Hv|]. repeat split.
Qed.

(** What [shift_months] returns when it returns. *)
Lemma shift_months_ok dt max_months dt' :
  shift_months dt max_months = Ok dt' ->
  valid_date dt' = true
  /\ month_index dt' = month_index dt + max_months
  /\ day dt' = day dt
  /\ (valid_date dt = true -> max_months < 0 ->
      year dt' = year dt /\ month dt' = month dt + max_months).
Proof.
  unfold shift_months, month_index. intros H.
  destruct (Z.leb_spec (month dt + max_months) 12) as [Hle|Hgt];
    apply replace_ok in H; destruct H as (Hv & Hy & Hm & Hd);
    (split; [exact Hv|]); (split; [lia|]); (split; [exact Hd|]);
    intros Hdt Hneg; apply valid_date_spec in Hdt; lia.
Qed.

Lemma shift_months_forward dt max_months dt' :
  valid_date dt = true -> 0 <= max_months ->
  shift_months dt max_months = Ok dt' ->
  toordinal dt <= toordinal dt'.
Proof.
  intros Hv Hmm H. apply shift_months_ok in H.
  destruct H as (Hv' & Hidx & Hd & _).
  apply date_ltb_false_iff; try assumption.
  destruct (date_ltb dt' dt) eqn:E; [|reflexivity].
  apply date_ltb_fields in E. unfold month_index in Hidx.
  apply valid_date_spec in Hv, Hv'. lia.
Qed.

(** The end of a range: the shifted date, or the end of the whole period
    when the shifted date lies beyond it. *)
Lemma current_end_spec max_months end_dt cs ce0 :
  valid_date cs = true -> valid_date end_dt = true ->
  date_ltb cs end_dt = true ->
  shift_months cs max_months = Ok ce0 ->
  let ce := if date_gtb ce0 end_dt then end_dt else ce0 in
  valid_date ce = true
  /\ toordinal ce <= toordinal end_dt
  /\ (0 <= max_months ->
      toordinal cs <= toordinal ce /\ spans_at_most max_months (cs, ce)).
Proof.
  intros Hcs He Hlt Hs. cbv zeta.
  pose proof (shift_months_ok _ _ _ Hs) as (Hv0 & Hidx & Hd & _).
  pose proof (date_ltb_toordinal _ _ Hcs He Hlt) as Hord.
  unfold date_gtb. destruct (date_ltb end_dt ce0) eqn:Hg.
  - split; [exact He|]. split; [lia|]. intros Hmm.
    split; [lia|]. split; [cbn [fst snd]; lia|]. cbn [fst snd].
    apply date_ltb_fields in Hg. apply date_ltb_fields in Hlt.
    unfold month_index in *.
    apply valid_date_spec in Hcs, He, Hv0. lia.
  - apply date_ltb_false_iff in Hg; try assumption.
    split; [exact Hv0|]. split; [lia|]. intros Hmm.
    pose proof (shift_months_forward _ _ _ Hcs Hmm Hs).
    split; [assumption|]. split; [cbn [fst snd]; assumption|].
    cbn [fst snd]. lia.
Qed.

Lemma split_loop_chain {rt : PyRuntime} max_months end_dt fuel :
  forall cs acc res,
    split_loop fuel max_months end_dt cs acc = Some (Ok res) ->
    exists L, res = acc ++ List.map fmt_range L
              /\ split_chain max_months end_dt cs L.
Proof.
  induction fuel as [|fuel IH]; intros cs acc res H; cbn [split_loop] in H.
  - destruct (date_ltb cs end_dt) eqn:Hlt; [discriminate|].
    injection H as <-. exists []. rewrite app_nil_r.
    split; [reflexivity|]. apply chain_done. exact Hlt.
  - destruct (date_ltb cs end_dt) eqn:Hlt.
    + destruct (shift_months cs max_months) as [ce0|e] eqn:Hs;
        [|discriminate].
      destruct (add_one_day (if date_gtb ce0 end_dt then end_dt else ce0))
        as [cs'|e] eqn:Hn; [|discriminate].
      apply IH in H. destruct H as (L & -> & Hchain).
      exists ((cs, if date_gtb ce0 end_dt then end_dt else ce0) :: L).
      split.
      * rewrite <- app_assoc. reflexivity.
      * eapply chain_step; eassumption.
    + injection H as <-. exists []. rewrite app_nil_r.
      split; [reflexivity|]. apply chain_done. exact Hlt.
Qed.

Lemma last_nonempty_default {A} (l : list A) d d' :
  l <> [] -> last l d = last l d'.
Proof.
  induction l as [|x l IH]; intros Hne; [contradiction|].
  destruct l as [|y l]; [reflexivity|].
  cbn [last] in *. apply IH. discriminate.
Qed.

Lemma last_cons_nonempty {A} (x : A) l d d' :
  l <> [] -> last (x :: l) d = last l d'.
Proof.
  intros Hne. destruct l as [|y l]; [contradiction|].
  change (last (x :: y :: l) d) with (last (y :: l) d).
  apply last_nonempty_default. discriminate.
Qed.

(** The ranges of a chain that moves forward. *)
Lemma split_chain_ranges max_months end_dt :
  0 <= max_months -> valid_date end_dt = true ->
  forall cs L,
    split_chain max_months end_dt cs L ->
    valid_date cs = true ->
    Forall (fun r => toordinal cs <= toordinal (fst r)
                     /\ toordinal (snd r) <= toordinal end_dt) L
    /\ Forall (spans_at_most max_months) L
    /\ contiguous L
    /\ ForallOrdPairs (fun r1 r2 => toordinal (snd r1) < toordinal (fst r2)) L
    /\ (forall r, hd_error L = Some r -> fst r = cs)
    /\ (forall k, toordinal cs <= k < toordinal end_dt -> covered_once L k)
    /\ (toordinal cs < toordinal end_dt ->
        exists r, last L (cs, cs) = r
                  /\ L <> []
                  /\ toordinal end_dt - 1 <= toordinal (snd r)).
Proof.
  intros Hmm He cs L Hchain.
  induction Hchain as [cs Hge|cs ce0 cs' rest Hlt Hs Hn Hchain IH];
    intros Hcs.
  - apply date_ltb_false_iff in Hge; try assumption.
    repeat split; try constructor; try (intros; lia).
    intros r Hr. discriminate Hr.
  - pose proof (current_end_spec max_months end_dt cs ce0 Hcs He Hlt Hs)
      as (Hvce & Hce_le & Hfw).
    destruct (Hfw Hmm) as [Hcs_le Hspan].
    set (ce := if date_gtb ce0 end_dt then end_dt else ce0) in *.
    pose proof (add_one_day_spec ce cs' Hvce Hn) as [Hvcs' Hord'].
    destruct (IH Hvcs') as (Hin & Hsp & Hcont & Hdisj & Hhd & Hcov & Hlast).
    split; [|split; [|split; [|split; [|split; [|split]]]]].
    + constructor; [cbn [fst snd]; lia|].
      eapply Forall_impl; [|exact Hin]. cbn beta. intros r [H1 H2]. lia.
    + constructor; assumption.
    + destruct rest as [|r2 rest']; [exact I|].
      cbn [contiguous]. split; [|exact Hcont].
      rewrite (Hhd r2 eq_refl). cbn [fst snd]. exact Hord'.
    + constructor; [|exact Hdisj].
      eapply Forall_impl; [|exact Hin]. cbn beta. cbn [fst snd].
      intros r [H1 H2]. lia.
    + intros r Hr. injection Hr as <-. reflexivity.
    + intros k Hk.
      destruct (Z.le_gt_cases k (toordinal ce)) as [Hin_head|Hafter].
      * exists [], (cs, ce), rest. split; [reflexivity|].
        split; [unfold day_in_range; cbn [fst snd]; lia|].
        cbn [app]. eapply Forall_impl; [|exact Hin].
        cbn beta. intros r [H1 H2] [H3 H4]. lia.
      * destruct (Hcov k ltac:(lia)) as (pre & r & post & -> & Hr & Hothers).
        exists ((cs, ce) :: pre), r, post. split; [reflexivity|].
        split; [exact Hr|]. cbn [app]. constructor; [|exact Hothers].
        unfold day_in_range. cbn [fst snd]. lia.
    + intros _.
      destruct (Z.lt_ge_cases (toordinal cs') (toordinal end_dt)) as [Hl|Hg].
      * destruct (Hlast Hl) as (r & Hr & Hne & Hend).
        exists r. split; [|split; [discriminate|exact Hend]].
        rewrite <- Hr. apply last_cons_nonempty. exact Hne.
      * inversion Hchain as [cs0 Hge E1 E2|cs0 ce1 cs1 rest1 Hlt1];
          subst.
        -- exists (cs, ce). split; [reflexivity|].
           split; [discriminate|]. cbn [snd]. lia.
        -- apply date_ltb_toordinal in Hlt1; try assumption. lia.
Qed.

Lemma split_loop_returns_forward {rt : PyRuntime} max_months end_dt :
  0 <= max_months -> valid_date end_dt = true ->
  forall fuel cs acc,
    valid_date cs = true ->
    toordinal end_dt - toordinal cs <= Z.of_nat fuel ->
    exists r, split_loop fuel max_months end_dt cs acc = Some r.
Proof.
  intros Hmm He. induction fuel as [|fuel IH]; intros cs acc Hcs Hfuel;
    cbn [split_loop]; destruct (date_ltb cs end_dt) eqn:Hlt;
    try (eexists; reflexivity).
  - apply date_ltb_toordinal in Hlt; try assumption. lia.
  - destruct (shift_months cs max_months) as [ce0|e] eqn:Hs;
      [|eexists; reflexivity].
    pose proof (current_end_spec max_months end_dt cs ce0 Hcs He Hlt Hs)
      as (Hvce & Hce_le & Hfw).
    destruct (Hfw Hmm) as [Hcs_le _].
    destruct (add_one_day (if date_gtb ce0 end_dt then end_dt else ce0))
      as [cs'|e] eqn:Hn; [|eexists; reflexivity].
    pose proof (add_one_day_spec _ cs' Hvce Hn) as [Hvcs' Hord'].
    apply IH; [exact Hvcs'|lia].
Qed.

Lemma backward_measure_bounds d :
  valid_date d = true -> 2 <= backward_measure d <= 25.
Proof.
  intros Hv. apply valid_date_spec in Hv. unfold backward_measure.
  destruct (day d =? 1); lia.
Qed.

Lemma split_loop_returns_backward {rt : PyRuntime} max_months end_dt :
  max_months < 0 -> valid_date end_dt = true ->
  forall fuel cs acc,
    valid_date cs = true ->
    backward_measure cs <= Z.of_nat fuel ->
    exists r, split_loop fuel max_months end_dt cs acc = Some r.
Proof.
  intros Hmm He. induction fuel as [|fuel IH]; intros cs acc Hcs Hfuel;
    cbn [split_loop]; destruct (date_ltb cs end_dt) eqn:Hlt;
    try (eexists; reflexivity).
  - pose proof (backward_measure_bounds cs Hcs). lia.
  - destruct (shift_months cs max_months) as [ce0|e] eqn:Hs;
      [|eexists; reflexivity].
    pose proof (shift_months_ok _ _ _ Hs) as (Hv0 & _ & Hd & Hback).
    destruct (Hback Hcs Hmm) as [Hy Hm].
    assert (Hbefore : date_ltb ce0 cs = true).
    { apply date_ltb_fields. lia. }
    apply date_ltb_toordinal in Hbefore; try assumption.
    apply date_ltb_toordinal in Hlt; try assumption.
    assert (Hg : date_gtb ce0 end_dt = false).
    { unfold date_gtb. apply date_ltb_false_iff; try assumption. lia. }
    rewrite Hg.
    destruct (add_one_day ce0) as [cs'|e] eqn:Hn; [|eexists; reflexivity].
    pose proof (add_one_day_spec _ cs' Hv0 Hn) as [Hvcs' _].
    apply IH; [exact Hvcs'|].
    pose proof (days_in_month_bounds (year ce0) (month ce0)) as Hdim.
    apply valid_date_spec in Hcs, Hv0.
    unfold add_one_day in Hn. unfold backward_measure in *.
    destruct (Z.ltb_spec (day ce0) (days_in_month (year ce0) (month ce0))).
    { injection Hn as <-. cbn [month day].
      destruct (Z.eqb_spec (day ce0 + 1) 1); [lia|].
      destruct (day cs =? 1); lia. }
    destruct (Z.ltb_spec (month ce0) 12); [|lia].
    injection Hn as <-. cbn [month day].
    destruct (Z.eqb_spec (day cs) 1); [lia|].
    change (1 =? 1) with true. cbv iota. lia.
Qed.

(** ** The final day *)

Lemma date_ltb_spec a b :
  date_ltb a b = true <->
  year a < year b
  \/ (year a = year b
      /\ (month a < month b \/ (month a = month b /\ day a < day b))).
Proof.
  unfold date_ltb.
  rewrite !orb_true_iff, !andb_true_iff, !orb_true_iff, !andb_true_iff,
    !Z.ltb_lt, !Z.eqb_eq.
  reflexivity.
Qed.

Lemma date_ltb_not a b :
  year b < year a
  \/ (year b = year a
      /\ (month b < month a \/ (month b = month a /\ day b <= day a))) ->
  date_ltb a b = false.
Proof.
  intros H. destruct (date_ltb a b) eqn:E; [|reflexivity].
  apply date_ltb_spec in E. lia.
Qed.

Lemma valid_early_day y m d :
  1 <= y <= 9999 -> 1 <= m <= 12 -> 1 <= d <= 28 ->
  valid_ymd y m d = true.
Proof.
  intros Hy Hm Hd. apply valid_ymd_spec.
  pose proof (days_in_month_bounds y m). lia.
Qed.

Lemma add_one_day_early y m d :
  d < 28 -> add_one_day (mkdate y m d) = Ok (mkdate y m (d + 1)).
Proof.
  intros Hd. unfold add_one_day. cbn [year month day].
  pose proof (days_in_month_bounds y m).
  destruct (Z.ltb_spec d (days_in_month y m)); [reflexivity|lia].
Qed.

(** The month arithmetic of lines 1001-1005 when the day exists in the
    month it arrives at. *)
Lemma shift_months_early y m d max_months :
  1 <= y <= 9999 -> (12 < m + max_months -> y < 9999) ->
  1 <= m <= 12 -> 1 <= d <= 28 ->
  0 <= max_months <= 12 ->
  shift_months (mkdate y m d) max_months
  = Ok (if m + max_months <=? 12 then mkdate y (m + max_months) d
        else mkdate (y + 1) (m + max_months - 12) d).
Proof.
  intros Hy Hy' Hm Hd Hmm. unfold shift_months, replace, datetime_new.
  cbn [year month day].
  destruct (Z.leb_spec (m + max_months) 12).
  - rewrite valid_early_day by lia. reflexivity.
  - rewrite valid_early_day by lia. reflexivity.
Qed.

(** The days before a month differ from year to year by the leap day
    only. *)
Lemma days_before_month_leap y m :
  1 <= m <= 12 ->
  days_before_month y m
  = days_before_month 1 m + (if (2 <? m) && is_leap y then 1 else 0).
Proof.
  intros Hm.
  assert (Hc : m = 1 \/ m = 2 \/ m = 3 \/ m = 4 \/ m = 5 \/ m = 6 \/ m = 7
               \/ m = 8 \/ m = 9 \/ m = 10 \/ m = 11 \/ m = 12) by lia.
  unfold days_before_month.
  repeat (destruct Hc as [->|Hc]); try subst m;
    cbn -[is_leap Z.add]; unfold days_in_month; cbn -[is_leap Z.add];
    destruct (is_leap y); reflexivity.
Qed.

Lemma year_and_two_days y m :
  1 <= m <= 12 ->
  days_between (mkdate y m 1) (mkdate (y + 1) m 3) > 365.
Proof.
  intros Hm. unfold days_between, toordinal. cbn [year month day].
  rewrite days_before_year_succ.
  rewrite (days_before_month_leap y m Hm),
    (days_before_month_leap (y + 1) m Hm).
  unfold year_length.
  destruct (2 <? m), (is_leap y), (is_leap (y + 1)); cbn [andb]; lia.
Qed.

Section SplitFacts.
Context {rt : PyRuntime}.

Lemma strptime_valid s dt : strptime s = Ok dt -> valid_date dt = true.
Proof.
  unfold strptime. intros H.
  destruct (parse_Y s) as [[y s1]|]; [|discriminate].
  destruct (expect_char 45 s1) as [s2|]; [|discriminate].
  destruct (parse_m s2) as [[m s3]|]; [|discriminate].
  destruct (expect_char 45 s3) as [s4|]; [|discriminate].
  destruct (parse_d s4) as [[d [|c r]]|]; try discriminate.
  apply datetime_new_ok in H. apply H.
Qed.

Lemma split_fuel_succ a b :
  split_fuel a b = S (24 + Z.to_nat (days_between a b)).
Proof. unfold split_fuel. lia. Qed.

(** The [try] block always comes to an end. *)
Lemma split_date_range_try_returns start_date end_date max_months :
  exists r, split_date_range_try start_date end_date max_months = Some r.
Proof.
  unfold split_date_range_try.
  destruct (strptime start_date) as [sd|e] eqn:Hs; [|eexists; reflexivity].
  destruct (strptime end_date) as [ed|e] eqn:He; [|eexists; reflexivity].
  apply strptime_valid in Hs, He.
  destruct (Z.lt_ge_cases max_months 0) as [Hneg|Hpos].
  - apply split_loop_returns_backward; try assumption.
    pose proof (backward_measure_bounds sd Hs). unfold split_fuel. lia.
  - apply split_loop_returns_forward; try assumption.
    unfold split_fuel, days_between. lia.
Qed.

Lemma split_date_range_returns start_date end_date max_months :
  exists date_ranges,
    split_date_range start_date end_date max_months = Some date_ranges.
Proof.
  unfold split_date_range.
  destruct (split_date_range_try_returns start_date end_date max_months)
    as ([l|e] & ->); eexists; reflexivity.
Qed.

Lemma split_date_range_fallback start_date end_date max_months e :
  split_date_range_try start_date end_date max_months = Some (Raise e) ->
  split_date_range start_date end_date max_months
  = Some [(start_date, end_date)].
Proof. unfold split_date_range. intros ->. reflexivity. Qed.

(** C10.  [split_date_range] always returns a list: the loop terminates
    for every pair of strings and every [max_months], and whenever the
    [try] block raises (a string that does not parse, or a first
    sub-range whose end date does not exist) the result is the single
    unsplit range [(start_date, end_date)]. *)
Theorem split_date_range_never_raises
    (start_date end_date : pystr) (max_months : Z) :
  (exists date_ranges,
      split_date_range start_date end_date max_months = Some date_ranges)
  /\ (forall e,
         split_date_range_try start_date end_date max_months
         = Some (Raise e) ->
         split_date_range start_date end_date max_months
         = Some [(start_date, end_date)])
  /\ (forall e,
         strptime start_date = Raise e \/ strptime end_date = Raise e ->
         split_date_range start_date end_date max_months
         = Some [(start_date, end_date)])
  /\ (forall start_dt end_dt e,
         strptime start_date = Ok start_dt ->
         strptime end_date = Ok end_dt ->
         date_ltb start_dt end_dt = true ->
         shift_months start_dt max_months = Raise e ->
         split_date_range start_date end_date max_months
         = Some [(start_date, end_date)]).
Proof.
  split; [apply split_date_range_returns|].
  split; [apply split_date_range_fallback|].
  split.
  - intros e [H|H].
    + apply (split_date_range_fallback _ _ _ e).
      unfold split_date_range_try. rewrite H. reflexivity.
    + destruct (strptime start_date) as [sd|e'] eqn:Hs.
      * apply (split_date_range_fallback _ _ _ e).
        unfold split_date_range_try. rewrite Hs, H. reflexivity.
      * apply (split_date_range_fallback _ _ _ e').
        unfold split_date_range_try. rewrite Hs. reflexivity.
  - intros start_dt end_dt e Hs He Hlt Hshift.
    apply (split_date_range_fallback _ _ _ e).
    unfold split_date_range_try. rewrite Hs, He, split_fuel_succ.
    cbn [split_loop]. rewrite Hlt, Hshift. reflexivity.
Qed.

(** X7.  What the loop gets right.  For parsed dates more than 365 days apart
    and [max_months = 6], when the [try] block raises no exception the
    result is the text of a non-empty list of date ranges that starts at
    [start], is contiguous and non-overlapping, stays within
    [[start, end]], has no range longer than six calendar months and
    covers every day before [end] exactly once. *)
Lemma split_date_range_ranges
    (start_date end_date : pystr) (start_dt end_dt : date)
    (ranges : list (pystr * pystr)) :
  strptime start_date = Ok start_dt ->
  strptime end_date = Ok end_dt ->
  days_between start_dt end_dt > 365 ->
  split_date_range_try start_date end_date 6 = Some (Ok ranges) ->
  split_date_range start_date end_date 6 = Some ranges
  /\ exists L,
      ranges = List.map fmt_range L
      /\ L <> []
      /\ (forall r, hd_error L = Some r -> fst r = start_dt)
      /\ contiguous L
      /\ ForallOrdPairs
           (fun r1 r2 => toordinal (snd r1) < toordinal (fst r2)) L
      /\ Forall (fun r => toordinal start_dt <= toordinal (fst r)
                          /\ toordinal (snd r) <= toordinal end_dt) L
      /\ Forall (spans_at_most 6) L
      /\ (forall k, toordinal start_dt <= k < toordinal end_dt ->
                    covered_once L k)
      /\ toordinal end_dt - 1
         <= toordinal (snd (last L (start_dt, start_dt))).
Proof.
  intros Hs He Hdays Htry.
  split; [unfold split_date_range; rewrite Htry; reflexivity|].
  unfold split_date_range_try in Htry. rewrite Hs, He in Htry.
  apply strptime_valid in Hs, He.
  apply split_loop_chain in Htry. destruct Htry as (L & -> & Hchain).
  unfold days_between in Hdays.
  destruct (split_chain_ranges 6 end_dt ltac:(lia) He start_dt L Hchain Hs)
    as (Hin & Hsp & Hcont & Hdisj & Hhd & Hcov & Hlast).
  destruct (Hlast ltac:(lia)) as (r & Hr & Hne & Hend).
  exists L. rewrite Hr. repeat split; assumption.
Qed.

Lemma split_loop_step fuel max_months end_dt cs ce0 cs' acc :
  date_ltb cs end_dt = true ->
  shift_months cs max_months = Ok ce0 ->
  date_ltb end_dt ce0 = false ->
  add_one_day ce0 = Ok cs' ->
  split_loop (S fuel) max_months end_dt cs acc
  = split_loop fuel max_months end_dt cs'
      (acc ++ [(strftime cs, strftime ce0)]).
Proof.
  intros Hlt Hs Hg Hn. cbn [split_loop]. unfold date_gtb.
  rewrite Hlt, Hs, Hg, Hn. reflexivity.
Qed.

Lemma split_loop_done fuel max_months end_dt cs acc :
  date_ltb cs end_dt = false ->
  split_loop fuel max_months end_dt cs acc = Some (Ok acc).
Proof. intros H. destruct fuel; cbn [split_loop]; rewrite H; reflexivity. Qed.

(** C1.  The final day is dropped.  From the first day of any month to
    the third day of that month a year later (367 days and more) with
    [max_months = 6], [split_date_range] returns two ranges: the first
    ends six months on, the second on the second day of the final
    month, the day before the end date.  They are contiguous, but the
    end date itself lies in neither: the loop is left as soon as the
    next start is no longer before the end date. *)
Theorem split_date_range_drops_last_day
    (start_date end_date : pystr) (y m : Z) :
  1 <= y <= 9998 -> 1 <= m <= 12 ->
  strptime start_date = Ok (mkdate y m 1) ->
  strptime end_date = Ok (mkdate (y + 1) m 3) ->
  let start_dt := mkdate y m 1 in
  let end_dt := mkdate (y + 1) m 3 in
  let mid :=
    if m <=? 6 then mkdate y (m + 6) 1 else mkdate (y + 1) (m - 6) 1 in
  let L := [ (start_dt, mid);
             (mkdate (year mid) (month mid) 2, mkdate (y + 1) m 2) ] in
  days_between start_dt end_dt > 365
  /\ split_date_range start_date end_date 6 = Some (List.map fmt_range L)
  /\ contiguous L
  /\ toordinal (mkdate (y + 1) m 2) + 1 = toordinal end_dt
  /\ Forall (fun r => ~ day_in_range (toordinal end_dt) r) L.
Proof.
  intros Hy Hm Hs He. cbv zeta.
  split; [apply year_and_two_days; exact Hm|].
  assert (Hmid : shift_months (mkdate y m 1) 6
                 = Ok (if m <=? 6 then mkdate y (m + 6) 1
                       else mkdate (y + 1) (m - 6) 1)).
  { rewrite shift_months_early by lia.
    destruct (Z.leb_spec (m + 6) 12), (Z.leb_spec m 6); try lia;
      f_equal; f_equal; lia. }
  set (mid := if m <=? 6 then mkdate y (m + 6) 1
              else mkdate (y + 1) (m - 6) 1) in *.
  assert (Bmid : (year mid = y /\ month mid = m + 6 /\ m <= 6
                  \/ year mid = y + 1 /\ month mid = m - 6 /\ 6 < m)
                 /\ day mid = 1).
  { unfold mid. destruct (Z.leb_spec m 6); cbn [year month day]; lia. }
  destruct Bmid as [Bmid Dmid].
  assert (Emid : mid = mkdate (year mid) (month mid) 1).
  { rewrite <- Dmid. apply date_eta. }
  assert (Hlast : shift_months (mkdate (year mid) (month mid) 2) 6
                  = Ok (mkdate (y + 1) m 2)).
  { rewrite shift_months_early by lia.
    destruct (Z.leb_spec (month mid + 6) 12); f_equal; f_equal; lia. }
  assert (Vmid : valid_date mid = true).
  { unfold valid_date. rewrite Dmid. apply valid_early_day; lia. }
  assert (Vend : valid_date (mkdate (y + 1) m 3) = true)
    by (unfold valid_date; cbn [year month day];
        apply valid_early_day; lia).
  assert (Vstart : valid_date (mkdate y m 1) = true)
    by (unfold valid_date; cbn [year month day];
        apply valid_early_day; lia).
  split; [|split; [|split]].
  - unfold split_date_range, split_date_range_try.
    rewrite Hs, He, split_fuel_succ.
    rewrite (split_loop_step _ 6 _ (mkdate y m 1) mid
               (mkdate (year mid) (month mid) 2) []).
    + replace (24 + Z.to_nat (days_between (mkdate y m 1)
                                (mkdate (y + 1) m 3)))%nat
        with (S (23 + Z.to_nat (days_between (mkdate y m 1)
                                  (mkdate (y + 1) m 3)))) by lia.
      rewrite (split_loop_step _ 6 _ (mkdate (year mid) (month mid) 2)
                 (mkdate (y + 1) m 2) (mkdate (y + 1) m 3)).
      * rewrite split_loop_done; [reflexivity|].
        apply date_ltb_not. cbn [year month day]. lia.
      * apply date_ltb_spec. cbn [year month day]. lia.
      * exact Hlast.
      * apply date_ltb_not. cbn [year month day]. lia.
      * apply add_one_day_early. lia.
    + apply date_ltb_spec. cbn [year month day]. lia.
    + exact Hmid.
    + apply date_ltb_not. cbn [year month day]. lia.
    + rewrite Emid at 1. apply add_one_day_early. lia.
  - cbn [contiguous fst snd]. split; [|exact I].
    unfold toordinal. cbn [year month day]. rewrite Dmid. lia.
  - unfold toordinal. cbn [year month day]. lia.
  - assert (H1 : toordinal mid < toordinal (mkdate (y + 1) m 3)).
    { apply date_ltb_toordinal; try assumption.
      apply date_ltb_spec. cbn [year month day]. lia. }
    assert (H2 : toordinal (mkdate (y + 1) m 2)
                 < toordinal (mkdate (y + 1) m 3)).
    { unfold toordinal. cbn [year month day]. lia. }
    repeat constructor; unfold day_in_range; cbn [fst snd]; lia.
Qed.
End SplitFacts.

(** X7 from "2020-01-01" to "2021-06-30": three ranges, the last one
    ending on the last day. *)
Lemma split_date_range_ranges_witness :
  @split_date_range ascii_runtime (py "2020-01-01") (py "2021-06-30") 6
  = Some [ (py "2020-01-01", py "2020-07-01");
           (py "2020-07-02", py "2021-01-02");
           (py "2021-01-03", py "2021-06-30") ]
  /\ exists L,
      [ (py "2020-01-01", py "2020-07-01");
        (py "2020-07-02", py "2021-01-02");
        (py "2021-01-03", py "2021-06-30") ] = List.map (@fmt_range ascii_runtime) L
      /\ L <> []
      /\ (forall r, hd_error L = Some r -> fst r = mkdate 2020 1 1)
      /\ contiguous L
      /\ ForallOrdPairs
           (fun r1 r2 => toordinal (snd r1) < toordinal (fst r2)) L
      /\ Forall (fun r => toordinal (mkdate 2020 1 1) <= toordinal (fst r)
                          /\ toordinal (snd r)
                             <= toordinal (mkdate 2021 6 30)) L
      /\ Forall (spans_at_most 6) L
      /\ (forall k, toordinal (mkdate 2020 1 1) <= k
                    < toordinal (mkdate 2021 6 30) ->
                    covered_once L k)
      /\ toordinal (mkdate 2021 6 30) - 1
         <= toordinal (snd (last L (mkdate 2020 1 1, mkdate 2020 1 1))).
Proof.
  apply (@split_date_range_ranges ascii_runtime (py "2020-01-01")
           (py "2021-06-30") (mkdate 2020 1 1) (mkdate 2021 6 30)).
  - vm_compute. reflexivity.
  - vm_compute. reflexivity.
  - vm_compute. reflexivity.
  - vm_compute. reflexivity.
Defined.

(** From "2020-01-01" to "2021-01-03" (368 days) the loop stops when the
    next start reaches the end date, so the last day lies in no range; and
    from "2020-08-31", whose day does not exist six months later, the
    single range returned spans sixteen months. *)
Lemma split_date_range_misses_last_day :
  days_between (mkdate 2020 1 1) (mkdate 2021 1 3) = 368
  /\ @split_date_range ascii_runtime (py "2020-01-01") (py "2021-01-03") 6
     = Some (List.map (@fmt_range ascii_runtime)
               [ (mkdate 2020 1 1, mkdate 2020 7 1);
                 (mkdate 2020 7 2, mkdate 2021 1 2) ])
  /\ Forall (fun r => ~ day_in_range (toordinal (mkdate 2021 1 3)) r)
       [ (mkdate 2020 1 1, mkdate 2020 7 1);
         (mkdate 2020 7 2, mkdate 2021 1 2) ]
  /\ days_between (mkdate 2020 8 31) (mkdate 2022 1 1) = 488
  /\ @split_date_range ascii_runtime (py "2020-08-31") (py "2022-01-01") 6
     = Some [@fmt_range ascii_runtime (mkdate 2020 8 31, mkdate 2022 1 1)]
  /\ ~ spans_at_most 6 (mkdate 2020 8 31, mkdate 2022 1 1).
Proof.
  split; [vm_compute; reflexivity|].
  split; [vm_compute; reflexivity|].
  split.
  { repeat constructor; unfold day_in_range; vm_compute;
      intros [H1 H2]; try (apply H1; reflexivity); apply H2; reflexivity. }
  split; [vm_compute; reflexivity|].
  split; [vm_compute; reflexivity|].
  unfold spans_at_most, month_index. cbn [fst snd year month day].
  intros [_ H]. lia.
Qed.

(** C1 at "2020-06-01" to "2021-06-03" (367 days): the ranges end on
    "2021-06-02". *)
Lemma split_date_range_drops_last_day_witness :
  days_between (mkdate 2020 6 1) (mkdate 2021 6 3) > 365
  /\ @split_date_range ascii_runtime (py "2020-06-01") (py "2021-06-03") 6
     = Some [ (py "2020-06-01", py "2020-12-01");
              (py "2020-12-02", py "2021-06-02") ]
  /\ contiguous [ (mkdate 2020 6 1, mkdate 2020 12 1);
                  (mkdate 2020 12 2, mkdate 2021 6 2) ]
  /\ toordinal (mkdate 2021 6 2) + 1 = toordinal (mkdate 2021 6 3)
  /\ Forall (fun r => ~ day_in_range (toordinal (mkdate 2021 6 3)) r)
       [ (mkdate 2020 6 1, mkdate 2020 12 1);
         (mkdate 2020 12 2, mkdate 2021 6 2) ].
Proof.
  apply (@split_date_range_drops_last_day ascii_runtime (py "2020-06-01")
           (py "2021-06-03") 2020 6).
  - lia.
  - lia.
  - vm_compute. reflexivity.
  - vm_compute. reflexivity.
Defined.

(** C10 at "2020-08-31" to "2021-12-31": February 31st does not exist,
    and the unsplit range comes back; and at a string that is no date. *)
Lemma split_date_range_never_raises_witness :
  @split_date_range ascii_runtime (py "2020-08-31") (py "2021-12-31") 6
  = Some [(py "2020-08-31", py "2021-12-31")]
  /\ @split_date_range ascii_runtime (py "yesterday") (py "2021-12-31") 6
     = Some [(py "yesterday", py "2021-12-31")].
Proof.
  split.
  - apply (proj2 (proj2 (proj2
             (@split_date_range_never_raises ascii_runtime (py "2020-08-31")
                (py "2021-12-31") 6)))
             (mkdate 2020 8 31) (mkdate 2021 12 31) ValueError).
    + vm_compute. reflexivity.
    + vm_compute. reflexivity.
    + vm_compute. reflexivity.
    + vm_compute. reflexivity.
  - apply (proj1 (proj2 (proj2
             (@split_date_range_never_raises ascii_runtime (py "yesterday")
                (py "2021-12-31") 6)))
             ValueError).
    left. vm_compute. reflexivity.
Defined.

(* ===================================================================== *)
(** * Session teardown *)
(* ===================================================================== *)

Create HintDb session.

Section Teardown.
Context {rt : PyRuntime} {env : Env}.

Lemma keeps_session_quits {A} (m : PT machine A) :
  keeps_session m -> keeps_quits m.
Proof.
  intros H s. destruct (H s) as (r & s' & E & _ & Hq).
  exists r, s'. split; assumption.
Qed.

Lemma keeps_session_ret {A} (a : A) : keeps_session (ret a).
Proof. intros s. exists (Ok a), s. repeat split. Qed.

Lemma keeps_session_raise {A} (e : exn) : keeps_session (raise e : PT machine A).
Proof. intros s. exists (Raise e), s. repeat split. Qed.

Lemma keeps_session_bind {A B} (m : PT machine A) (k : A -> PT machine B) :
  keeps_session m -> (forall a, keeps_session (k a)) ->
  keeps_session (x <- m ;; k x).
Proof.
  intros Hm Hk s. rewrite prun_bind.
  destruct (Hm s) as ([a|e] & s1 & -> & Hd & Hq).
  - destruct (Hk a s1) as (r & s2 & -> & Hd2 & Hq2).
    exists r, s2. repeat split; congruence.
  - exists (Raise e), s1. repeat split; assumption.
Qed.

Lemma keeps_session_catch {A} (m : PT machine A) (h : exn -> PT machine A) :
  keeps_session m -> (forall e, keeps_session (h e)) ->
  keeps_session (catch m h).
Proof.
  intros Hm Hh s. rewrite prun_catch.
  destruct (Hm s) as ([a|e] & s1 & -> & Hd & Hq).
  - exists (Ok a), s1. repeat split; assumption.
  - destruct (Hh e s1) as (r & s2 & -> & Hd2 & Hq2).
    exists r, s2. repeat split; congruence.
Qed.

Lemma keeps_session_lift {A} (m : PT World A) :
  (forall w, exists r w', m w = Some (r, w')) -> keeps_session (lift m).
Proof.
  intros Hm s. unfold lift. destruct (Hm (world s)) as (r & w' & ->).
  eexists _, _. repeat split.
Qed.

Lemma keeps_session_call {A} (m : ST World A) : keeps_session (lift (call m)).
Proof.
  apply keeps_session_lift. intros w. unfold call.
  destruct (m w) as [r w']. exists r, w'. reflexivity.
Qed.

Lemma keeps_session_pfor_in {X A R} (xs : list X)
    (body : X -> A -> PT machine (flow A R)) :
  (forall x a, keeps_session (body x a)) ->
  forall a, keeps_session (pfor_in xs a body).
Proof.
  intros Hbody. induction xs as [|x xs IH]; intros a.
  - apply keeps_session_ret.
  - cbn [pfor_in]. apply keeps_session_bind; [apply Hbody|].
    intros [a'|a'|r]; [apply IH|apply keeps_session_ret..].
Qed.

Lemma keeps_quits_bind {A B} (m : PT machine A) (k : A -> PT machine B) :
  keeps_quits m -> (forall a, keeps_quits (k a)) ->
  keeps_quits (x <- m ;; k x).
Proof.
  intros Hm Hk s. rewrite prun_bind.
  destruct (Hm s) as ([a|e] & s1 & -> & Hq).
  - destruct (Hk a s1) as (r & s2 & -> & Hq2).
    exists r, s2. split; congruence.
  - exists (Raise e), s1. split; [reflexivity|assumption].
Qed.

Lemma keeps_quits_catch {A} (m : PT machine A) (h : exn -> PT machine A) :
  keeps_quits m -> (forall e, keeps_quits (h e)) ->
  keeps_quits (catch m h).
Proof.
  intros Hm Hh s. rewrite prun_catch.
  destruct (Hm s) as ([a|e] & s1 & -> & Hq).
  - exists (Ok a), s1. split; [reflexivity|assumption].
  - destruct (Hh e s1) as (r & s2 & -> & Hq2).
    exists r, s2. split; congruence.
Qed.

Lemma keeps_session_scrape_period start_date end_date disclosure_types
    max_pages market_type :
  keeps_session (lift (scrape_period_data start_date end_date
                         disclosure_types max_pages market_type)).
Proof.
  apply keeps_session_lift. intros w.
  destruct (scrape_period_data_returns start_date end_date
              disclosure_types max_pages market_type w) as (d & w' & ->).
  eexists _, _. reflexivity.
Qed.

Lemma keeps_session_step_res {A} (r : Res A) :
  keeps_session (step_res r).
Proof. intros s. exists r, s. repeat split. Qed.

Lemma keeps_session_split start_date end_date max_months :
  keeps_session
    (of_bounded (split_date_range start_date end_date max_months)).
Proof.
  intros s. unfold of_bounded.
  destruct (split_date_range_returns start_date end_date max_months)
    as (l & ->).
  exists (Ok l), s. repeat split.
Qed.

#[local] Hint Resolve keeps_session_ret keeps_session_raise
  keeps_session_call keeps_session_step_res keeps_session_split
  keeps_session_scrape_period keeps_session_bind keeps_session_catch
  keeps_session_quits keeps_quits_bind keeps_quits_catch : session.

Lemma keeps_quits_setup_driver : keeps_quits setup_driver.
Proof.
  unfold setup_driver. apply keeps_quits_catch; [|auto with session].
  apply keeps_quits_bind; [auto with session|].
  intros drv. apply keeps_quits_bind; [|auto with session].
  intros s. eexists _, _. split; reflexivity.
Qed.

Lemma keeps_session_scrape_ranges date_ranges disclosure_types
    max_pages_per_period market_type :
  keeps_session (scrape_ranges date_ranges disclosure_types
                   max_pages_per_period market_type).
Proof.
  unfold scrape_ranges. apply keeps_session_pfor_in.
  intros [i [range_start range_end]] all_data.
  apply keeps_session_bind; [auto 6 with session|].
  intros [period_data|]; [|auto with session].
  apply keeps_session_bind; [|auto with session].
  destruct (Z.of_nat i <? len date_ranges - 1); auto with session.
Qed.

Lemma keeps_session_collect start_date end_date disclosure_types
    split_long_periods max_pages_per_period market_type :
  keeps_session
    (collect_all_data start_date end_date disclosure_types
       split_long_periods max_pages_per_period market_type).
Proof.
  unfold collect_all_data.
  destruct split_long_periods; [|auto with session].
  apply keeps_session_bind; [auto with session|]. intros start_dt.
  apply keeps_session_bind; [auto with session|]. intros end_dt.
  cbv zeta.
  destruct (days_between start_dt end_dt >? 365); [|auto with session].
  apply keeps_session_bind; [auto with session|]. intros date_ranges.
  apply keeps_session_bind; [apply keeps_session_scrape_ranges|].
  intros [all_data|[]]. auto with session.
Qed.

Lemma keeps_quits_scrape_body start_date end_date disclosure_types
    output_filename split_long_periods max_pages_per_period market_type :
  keeps_quits (scrape_body start_date end_date disclosure_types
                 output_filename split_long_periods max_pages_per_period
                 market_type).
Proof.
  unfold scrape_body.
  apply keeps_quits_bind.
  { intros s. exists (Ok (self_driver s)), s. split; reflexivity. }
  intros d. apply keeps_quits_bind.
  { destruct d; [auto with session|apply keeps_quits_setup_driver]. }
  intros _. apply keeps_session_quits.
  apply keeps_session_bind; [apply keeps_session_collect|].
  intros all_data.
  destruct (negb (0 <? len all_data)); [auto with session|].
  cbv zeta.
  apply keeps_session_bind; [|auto 6 with session].
  destruct output_filename; auto 6 with session.
Qed.

Lemma close_driver_quits s :
  exists s',
    close_driver s = Some (Ok tt, s')
    /\ self_driver s' = self_driver s
    /\ quit_calls s' = quit_calls s ++ teardowns (self_driver s).
Proof.
  unfold close_driver. rewrite prun_bind. unfold get_self_driver.
  destruct (self_driver s) as [drv|] eqn:Hd.
  - rewrite prun_catch. unfold quit, lift, call. cbn [world].
    destruct (driver_quit drv (world s)) as [[[]|e] w'].
    + eexists. split; [reflexivity|]. cbn. split; [exact Hd|reflexivity].
    + eexists. split; [reflexivity|]. cbn. split; [exact Hd|reflexivity].
  - exists s. rewrite app_nil_r. repeat split. exact Hd.
Qed.

Lemma scrape_investment_warning_stocks_teardown start_date end_date
    disclosure_types output_filename split_long_periods
    max_pages_per_period market_type s :
  exists data s',
    scrape_investment_warning_stocks start_date end_date disclosure_types
      output_filename split_long_periods max_pages_per_period market_type s
    = Some (Ok data, s')
    /\ quit_calls s' = quit_calls s ++ teardowns (self_driver s').
Proof.
  unfold scrape_investment_warning_stocks, try_finally.
  assert (Hbody : keeps_quits
            (catch
               (scrape_body start_date end_date disclosure_types
                  output_filename split_long_periods max_pages_per_period
                  market_type)
               (fun _ =>
                  lift (call (save_debug_screenshot
                                (py "main_scraping_error"))) ;;
                  ret []))).
  { apply keeps_quits_catch; [apply keeps_quits_scrape_body|].
    auto 6 with session. }
  assert (Hok : forall s r s',
             catch
               (scrape_body start_date end_date disclosure_types
                  output_filename split_long_periods max_pages_per_period
                  market_type)
               (fun _ =>
                  lift (call (save_debug_screenshot
                                (py "main_scraping_error"))) ;;
                  ret []) s = Some (r, s') -> exists data, r = Ok data).
  { intros s0 r s0'. rewrite prun_catch.
    destruct (scrape_body _ _ _ _ _ _ _ s0) as [[[a|e] s1]|];
      [intros H; injection H as <- _; eauto| |discriminate].
    rewrite prun_bind. unfold lift at 1, call.
    destruct (save_debug_screenshot _ (world s1)) as [[[]|e'] w'] eqn:Hs;
      [|discriminate Hs].
    rewrite prun_ret. intros H. injection H as <- _. eauto. }
  destruct (Hbody s) as (r & s1 & Hrun & Hq).
  destruct (Hok _ _ _ Hrun) as (data & ->).
  rewrite Hrun.
  destruct (close_driver_quits s1) as (s2 & -> & Hd2 & Hq2).
  exists data, s2. split; [reflexivity|].
  rewrite Hq2, Hq, Hd2. reflexivity.
Qed.

Lemma scrape_year_teardown disclosure_types year_ all_dataframes s :
  exists dfs s',
    scrape_year disclosure_types year_ all_dataframes s = Some (Ok dfs, s')
    /\ quit_calls s' = quit_calls s ++ teardowns (self_driver s')
                       ++ teardowns (self_driver s').
Proof.
  unfold scrape_year. rewrite prun_bind.
  unfold new_scraper, set_self_driver at 1.
  unfold try_finally. rewrite prun_catch, prun_bind.
  destruct (scrape_investment_warning_stocks_teardown
              (str_of_int year_ ++ py "-01-01")
              (str_of_int year_ ++ py "-12-31") disclosure_types
              (Some (py "investment_warning_" ++ str_of_int year_
                     ++ py ".csv"))
              true None (py "전체")
              (mkMachine (world s) None (quit_calls s)))
    as (df & s1 & -> & Hq1).
  cbn [quit_calls] in Hq1.
  rewrite prun_bind. unfold lift at 1, call, sleep, effect.
  cbv beta iota. rewrite prun_ret.
  destruct (close_driver_quits
              (mkMachine (time_sleep 10000 (world s1)) (self_driver s1)
                 (quit_calls s1)))
    as (s2 & Hc & Hd2 & Hq2).
  cbn [self_driver quit_calls] in Hd2, Hq2.
  rewrite Hc.
  eexists _, s2. split; [reflexivity|].
  rewrite Hq2, Hq1, Hd2, <- app_assoc. reflexivity.
Qed.

End Teardown.


(* ===================================================================== *)
(** * Deduplication *)
(* ===================================================================== *)

(** Two rows with the same key leave the first; two rows with different
    keys both stay. *)
Lemma drop_duplicates_pair r1 r2 :
  drop_duplicates [r1; r2]
  = if key_eqb (dedup_key r2) (dedup_key r1) then [r1] else [r1; r2].
Proof.
  unfold drop_duplicates. cbn [drop_duplicates_from existsb].
  rewrite orb_false_r.
  destruct (key_eqb (dedup_key r2) (dedup_key r1)); reflexivity.
Qed.

Lemma key_eqb_eq a b : key_eqb a b = true <-> a = b.
Proof.
  destruct a as [[a1 a2] a3], b as [[b1 b2] b3]. unfold key_eqb.
  rewrite !andb_true_iff, !pystr_eqb_eq. split.
  - intros [[-> ->] ->]. reflexivity.
  - intros H. injection H as -> -> ->. repeat split.
Qed.

(** Of two rows with one key only the first stays, whatever their other
    fields are. *)
Lemma drop_duplicates_same_key r1 r2 :
  datetime r1 = datetime r2 -> company_name r1 = company_name r2 ->
  title r1 = title r2 ->
  drop_duplicates [r1; r2] = [r1].
Proof.
  intros Hd Hc Ht. rewrite drop_duplicates_pair.
  assert (E : key_eqb (dedup_key r2) (dedup_key r1) = true).
  { apply key_eqb_eq. unfold dedup_key. rewrite Hd, Hc, Ht. reflexivity. }
  rewrite E. reflexivity.
Qed.

Section DedupScenario.
Context {rt : PyRuntime}.

(** C4, as the code has it.  The rows of 08:00:00 and 09:00:00 differ in
    [datetime], which is part of the key, so deduplication keeps both,
    each with [designation_type = designation]; and any two rows that
    agree on datetime, company_name and title leave exactly one record,
    the first, as the row of 08:00:00 and a second row with its key
    do. *)
Theorem dedup_scenario :
  drop_duplicates [scenario_row_0800; scenario_row_0900]
  = [scenario_row_0800; scenario_row_0900]
  /\ designation_type scenario_row_0800 = designation
  /\ designation_type scenario_row_0900 = designation
  /\ drop_duplicates [scenario_row_0800; scenario_row_0800_again]
     = [scenario_row_0800]
  /\ (forall r1 r2 : data_item,
         datetime r1 = datetime r2 ->
         company_name r1 = company_name r2 ->
         title r1 = title r2 ->
         drop_duplicates [r1; r2] = [r1]).
Proof.
  split; [rewrite drop_duplicates_pair; reflexivity|].
  split; [reflexivity|]. split; [reflexivity|].
  split; [rewrite drop_duplicates_pair; reflexivity|].
  intros r1 r2. apply drop_duplicates_same_key.
Qed.
End DedupScenario.

(** The general sentence of C4 at two records of one announcement that
    differ in row number, submitter and link. *)
Lemma dedup_scenario_witness :
  drop_duplicates
    [ mkItem (py "1") (py "08:00:00") (py "A Corp") (py "투자경고종목 지정")
        (py "X") None false false designation;
      mkItem (py "7") (py "08:00:00") (py "A Corp") (py "투자경고종목 지정")
        (py "Y") (Some (py "https://kind.krx.co.kr")) false false
        designation ]
  = [ mkItem (py "1") (py "08:00:00") (py "A Corp") (py "투자경고종목 지정")
        (py "X") None false false designation ].
Proof.
  apply (proj2 (proj2 (proj2 (proj2 (@dedup_scenario ascii_runtime)))));
    reflexivity.
Defined.

(** C4, as stated, fails: deduplication of the two rows does not leave
    exactly one record. *)
Lemma dedup_scenario_keeps_both :
  List.length
    (drop_duplicates [@scenario_row_0800 ascii_runtime;
                      @scenario_row_0900 ascii_runtime]) = 2%nat
  /\ ~ (exists r,
          drop_duplicates [@scenario_row_0800 ascii_runtime;
                           @scenario_row_0900 ascii_runtime] = [r]
          /\ designation_type r = designation).
Proof.
  rewrite drop_duplicates_pair.
  change (key_eqb (dedup_key (@scenario_row_0900 ascii_runtime))
            (dedup_key (@scenario_row_0800 ascii_runtime))) with false.
  cbv iota. split; [reflexivity|].
  intros (r & H & _). discriminate H.
Qed.

(* ===================================================================== *)
(** * More on deduplication *)
(* ===================================================================== *)

Lemma seen_spec k seen :
  existsb (key_eqb k) seen = true <-> In k seen.
Proof.
  rewrite existsb_exists. split.
  - intros (x & Hin & E). apply key_eqb_eq in E. subst. exact Hin.
  - intros H. exists k. split; [exact H|]. apply key_eqb_eq. reflexivity.
Qed.

Lemma seen_false k seen :
  existsb (key_eqb k) seen = false <-> ~ In k seen.
Proof.
  rewrite <- seen_spec. destruct (existsb (key_eqb k) seen); split;
    intros; congruence.
Qed.

Lemma drop_duplicates_from_in seen rows r :
  In r (drop_duplicates_from seen rows) ->
  In r rows /\ ~ In (dedup_key r) seen.
Proof.
  revert seen. induction rows as [|x rows IH]; intros seen H; [contradiction|].
  cbn [drop_duplicates_from] in H.
  destruct (existsb (key_eqb (dedup_key x)) seen) eqn:E.
  - apply IH in H. destruct H as [H1 H2]. split; [right; exact H1|exact H2].
  - destruct H as [<-|H].
    + split; [left; reflexivity|]. apply seen_false. exact E.
    + apply IH in H. destruct H as [H1 H2]. split; [right; exact H1|].
      intros Hin. apply H2. right. exact Hin.
Qed.

Lemma drop_duplicates_from_nodup seen rows :
  NoDup (List.map dedup_key (drop_duplicates_from seen rows)).
Proof.
  revert seen. induction rows as [|x rows IH]; intros seen; [constructor|].
  cbn [drop_duplicates_from].
  destruct (existsb (key_eqb (dedup_key x)) seen); [apply IH|].
  cbn [List.map]. constructor; [|apply IH].
  intros Hin. apply in_map_iff in Hin. destruct Hin as (r & Hk & Hr).
  apply drop_duplicates_from_in in Hr. destruct Hr as [_ Hr].
  apply Hr. left. symmetry. exact Hk.
Qed.

(** Rows whose keys are distinct and new are all kept. *)
Lemma drop_duplicates_from_fixed seen rows :
  NoDup (List.map dedup_key rows) ->
  (forall r, In r rows -> ~ In (dedup_key r) seen) ->
  drop_duplicates_from seen rows = rows.
Proof.
  revert seen. induction rows as [|x rows IH]; intros seen Hnd Hnew;
    [reflexivity|].
  cbn [drop_duplicates_from].
  cbn [List.map] in Hnd. inversion Hnd as [|k ks Hk Hnd']; subst.
  rewrite (proj2 (seen_false _ _) (Hnew x (or_introl eq_refl))).
  f_equal. apply IH; [exact Hnd'|].
  intros r Hr [E|Hin].
  - apply Hk. rewrite E. apply in_map. exact Hr.
  - apply (Hnew r (or_intror Hr)). exact Hin.
Qed.

Lemma drop_duplicates_from_first seen rows r :
  first_of_key r rows -> ~ In (dedup_key r) seen ->
  In r (drop_duplicates_from seen rows).
Proof.
  intros (pre & post & -> & Hpre). revert seen.
  induction Hpre as [|x pre Hx Hpre IH]; intros seen Hnew.
  - cbn [app drop_duplicates_from].
    rewrite (proj2 (seen_false _ _) Hnew). left. reflexivity.
  - cbn [app drop_duplicates_from].
    destruct (existsb (key_eqb (dedup_key x)) seen).
    + apply IH. exact Hnew.
    + right. apply IH. intros [E|Hin]; [apply Hx; exact E|apply Hnew, Hin].
Qed.

Lemma first_of_key_exists rows r :
  In r rows -> exists r', first_of_key r' rows /\ dedup_key r' = dedup_key r.
Proof.
  induction rows as [|x rows IH]; intros Hin; [contradiction|].
  destruct (key_eqb (dedup_key x) (dedup_key r)) eqn:E.
  - apply key_eqb_eq in E. exists x. split; [|exact E].
    exists [], rows. split; [reflexivity|constructor].
  - assert (Hne : dedup_key x <> dedup_key r).
    { intros Heq. apply key_eqb_eq in Heq. congruence. }
    destruct Hin as [->|Hin]; [contradiction Hne; reflexivity|].
    destruct (IH Hin) as (r' & (pre & post & -> & Hpre) & Hk).
    exists r'. split; [|exact Hk].
    exists (x :: pre), post. split; [reflexivity|].
    constructor; [congruence|exact Hpre].
Qed.

(** X1.  After [drop_duplicates] no two records share the key
    (datetime, company_name, title). *)
Theorem drop_duplicates_distinct_keys (rows : list data_item) :
  NoDup (List.map dedup_key (drop_duplicates rows)).
Proof. apply drop_duplicates_from_nodup. Qed.


(** X3.  Deduplication invents nothing and loses no key: every record kept
    is a record of the input, the first record of every key is kept, and
    so every key of the input is still present. *)
Theorem drop_duplicates_keeps_first (rows : list data_item) :
  (forall r, In r (drop_duplicates rows) -> In r rows)
  /\ (forall r, first_of_key r rows -> In r (drop_duplicates rows))
  /\ (forall r, In r rows ->
        In (dedup_key r) (List.map dedup_key (drop_duplicates rows))).
Proof.
  split; [|split].
  - intros r H. apply drop_duplicates_from_in in H. apply H.
  - intros r H. apply drop_duplicates_from_first; [exact H|intros []].
  - intros r H. destruct (first_of_key_exists rows r H) as (r' & Hf & Hk).
    rewrite <- Hk. apply in_map.
    apply drop_duplicates_from_first; [exact Hf|intros []].
Qed.

(* ===================================================================== *)
(** * More on titles *)
(* ===================================================================== *)

Section MoreTitleFacts.
Context {rt : PyRuntime}.

Lemma redesignation_word_designates title :
  occurs_in (py "재지정") title -> occurs_in (py "지정") title.
Proof.
  intros (pre & post & ->).
  exists (pre ++ [51116]), post.
  rewrite <- app_assoc. reflexivity.
Qed.

(** X4.  A notice of re-designation counts as a designation as well: a
    title with "투자경고" and "재지정" and without "해제" has
    designation_type "designation" and is_redesignation True, because
    "재지정" contains "지정". *)
Theorem analyze_title_redesignation (title : pystr) :
  occurs_in (py "투자경고") title ->
  occurs_in (py "재지정") title ->
  ~ occurs_in (py "해제") title ->
  a_designation_type (_analyze_title title) = designation
  /\ a_is_redesignation (_analyze_title title) = true.
Proof.
  intros Hw Hre Hn. split.
  - rewrite designation_type_by_keywords.
    apply redesignation_word_designates in Hre.
    apply contains_occurs_in in Hw, Hre.
    apply not_contains_occurs_in in Hn.
    rewrite Hw, Hre, Hn. reflexivity.
  - unfold _analyze_title, a_is_redesignation.
    apply (any_in_occurs _ (py "재지정")); [left; reflexivity|exact Hre].
Qed.
End MoreTitleFacts.

Lemma analyze_title_redesignation_witness :
  a_designation_type
    (@_analyze_title ascii_runtime (py "투자경고종목 재지정")) = designation
  /\ a_is_redesignation
       (@_analyze_title ascii_runtime (py "투자경고종목 재지정")) = true.
Proof.
  apply (@analyze_title_redesignation ascii_runtime).
  - apply contains_occurs_in. vm_compute. reflexivity.
  - apply contains_occurs_in. vm_compute. reflexivity.
  - apply not_contains_occurs_in. vm_compute. reflexivity.
Defined.

(* ===================================================================== *)
(** * The [href] branch of [_extract_disclosure_link] *)
(* ===================================================================== *)

Lemma href_call_border p rest :
  startswith (py "disclsviewer.do?method=search&acptno=") (p ++ (py "disclsviewer.do?method=search&acptno=") ++ rest) = true ->
  p = [] \/ startswith (py "disclsviewer.do?method=search&acptno=") p = true.
Proof.
  intros H.
  change (py "disclsviewer.do?method=search&acptno=") with
    [100; 105; 115; 99; 108; 115; 118; 105; 101; 119; 101; 114; 46; 100;
     111; 63; 109; 101; 116; 104; 111; 100; 61; 115; 101; 97; 114; 99;
     104; 38; 97; 99; 112; 116; 110; 111; 61] in *.
  destruct p as [|c1 p]; [left; reflexivity|right].
  do 36 (destruct p as [|? p]; [exfalso; simpl in H; chain_false H|]).
  simpl in *. exact H.
Qed.

Lemma no_earlier_href_call pre rest p1 c p2 :
  ~ occurs_in (py "disclsviewer.do?method=search&acptno=") pre ->
  pre = p1 ++ c :: p2 ->
  match_disclsviewer_href (c :: p2 ++ (py "disclsviewer.do?method=search&acptno=") ++ rest) = None.
Proof.
  intros Hno E. unfold match_disclsviewer_href.
  rewrite strip_prefix_startswith; [reflexivity|].
  destruct (startswith (py "disclsviewer.do?method=search&acptno=") (c :: p2 ++ (py "disclsviewer.do?method=search&acptno=") ++ rest))
    eqn:Hs; [|reflexivity].
  exfalso. apply Hno.
  change (c :: p2 ++ (py "disclsviewer.do?method=search&acptno=") ++ rest)
    with ((c :: p2) ++ (py "disclsviewer.do?method=search&acptno=") ++ rest) in Hs.
  apply href_call_border in Hs. destruct Hs as [Hs|Hs]; [discriminate|].
  rewrite E. apply occurs_in_suffix. apply startswith_occurs_in. exact Hs.
Qed.

Lemma no_amp_span s : no_amp s -> Forall (fun c => not_amp c = true) s.
Proof.
  intros H. eapply Forall_impl; [|exact H].
  intros c Hc. unfold not_amp. destruct (Z.eqb_spec c 38); [contradiction|].
  reflexivity.
Qed.

Lemma span_all f a :
  Forall (fun x => f x = true) a -> span f a = (a, []).
Proof.
  intros Ha. induction Ha as [|x a Hx Ha IH]; simpl; [reflexivity|].
  rewrite Hx, IH. reflexivity.
Qed.

Lemma truthy_nonempty s : s <> [] -> truthy s = true.
Proof. destruct s; [contradiction|reflexivity]. Qed.

Lemma match_href_call A B C post :
  A <> [] -> B <> [] -> C <> [] -> no_amp A -> no_amp B -> no_amp C ->
  post = [] \/ (exists r, post = 38 :: r) ->
  match_disclsviewer_href
    ((py "disclsviewer.do?method=search&acptno=") ++ A ++ py "&docno=" ++ B ++ py "&viewerhost=" ++ C
     ++ post)
  = Some (A, B, C).
Proof.
  intros NA NB NC HA HB HC Hpost. unfold match_disclsviewer_href.
  rewrite strip_prefix_app.
  rewrite (span_stop_app not_amp A); [|apply no_amp_span, HA|reflexivity].
  rewrite (truthy_nonempty A NA). cbn [negb].
  rewrite strip_prefix_app.
  rewrite (span_stop_app not_amp B); [|apply no_amp_span, HB|reflexivity].
  rewrite (truthy_nonempty B NB). cbn [negb].
  rewrite strip_prefix_app.
  destruct Hpost as [->|[r ->]].
  - rewrite app_nil_r, (span_all not_amp C); [|apply no_amp_span, HC].
    rewrite (truthy_nonempty C NC). reflexivity.
  - rewrite (span_stop not_amp C 38 r); [|apply no_amp_span, HC|reflexivity].
    rewrite (truthy_nonempty C NC). reflexivity.
Qed.

Lemma onclick_miss onclick :
  (forall t, onclick = Some t -> ~ occurs_in (py "openDisclsViewer") t) ->
  match onclick with
  | Some t => truthy t && contains (py "openDisclsViewer") t
  | None => false
  end = false.
Proof.
  intros H. destruct onclick as [t|]; [|reflexivity].
  rewrite (proj2 (not_contains_occurs_in _ _) (H t eq_refl)).
  apply andb_false_r.
Qed.

Lemma extract_disclosure_link_by_href onclick pre A B C post :
  (forall t, onclick = Some t -> ~ occurs_in (py "openDisclsViewer") t) ->
  ~ occurs_in (py "disclsviewer.do?method=search&acptno=") pre ->
  A <> [] -> B <> [] -> C <> [] -> no_amp A -> no_amp B -> no_amp C ->
  post = [] \/ (exists r, post = 38 :: r) ->
  _extract_disclosure_link onclick
    (Some (pre ++ (py "disclsviewer.do?method=search&acptno=") ++ A ++ py "&docno=" ++ B
           ++ py "&viewerhost=" ++ C ++ post))
  = Some (disclosure_url A B C).
Proof.
  intros Ho Hpre NA NB NC HA HB HC Hpost.
  unfold _extract_disclosure_link.
  rewrite (onclick_miss onclick Ho). cbv iota.
  set (rest := A ++ py "&docno=" ++ B ++ py "&viewerhost=" ++ C ++ post).
  assert (Ht : truthy (pre ++ (py "disclsviewer.do?method=search&acptno=") ++ rest) = true).
  { apply truthy_app_r. reflexivity. }
  assert (Hc : contains (py "disclsviewer.do")
                 (pre ++ (py "disclsviewer.do?method=search&acptno=") ++ rest) = true).
  { apply contains_occurs_in.
    exists pre, (py "?method=search&acptno=" ++ rest).
    change (py "disclsviewer.do?method=search&acptno=")
      with (py "disclsviewer.do" ++ py "?method=search&acptno=").
    rewrite <- !app_assoc. reflexivity. }
  rewrite Ht, Hc. simpl andb. cbv iota.
  rewrite re_search_skip.
  - rewrite (re_search_here _ _ (A, B, C)); [reflexivity|].
    apply match_href_call; assumption.
  - intros p1 c p2 E. apply (no_earlier_href_call pre rest p1 c p2 Hpre E).
Qed.

(** X5.  With no viewer call in the click handler, an [href] whose first
    [disclsviewer.do?method=search&acptno=] is followed by A, [&docno=], B,
    [&viewerhost=] and C (non-empty, without [&], C ending the text or
    followed by [&]) yields the viewer URL of A, B and C. *)
Theorem extract_disclosure_link_href (onclick : option pystr)
    (pre A B C post : pystr) :
  (forall t, onclick = Some t -> ~ occurs_in (py "openDisclsViewer") t) ->
  ~ occurs_in (py "disclsviewer.do?method=search&acptno=") pre ->
  A <> [] -> B <> [] -> C <> [] -> no_amp A -> no_amp B -> no_amp C ->
  post = [] \/ (exists r, post = 38 :: r) ->
  _extract_disclosure_link onclick
    (Some (pre ++ py "disclsviewer.do?method=search&acptno=" ++ A
           ++ py "&docno=" ++ B ++ py "&viewerhost=" ++ C ++ post))
  = Some (disclosure_url A B C).
Proof. apply extract_disclosure_link_by_href. Qed.

Lemma extract_disclosure_link_href_witness :
  _extract_disclosure_link None
    (Some (py "/common/" ++ py "disclsviewer.do?method=search&acptno="
           ++ py "20240102000123" ++ py "&docno=" ++ py "7"
           ++ py "&viewerhost=" ++ py "kind" ++ []))
  = Some (disclosure_url (py "20240102000123") (py "7") (py "kind")).
Proof.
  apply (extract_disclosure_link_href None (py "/common/")
           (py "20240102000123") (py "7") (py "kind") []).
  - intros t H. discriminate H.
  - apply not_contains_occurs_in. vm_compute. reflexivity.
  - discriminate.
  - discriminate.
  - discriminate.
  - unfold no_amp. repeat constructor; discriminate.
  - unfold no_amp. repeat constructor; discriminate.
  - unfold no_amp. repeat constructor; discriminate.
  - left. reflexivity.
Defined.

(** X6.  The click handler shadows the [href]: when the handler mentions
    [openDisclsViewer] but the call pattern matches nowhere in it, no link
    is returned, whatever the [href] holds. *)
Theorem extract_disclosure_link_onclick_shadows (t : pystr)
    (href : option pystr) :
  occurs_in (py "openDisclsViewer") t ->
  re_search match_openDisclsViewer t = None ->
  _extract_disclosure_link (Some t) href = None.
Proof.
  intros Hocc Hno. unfold _extract_disclosure_link.
  assert (Ht : truthy t = true).
  { destruct Hocc as (pre & post & ->). apply truthy_app_r. reflexivity. }
  apply contains_occurs_in in Hocc. rewrite Ht, Hocc. simpl andb. cbv iota.
  rewrite Hno. reflexivity.
Qed.

Lemma extract_disclosure_link_onclick_shadows_witness :
  _extract_disclosure_link (Some (py "openDisclsViewer(a, b, c)"))
    (Some (disclosure_url (py "1") (py "2") (py "3"))) = None
  /\ _extract_disclosure_link None
       (Some (disclosure_url (py "1") (py "2") (py "3")))
     = Some (disclosure_url (py "1") (py "2") (py "3")).
Proof.
  split.
  - apply extract_disclosure_link_onclick_shadows.
    + apply contains_occurs_in. vm_compute. reflexivity.
    + vm_compute. reflexivity.
  - vm_compute. reflexivity.
Defined.
